(** * A shallow embedding of the SaaS API of [main.py]

    The handlers of [main.py] (signup, login, me, the project CRUD and the
    metered analysis endpoint) are embedded as functions in a state-and-
    exception monad over the two store collections, and the properties of
    the specification are proved about them.

    Conventions.
    - A Python [str] that the code only stores, compares and concatenates
      (emails, names, salts, keys, the password of a signup, which the
      request model has checked) is well-formed Unicode and is held as
      the byte string of its UTF-8 encoding, a Rocq [string].
    - A [str] whose characters are inspected ([strip], [split], [len],
      slicing in [analyze_text]), or that reaches [.encode] unchecked (the
      password of a login), is a list of code points, lone surrogates
      included.
    - What [main.py] imports and does not define (the handle [db] of
      [database], the validator behind [EmailStr]) is a component [env]
      of the world, which no handler changes.
    - What a handler draws from its environment ([secrets.token_hex],
      [datetime.now], the [ObjectId] minted by [insert_one]) is an explicit
      argument of its embedding. *)

From Stdlib Require Import List String Ascii ZArith NArith Bool Arith Lia.
From Stdlib Require Import Permutation Sorted.
Import ListNotations.
Open Scope string_scope.
Open Scope list_scope.
Open Scope Z_scope.

(** ** hashlib: SHA-256 (FIPS 180-4) over byte strings

    [hashlib.sha256] is the one library function whose values the claims
    depend on; it is embedded from the standard, on 32-bit words held in
    [Z] with the wrap-around written out. *)
Module hashlib.

Definition w32 (x : Z) : Z := x mod 2 ^ 32.

Definition add32 (x y : Z) : Z := w32 (x + y).

Definition rotr (n x : Z) : Z :=
  Z.lor (Z.shiftr x n) (w32 (Z.shiftl x (32 - n))).

Definition Ch (x y z : Z) : Z :=
  Z.lxor (Z.land x y) (Z.land (Z.lxor x 0xffffffff) z).

Definition Maj (x y z : Z) : Z :=
  Z.lxor (Z.lxor (Z.land x y) (Z.land x z)) (Z.land y z).

Definition Sigma0 (x : Z) : Z := Z.lxor (Z.lxor (rotr 2 x) (rotr 13 x)) (rotr 22 x).
Definition Sigma1 (x : Z) : Z := Z.lxor (Z.lxor (rotr 6 x) (rotr 11 x)) (rotr 25 x).
Definition sigma0 (x : Z) : Z := Z.lxor (Z.lxor (rotr 7 x) (rotr 18 x)) (Z.shiftr x 3).
Definition sigma1 (x : Z) : Z := Z.lxor (Z.lxor (rotr 17 x) (rotr 19 x)) (Z.shiftr x 10).

(** The first 64 primes, by trial division. *)
Definition is_prime (k : nat) : bool :=
  forallb (fun d => negb (k mod d =? 0)%nat) (seq 2 (k - 2)).

Definition primes64 : list Z :=
  Eval vm_compute in map Z.of_nat (filter is_prime (seq 2 310)).

(** The largest [m] below [2 ^ bits] with [m ^ r <= x], found bit by bit
    from the top. *)
Fixpoint root_bits (r x : Z) (bits : nat) (m : Z) : Z :=
  match bits with
  | O => m
  | S b =>
      let m' := m + 2 ^ Z.of_nat b in
      root_bits r x b (if m' ^ r <=? x then m' else m)
  end.

(** The first 32 bits of the fractional part of the [r]-th root of [p]. *)
Definition frac_root (r p : Z) : Z :=
  root_bits r (p * 2 ^ (32 * r)) 40 0 mod 2 ^ 32.

(** The round constants: from the cube roots of the first 64 primes. *)
Definition K256 : list Z := Eval vm_compute in map (frac_root 3) primes64.

(** The initial hash value: from the square roots of the first 8 primes. *)
Definition H256 : list Z := Eval vm_compute in map (frac_root 2) (firstn 8 primes64).

Definition byte_of (c : ascii) : Z := Z.of_N (N_of_ascii c).

Definition bytes_of (s : string) : list Z := map byte_of (list_ascii_of_string s).

(** The length of the message in bits, as eight big-endian bytes. *)
Definition len_bytes (bits : Z) : list Z :=
  map (fun i => Z.shiftr bits (8 * i) mod 256) [7; 6; 5; 4; 3; 2; 1; 0].

(** Padding: a 1 bit, zeros up to 56 modulo 64, then the bit length. *)
Definition pad (msg : list Z) : list Z :=
  let n := Z.of_nat (List.length msg) in
  let zeros := Z.to_nat ((55 - n) mod 64) in
  msg ++ [0x80] ++ repeat 0 zeros ++ len_bytes (8 * n).

(** Big-endian 32-bit words of a byte sequence whose length is a multiple
    of four (trailing bytes, which padding never leaves, are dropped). *)
Fixpoint words_of (bs : list Z) : list Z :=
  match bs with
  | a :: b :: c :: d :: rest =>
      (Z.shiftl a 24 + Z.shiftl b 16 + Z.shiftl c 8 + d) :: words_of rest
  | _ => []
  end.

(** The message schedule, most recent word first: [n] more words are
    derived from a schedule that already holds at least sixteen. *)
Fixpoint schedule (n : nat) (rev_w : list Z) : list Z :=
  match n with
  | O => rev_w
  | S n' =>
      let w := add32 (add32 (sigma1 (nth 1 rev_w 0)) (nth 6 rev_w 0))
                     (add32 (sigma0 (nth 14 rev_w 0)) (nth 15 rev_w 0)) in
      schedule n' (w :: rev_w)
  end.

Record regs := Regs { ra : Z; rb : Z; rc : Z; rd : Z; re : Z; rf : Z; rg : Z; rh : Z }.

Definition round (r : regs) (kw : Z * Z) : regs :=
  let t1 := add32 (add32 (add32 (rh r) (Sigma1 (re r))) (Ch (re r) (rf r) (rg r)))
                  (add32 (fst kw) (snd kw)) in
  let t2 := add32 (Sigma0 (ra r)) (Maj (ra r) (rb r) (rc r)) in
  Regs (add32 t1 t2) (ra r) (rb r) (rc r) (add32 (rd r) t1) (re r) (rf r) (rg r).

Definition regs_add (x y : regs) : regs :=
  Regs (add32 (ra x) (ra y)) (add32 (rb x) (rb y)) (add32 (rc x) (rc y))
       (add32 (rd x) (rd y)) (add32 (re x) (re y)) (add32 (rf x) (rf y))
       (add32 (rg x) (rg y)) (add32 (rh x) (rh y)).

Definition compress (h : regs) (block : list Z) : regs :=
  let w := rev (schedule 48 (rev block)) in
  regs_add h (fold_left round (combine K256 w) h).

(** The blocks of sixteen words are consumed one by one; [fuel] bounds the
    number of blocks and is the number of words in the callers below. *)
Fixpoint blocks (fuel : nat) (h : regs) (ws : list Z) : regs :=
  match fuel, ws with
  | S fuel', _ :: _ => blocks fuel' (compress h (firstn 16 ws)) (skipn 16 ws)
  | _, _ => h
  end.

Definition regs_init : regs :=
  Regs (nth 0 H256 0) (nth 1 H256 0) (nth 2 H256 0) (nth 3 H256 0)
       (nth 4 H256 0) (nth 5 H256 0) (nth 6 H256 0) (nth 7 H256 0).

Definition digest_words (msg : list Z) : list Z :=
  let ws := words_of (pad msg) in
  let r := blocks (List.length ws) regs_init ws in
  [ra r; rb r; rc r; rd r; re r; rf r; rg r; rh r].

Definition hex_digit (n : Z) : ascii :=
  nth (Z.to_nat n) (list_ascii_of_string "0123456789abcdef") "0"%char.

(** Eight lower-case hexadecimal digits of a 32-bit word. *)
Definition hex_word (w : Z) : string :=
  string_of_list_ascii
    (map (fun i => hex_digit (Z.shiftr w (4 * i) mod 16)) [7; 6; 5; 4; 3; 2; 1; 0]).

(** [hashlib.sha256(msg).hexdigest()] *)
Definition sha256_hexdigest (msg : string) : string :=
  String.concat "" (map hex_word (digest_words (bytes_of msg))).

End hashlib.

Arguments hashlib.sha256_hexdigest : simpl never.

(** ** Strings, tokens and object identifiers *)

(** Python truthiness of an [Optional[str]]: [None] and the empty string
    are falsy. *)
Definition truthy (s : option string) : bool :=
  match s with
  | Some (String _ _) => true
  | _ => false
  end.

Definition is_hex_lower (c : ascii) : bool :=
  let n := N_of_ascii c in
  ((48 <=? n) && (n <=? 57) || (97 <=? n) && (n <=? 102))%N.

Definition is_hex (c : ascii) : bool :=
  let n := N_of_ascii c in
  (is_hex_lower c || (65 <=? n) && (n <=? 70))%N.

Definition lower (c : ascii) : ascii :=
  let n := N_of_ascii c in
  if ((65 <=? n) && (n <=? 90))%N then ascii_of_N (n + 32) else c.

(** What [secrets.token_hex(nbytes)] can return: [2 * nbytes] lower-case
    hexadecimal digits. *)
Definition is_token_hex (nbytes : nat) (s : string) : bool :=
  (String.length s =? 2 * nbytes)%nat && forallb is_hex_lower (list_ascii_of_string s).

(** [len(s)] of a [str] held as UTF-8: its bytes that are not
    continuation bytes. *)
Definition char_len (s : string) : nat :=
  List.length
    (filter (fun c => negb ((128 <=? N_of_ascii c) && (N_of_ascii c <? 192))%N)
            (list_ascii_of_string s)).

(** The UTF-8 encoding of one code point; [None] for a surrogate, which
    the codec refuses (and above the range of [str]). *)
Definition utf8_char (c : N) : option (list ascii) :=
  (if c <? 0x80 then Some [ascii_of_N c]
   else if c <? 0x800 then
     Some [ascii_of_N (0xC0 + c / 0x40); ascii_of_N (0x80 + c mod 0x40)]
   else if (0xD800 <=? c) && (c <=? 0xDFFF) then None
   else if c <? 0x10000 then
     Some [ascii_of_N (0xE0 + c / 0x1000); ascii_of_N (0x80 + (c / 0x40) mod 0x40);
           ascii_of_N (0x80 + c mod 0x40)]
   else if c <? 0x110000 then
     Some [ascii_of_N (0xF0 + c / 0x40000); ascii_of_N (0x80 + (c / 0x1000) mod 0x40);
           ascii_of_N (0x80 + (c / 0x40) mod 0x40); ascii_of_N (0x80 + c mod 0x40)]
   else None)%N.

(** [s.encode("utf-8")] on a [str] given by its code points; [None]
    stands for [UnicodeEncodeError]. *)
Fixpoint encode_utf8 (s : list N) : option string :=
  match s with
  | [] => Some EmptyString
  | c :: s' =>
      match utf8_char c, encode_utf8 s' with
      | Some b, Some r => Some (string_of_list_ascii b ++ r)%string
      | _, _ => None
      end
  end.

(** The white space that [bytes.fromhex] skips: ASCII tab, line feed,
    vertical tab, form feed, carriage return and space. *)
Definition is_ascii_space (c : ascii) : bool :=
  let n := N_of_ascii c in
  ((9 <=? n) && (n <=? 13) || (n =? 32))%N.

(** [bytes.fromhex(s)], the bytes rendered as lower-case hexadecimal
    digits: white space is skipped before each pair of digits, the two
    digits of a pair are adjacent; [None] stands for [ValueError]. *)
Fixpoint fromhex (cs : list ascii) : option (list ascii) :=
  match cs with
  | [] => Some []
  | c :: cs' =>
      if is_ascii_space c then fromhex cs'
      else match cs' with
           | d :: cs'' =>
               if is_hex c && is_hex d
               then option_map (fun r => lower c :: lower d :: r) (fromhex cs'')
               else None
           | [] => None
           end
  end.

(** A [bson.ObjectId] is held as its canonical rendering [str(oid)], the
    lower-case hexadecimal digits of its bytes: 24 digits for the twelve
    bytes of an identifier that the store mints. *)
Definition ObjectId := string.

(** [ObjectId(project_id)] on a [str]: a string of 24 characters is
    handed to [bytes.fromhex], any other is refused; [None] stands for
    [InvalidId].  Since [fromhex] skips white space, a string of 24
    characters with blanks in it yields an identifier of fewer than
    twelve bytes. *)
Definition ObjectId_of_str (s : string) : option ObjectId :=
  if (char_len s =? 24)%nat
  then option_map string_of_list_ascii (fromhex (list_ascii_of_string s))
  else None.

Definition datetime := Z.

(** ** The document store *)

(** A document of the [user] collection, with the keys [signup] writes;
    [usage_count] is absent until the first [$inc]. *)
Record UserDoc := mkUser {
  u_id : ObjectId;
  u_name : string;
  u_email : string;
  u_plan : string;
  u_password_hash : string;
  u_password_salt : string;
  u_api_key : string;
  u_created_at : datetime;
  u_updated_at : datetime;
  u_usage_count : option Z
}.

(** A document of the [project] collection, with the keys
    [create_project] writes. *)
Record ProjectDoc := mkProject {
  p_id : ObjectId;
  p_owner_email : string;
  p_name : string;
  p_description : option string;
  p_status : string;
  p_created_at : datetime;
  p_updated_at : datetime
}.

(** The two collections, each in its natural (insertion) order. *)
Record Database := mkDb {
  user : list UserDoc;
  project : list ProjectDoc
}.

Inductive Coll := User | Project.

(** One access of a collection by a driver call. *)
Inductive Access :=
| Read (c : Coll)
| Write (c : Coll).

(** What [main.py] imports and does not define, taken as parameters:
    - [db_has_bool]: whether the class of the handle built by [database]
      implements truth testing.  [bool(db)] is [True] when it does (the
      [Database] of pymongo 3) and raises [NotImplementedError] when it
      does not (the [Database] of pymongo 4);
    - [EmailStr]: the validator behind pydantic's [EmailStr], [None]
      when it refuses an address, the normalised address otherwise. *)
Record Env := mkEnv {
  db_has_bool : bool;
  EmailStr : string -> option string
}.

(** The global [db] of [database] ([None] when no store is configured),
    the accesses made so far, oldest first, and the installation. *)
Record World := mkWorld {
  db : option Database;
  log : list Access;
  env : Env
}.

Inductive Exn :=
| HTTPException (status_code : Z) (detail : string)
| RequestValidationError
| ValidationError
| NotImplementedError
| UnicodeEncodeError
| TypeError
| AttributeError
| DuplicateKeyError.

(** FastAPI answers an [HTTPException] with its status code, a request
    that fails model validation with 422 (the application installs no
    handler of its own), any other exception with 500. *)
Definition status_of (e : Exn) : Z :=
  match e with
  | HTTPException s _ => s
  | RequestValidationError => 422
  | _ => 500
  end.

(** ** Handlers run in a state-and-exception monad *)

Inductive Result (A : Type) :=
| Return (a : A) (w : World)
| Raise (e : Exn) (w : World).
Arguments Return {A} a w.
Arguments Raise {A} e w.

Definition M (A : Type) := World -> Result A.

Definition ret {A} (a : A) : M A := fun w => Return a w.

Definition raise {A} (e : Exn) : M A := fun w => Raise e w.

Definition bind {A B} (m : M A) (k : A -> M B) : M B :=
  fun w => match m w with
           | Return a w' => k a w'
           | Raise e w' => Raise e w'
           end.

Notation "x <- m ;; k" := (bind m (fun x => k))
  (at level 61, m at next level, right associativity).

Definition world_of {A} (r : Result A) : World :=
  match r with
  | Return _ w => w
  | Raise _ w => w
  end.

(** ** pymongo on the two collections *)

Definition logged (a : Access) (w : World) : World :=
  mkWorld (db w) (log w ++ [a]) (env w).

(** Replace the first element that satisfies [f] by its image under [g]. *)
Fixpoint update_first {A} (f : A -> bool) (g : A -> A) (l : list A) : list A :=
  match l with
  | [] => []
  | x :: l' => if f x then g x :: l' else x :: update_first f g l'
  end.

(** Remove the first element that satisfies [f]. *)
Fixpoint remove_first {A} (f : A -> bool) (l : list A) : list A :=
  match l with
  | [] => []
  | x :: l' => if f x then l' else x :: remove_first f l'
  end.

(** [bool(db)], as evaluated by [... if db else None]: [False] for
    [None]; for a handle, [True] or the [NotImplementedError] of a class
    without truth testing. *)
Definition db_truthy : M bool :=
  fun w => match db w with
           | None => Return false w
           | Some _ =>
               if db_has_bool (env w) then Return true w
               else Raise NotImplementedError w
           end.

(** [db["user"].find_one(filter)] *)
Definition user_find_one (f : UserDoc -> bool) : M (option UserDoc) :=
  fun w => match db w with
           | None => Raise TypeError w
           | Some d => Return (find f (user d)) (logged (Read User) w)
           end.

(** [db["user"].insert_one(doc).inserted_id]; the unique index on [_id]
    refuses an identifier the collection already holds. *)
Definition user_insert_one (doc : UserDoc) : M ObjectId :=
  fun w => match db w with
           | None => Raise TypeError w
           | Some d =>
               if existsb (fun u => u_id u =? u_id doc)%string (user d)
               then Raise DuplicateKeyError (logged (Write User) w)
               else Return (u_id doc)
                      (mkWorld (Some (mkDb (user d ++ [doc]) (project d)))
                               (log w ++ [Write User]) (env w))
           end.

(** [db["user"].update_one(filter, update)] *)
Definition user_update_one (f : UserDoc -> bool) (g : UserDoc -> UserDoc) : M unit :=
  fun w => match db w with
           | None => Raise TypeError w
           | Some d =>
               Return tt (mkWorld (Some (mkDb (update_first f g (user d)) (project d)))
                                  (log w ++ [Write User]) (env w))
           end.

(** [db["project"].find_one(filter)] *)
Definition project_find_one (f : ProjectDoc -> bool) : M (option ProjectDoc) :=
  fun w => match db w with
           | None => Raise TypeError w
           | Some d => Return (find f (project d)) (logged (Read Project) w)
           end.

(** Insertion of [x] into a list sorted by [created_at], newest first. *)
Fixpoint insert_desc (x : ProjectDoc) (l : list ProjectDoc) : list ProjectDoc :=
  match l with
  | [] => [x]
  | y :: l' => if p_created_at y <=? p_created_at x then x :: l
               else y :: insert_desc x l'
  end.

(** The order of [.sort("created_at", -1)]: newest first.  The store does
    not promise an order among equal keys; the model takes one. *)
Fixpoint sort_created_desc (l : list ProjectDoc) : list ProjectDoc :=
  match l with
  | [] => []
  | x :: l' => insert_desc x (sort_created_desc l')
  end.

(** [db["project"].find(filter).sort("created_at", -1)], iterated. *)
Definition project_find_sorted (f : ProjectDoc -> bool) : M (list ProjectDoc) :=
  fun w => match db w with
           | None => Raise TypeError w
           | Some d => Return (sort_created_desc (filter f (project d)))
                              (logged (Read Project) w)
           end.

(** [db["project"].insert_one(doc).inserted_id] *)
Definition project_insert_one (doc : ProjectDoc) : M ObjectId :=
  fun w => match db w with
           | None => Raise TypeError w
           | Some d =>
               if existsb (fun p => p_id p =? p_id doc)%string (project d)
               then Raise DuplicateKeyError (logged (Write Project) w)
               else Return (p_id doc)
                      (mkWorld (Some (mkDb (user d) (project d ++ [doc])))
                               (log w ++ [Write Project]) (env w))
           end.

(** [db["project"].update_one(filter, update)] *)
Definition project_update_one (f : ProjectDoc -> bool) (g : ProjectDoc -> ProjectDoc)
  : M unit :=
  fun w => match db w with
           | None => Raise TypeError w
           | Some d =>
               Return tt (mkWorld (Some (mkDb (user d) (update_first f g (project d))))
                                  (log w ++ [Write Project]) (env w))
           end.

(** [db["project"].delete_one(filter).deleted_count] *)
Definition project_delete_one (f : ProjectDoc -> bool) : M Z :=
  fun w => match db w with
           | None => Raise TypeError w
           | Some d =>
               Return (if existsb f (project d) then 1 else 0)
                      (mkWorld (Some (mkDb (user d) (remove_first f (project d))))
                               (log w ++ [Write Project]) (env w))
           end.

(** ** Utilities and request models of [main.py] *)

(** [_hash_password(password, salt)]; [rnd] is what [secrets.token_hex(16)]
    returns when it is called, which it is exactly when [salt] is falsy
    ([None] or the empty string).  [password] is the password as
    [.encode("utf-8")] yields it: the salt being well-formed, the message
    hashed is the salt followed by these bytes.  A password that the codec
    refuses is handled where [_hash_password] is called (see [login]). *)
Definition _hash_password (rnd : string) (password : string) (salt : option string)
  : string * string :=
  let salt := match salt with
              | Some s => if truthy (Some s) then s else rnd
              | None => rnd
              end in
  (hashlib.sha256_hexdigest (salt ++ password)%string, salt).

Record SignupRequest := mkSignup {
  sr_name : string;
  sr_email : string;
  sr_password : string
}.

(** [password: str] carries no constraint, so the model admits any
    [str], one with lone surrogates included (a JSON body may spell them
    as escapes). *)
Record LoginRequest := mkLogin {
  lr_email : string;
  lr_password : list N
}.

Record ProjectCreate := mkCreate {
  pc_name : string;
  pc_description : option string
}.

(** A field of [ProjectUpdate] is unset ([None]), set to null
    ([Some None]) or set to a string. *)
Definition field := option (option string).

Record ProjectUpdate := mkUpdate {
  pu_name : field;
  pu_description : field;
  pu_status : field
}.

(** The constraint [pattern="^(active|archived)$"] on [status]; [None]
    (the default, or an explicit null) is not matched against it. *)
Definition status_ok (f : field) : bool :=
  match f with
  | Some (Some s) => (s =? "active")%string || (s =? "archived")%string
  | _ => true
  end.

Definition ProjectUpdate_valid (p : ProjectUpdate) : bool := status_ok (pu_status p).

Record ProjectOut := mkOut {
  o_id : string;
  o_name : string;
  o_description : option string;
  o_status : string;
  o_owner_email : string;
  o_created_at : datetime;
  o_updated_at : datetime
}.

(** The [ProjectOut(...)] built from a stored document; every key it
    reads with a default is present in a [ProjectDoc].  The model
    validates [owner_email: EmailStr]: it holds the normalised address,
    and an address that the validator refuses raises pydantic's
    [ValidationError]. *)
Definition ProjectOut_of (d : ProjectDoc) : M ProjectOut :=
  fun w => match EmailStr (env w) (p_owner_email d) with
           | Some email =>
               Return (mkOut (p_id d) (p_name d) (p_description d) (p_status d) email
                             (p_created_at d) (p_updated_at d)) w
           | None => Raise ValidationError w
           end.

(** A loop that maps [f] over a list, stopping at the first exception. *)
Fixpoint mapM {A B} (f : A -> M B) (l : list A) : M (list B) :=
  match l with
  | [] => ret []
  | x :: l' => y <- f x ;; ys <- mapM f l' ;; ret (y :: ys)
  end.

Record SignupOut := mkSignupOut {
  so_id : string;
  so_api_key : string;
  so_plan : string;
  so_name : string;
  so_email : string
}.

(** The dictionary returned by [login] and by [me]. *)
Record AuthOut := mkAuthOut {
  ao_api_key : string;
  ao_plan : string;
  ao_name : string;
  ao_email : string
}.

(** ** Auth helpers *)

Definition get_user_by_email (email : string) : M (option UserDoc) :=
  b <- db_truthy ;;
  if b then user_find_one (fun u => u_email u =? email)%string else ret None.

Definition get_user_by_api_key (api_key : string) : M (option UserDoc) :=
  b <- db_truthy ;;
  if b then user_find_one (fun u => u_api_key u =? api_key)%string else ret None.

(** ** Routes *)

(** [signup]: [salt] and [api_key] are the two tokens drawn, [oid] the
    identifier minted for the document, [t1] and [t2] the two readings of
    the clock. *)
Definition signup (payload : SignupRequest) (salt api_key : string) (oid : ObjectId)
    (t1 t2 : datetime) : M SignupOut :=
  existing <- get_user_by_email (sr_email payload) ;;
  match existing with
  | Some _ => raise (HTTPException 400 "Email already registered")
  | None =>
      let '(password_hash, salt) := _hash_password salt (sr_password payload) None in
      let doc := mkUser oid (sr_name payload) (sr_email payload) "free"
                        password_hash salt api_key t1 t2 None in
      inserted_id <- user_insert_one doc ;;
      ret (mkSignupOut inserted_id api_key "free" (sr_name payload) (sr_email payload))
  end.

(** [login]; [rnd] is the token [_hash_password] would draw.  The
    [.encode("utf-8")] of [_hash_password] is reached once the user has
    been found, and raises on a password that has no encoding. *)
Definition login (payload : LoginRequest) (rnd : string) : M AuthOut :=
  found <- get_user_by_email (lr_email payload) ;;
  match found with
  | None => raise (HTTPException 401 "Invalid credentials")
  | Some user =>
      match encode_utf8 (lr_password payload) with
      | None => raise UnicodeEncodeError
      | Some password =>
          let '(expected_hash, _) :=
            _hash_password rnd password (Some (u_password_salt user)) in
          if negb (expected_hash =? u_password_hash user)%string
          then raise (HTTPException 401 "Invalid credentials")
          else ret (mkAuthOut (u_api_key user) (u_plan user) (u_name user) (u_email user))
      end
  end.

Definition me (x_api_key : option string) : M AuthOut :=
  match x_api_key with
  | Some key =>
      if truthy x_api_key then
        found <- get_user_by_api_key key ;;
        match found with
        | None => raise (HTTPException 401 "Invalid API key")
        | Some user =>
            ret (mkAuthOut (u_api_key user) (u_plan user) (u_name user) (u_email user))
        end
      else raise (HTTPException 401 "Missing API key")
  | None => raise (HTTPException 401 "Missing API key")
  end.

Definition require_user (x_api_key : option string) : M UserDoc :=
  match x_api_key with
  | Some key =>
      if truthy x_api_key then
        found <- get_user_by_api_key key ;;
        match found with
        | None => raise (HTTPException 401 "Invalid API key")
        | Some user => ret user
        end
      else raise (HTTPException 401 "Missing API key")
  | None => raise (HTTPException 401 "Missing API key")
  end.

Definition list_projects (x_api_key : option string) : M (list ProjectOut) :=
  user <- require_user x_api_key ;;
  docs <- project_find_sorted (fun p => p_owner_email p =? u_email user)%string ;;
  mapM ProjectOut_of docs.

Definition create_project (payload : ProjectCreate) (x_api_key : option string)
    (oid : ObjectId) (t1 t2 : datetime) : M ProjectOut :=
  user <- require_user x_api_key ;;
  let doc := mkProject oid (u_email user) (pc_name payload) (pc_description payload)
                       "active" t1 t2 in
  inserted_id <- project_insert_one doc ;;
  doc_out <- project_find_one (fun p => p_id p =? inserted_id)%string ;;
  match doc_out with
  | None => raise AttributeError
  | Some d => ProjectOut_of d
  end.

(** A value of the [$set] document of [update_project]. *)
Inductive value :=
| VStr (s : string)
| VDate (t : datetime).

(** [payload.dict(exclude_unset=True).items()], in field order. *)
Definition dict_exclude_unset (payload : ProjectUpdate) : list (string * option string) :=
  let item (k : string) (f : field) :=
    match f with
    | Some v => [(k, v)]
    | None => []
    end in
  item "name" (pu_name payload) ++ item "description" (pu_description payload)
    ++ item "status" (pu_status payload).

(** [{k: v for k, v in ... if v is not None}] *)
Definition not_none_items (items : list (string * option string)) : list (string * value) :=
  flat_map (fun kv => match snd kv with
                      | Some s => [(fst kv, VStr s)]
                      | None => []
                      end) items.

(** [$set] of one key on a project document.  A key or a value type that
    the record cannot hold leaves it as it is; [update_project] sets none. *)
Definition set_field (d : ProjectDoc) (kv : string * value) : ProjectDoc :=
  let '(k, v) := kv in
  match v with
  | VStr s =>
      if (k =? "name")%string then
        mkProject (p_id d) (p_owner_email d) s (p_description d) (p_status d)
                  (p_created_at d) (p_updated_at d)
      else if (k =? "description")%string then
        mkProject (p_id d) (p_owner_email d) (p_name d) (Some s) (p_status d)
                  (p_created_at d) (p_updated_at d)
      else if (k =? "status")%string then
        mkProject (p_id d) (p_owner_email d) (p_name d) (p_description d) s
                  (p_created_at d) (p_updated_at d)
      else d
  | VDate t =>
      if (k =? "updated_at")%string then
        mkProject (p_id d) (p_owner_email d) (p_name d) (p_description d) (p_status d)
                  (p_created_at d) t
      else d
  end.

Definition set_fields (update : list (string * value)) (d : ProjectDoc) : ProjectDoc :=
  fold_left set_field update d.

(** The filter [{"_id": oid, "owner_email": email}]. *)
Definition owned_by (oid : ObjectId) (email : string) (p : ProjectDoc) : bool :=
  (p_id p =? oid)%string && (p_owner_email p =? email)%string.

Definition update_project (project_id : string) (payload : ProjectUpdate)
    (x_api_key : option string) (now : datetime) : M ProjectOut :=
  user <- require_user x_api_key ;;
  match ObjectId_of_str project_id with
  | None => raise (HTTPException 400 "Invalid project id")
  | Some oid =>
      proj <- project_find_one
                (owned_by oid (u_email user)) ;;
      match proj with
      | None => raise (HTTPException 404 "Project not found")
      | Some _ =>
          let update := not_none_items (dict_exclude_unset payload) in
          let update := match update with [] => [] | _ => update end in
          let update := update ++ [("updated_at", VDate now)] in
          _ <- project_update_one (fun p => p_id p =? oid)%string (set_fields update) ;;
          new_doc <- project_find_one (fun p => p_id p =? oid)%string ;;
          match new_doc with
          | None => raise AttributeError
          | Some d => ProjectOut_of d
          end
      end
  end.

Definition delete_project (project_id : string) (x_api_key : option string) : M bool :=
  user <- require_user x_api_key ;;
  match ObjectId_of_str project_id with
  | None => raise (HTTPException 400 "Invalid project id")
  | Some oid =>
      deleted_count <- project_delete_one
                (owned_by oid (u_email user)) ;;
      if deleted_count =? 0
      then raise (HTTPException 404 "Project not found")
      else ret true
  end.

(** The PATCH route as FastAPI serves it: the body is validated against
    [ProjectUpdate] before the handler is called. *)
Definition patch_project (project_id : string) (body : ProjectUpdate)
    (x_api_key : option string) (now : datetime) : M ProjectOut :=
  if ProjectUpdate_valid body
  then update_project project_id body x_api_key now
  else raise RequestValidationError.

(** ** The analysis endpoint *)

(** [str.isspace] on one code point: the white space of [strip] and of
    [split] without a separator. *)
Definition isspace (c : N) : bool :=
  ((9 <=? c) && (c <=? 13) || (28 <=? c) && (c <=? 32)
   || (c =? 0x85) || (c =? 0xa0) || (c =? 0x1680)
   || (0x2000 <=? c) && (c <=? 0x200a)
   || (c =? 0x2028) || (c =? 0x2029) || (c =? 0x202f) || (c =? 0x205f)
   || (c =? 0x3000))%N.

Fixpoint lstrip (s : list N) : list N :=
  match s with
  | c :: s' => if isspace c then lstrip s' else s
  | [] => []
  end.

Definition rstrip (s : list N) : list N := rev (lstrip (rev s)).

(** [s.strip()] *)
Definition strip (s : list N) : list N := rstrip (lstrip s).

(** [s.split()]: the scan of the string, [cur] holding the characters of
    the word being read, last one first. *)
Fixpoint split_from (cur : list N) (s : list N) : list (list N) :=
  match s with
  | [] => match cur with
          | [] => []
          | _ => [rev cur]
          end
  | c :: s' =>
      if isspace c
      then match cur with
           | [] => split_from [] s'
           | _ => rev cur :: split_from [] s'
           end
      else split_from (c :: cur) s'
  end.

Definition split (s : list N) : list (list N) := split_from [] s.

(** The code points of an ASCII literal. *)
Definition codepoints (s : string) : list N := map N_of_ascii (list_ascii_of_string s).

Record AnalyzeRequest := mkAnalyze { ar_text : list N }.

Record AnalyzeOut := mkAnalyzeOut {
  an_email : string;
  an_plan : string;
  an_words : nat;
  an_characters : nat;
  an_preview : list N
}.

(** [{"$inc": {"usage_count": 1}, "$set": {"updated_at": now}}] on a user
    document; [$inc] of an absent key sets it to the increment. *)
Definition record_usage (now : datetime) (u : UserDoc) : UserDoc :=
  mkUser (u_id u) (u_name u) (u_email u) (u_plan u) (u_password_hash u)
         (u_password_salt u) (u_api_key u) (u_created_at u) now
         (Some (match u_usage_count u with Some n => n + 1 | None => 1 end)).

Definition analyze_text (payload : AnalyzeRequest) (x_api_key : option string)
    (now : datetime) : M AnalyzeOut :=
  user <- require_user x_api_key ;;
  let text := strip (ar_text payload) in
  match text with
  | [] => raise (HTTPException 400 "Text required")
  | _ =>
      let words := split text in
      let chars := List.length text in
      let result := mkAnalyzeOut (u_email user) (u_plan user) (List.length words) chars
                                 (firstn 80 text) in
      _ <- user_update_one (fun u => u_email u =? u_email user)%string (record_usage now) ;;
      ret result
  end.

(** ** The API as a transition system *)

(** One request served, with what the handler draws from its environment. *)
Inductive Call :=
| CSignup (payload : SignupRequest) (salt api_key : string) (oid : ObjectId)
          (t1 t2 : datetime)
| CLogin (payload : LoginRequest) (rnd : string)
| CMe (x_api_key : option string)
| CList (x_api_key : option string)
| CCreate (payload : ProjectCreate) (x_api_key : option string) (oid : ObjectId)
          (t1 t2 : datetime)
| CUpdate (project_id : string) (body : ProjectUpdate) (x_api_key : option string)
          (now : datetime)
| CDelete (project_id : string) (x_api_key : option string)
| CAnalyze (payload : AnalyzeRequest) (x_api_key : option string) (now : datetime).

(** The world after a request has been served, whatever the response. *)
Definition serve (c : Call) (w : World) : World :=
  match c with
  | CSignup payload salt api_key oid t1 t2 =>
      world_of (signup payload salt api_key oid t1 t2 w)
  | CLogin payload rnd => world_of (login payload rnd w)
  | CMe key => world_of (me key w)
  | CList key => world_of (list_projects key w)
  | CCreate payload key oid t1 t2 => world_of (create_project payload key oid t1 t2 w)
  | CUpdate pid body key now => world_of (patch_project pid body key now w)
  | CDelete pid key => world_of (delete_project pid key w)
  | CAnalyze payload key now => world_of (analyze_text payload key now w)
  end.

Definition serve_all (cs : list Call) (w : World) : World := fold_left (fun w c => serve c w) cs w.

(** The users and the projects of a world; none without a store. *)
Definition users (w : World) : list UserDoc :=
  match db w with Some d => user d | None => [] end.

Definition projects (w : World) : list ProjectDoc :=
  match db w with Some d => project d | None => [] end.

(** ** Relating the store before and after a handler *)

(** [keeps P m]: whatever [m] returns or raises, the store it leaves is
    related by [P] to the store it started from. *)
Definition keeps {A} (P : option Database -> option Database -> Prop) (m : M A) : Prop :=
  forall w, P (db w) (db (world_of (m w))).

Definition users_of (o : option Database) : list UserDoc :=
  match o with Some d => user d | None => [] end.

Definition projects_of (o : option Database) : list ProjectDoc :=
  match o with Some d => project d | None => [] end.

Definition same_db (a b : option Database) : Prop := b = a.

Definition same_users (a b : option Database) : Prop := users_of b = users_of a.

(** Two user documents that differ at most in what the metering
    operation writes. *)
Definition same_identity (u u' : UserDoc) : Prop :=
  u_id u' = u_id u /\ u_name u' = u_name u /\ u_email u' = u_email u /\
  u_plan u' = u_plan u /\ u_password_hash u' = u_password_hash u /\
  u_password_salt u' = u_password_salt u /\ u_api_key u' = u_api_key u /\
  u_created_at u' = u_created_at u.

(** The user an email resolves to keeps its identity. *)
Definition email_stable (a b : option Database) : Prop :=
  forall e u, find (fun x => u_email x =? e)%string (users_of a) = Some u ->
    exists u', find (fun x => u_email x =? e)%string (users_of b) = Some u' /\
               same_identity u u'.

(** The test of [login] on the digest, as a function of its inputs: the
    digest recomputed by [_hash_password] under [salt] equals [expected]. *)
Definition verify (rnd password salt expected : string) : bool :=
  (fst (_hash_password rnd password (Some salt)) =? expected)%string.

(** The document [signup] stores: the digest is that of the salt drawn
    followed by the password. *)
Definition signup_doc (payload : SignupRequest) (salt api_key : string) (oid : ObjectId)
    (t1 t2 : datetime) : UserDoc :=
  mkUser oid (sr_name payload) (sr_email payload) "free"
         (hashlib.sha256_hexdigest (salt ++ sr_password payload)%string) salt api_key
         t1 t2 None.

(** A project after a patch, field by field: a field of the patch that
    is set to a string replaces the stored one, a field that is unset or
    null leaves it; [updated_at] becomes [now]; nothing else changes. *)
Definition patched (payload : ProjectUpdate) (now : datetime) (p : ProjectDoc)
  : ProjectDoc :=
  mkProject (p_id p) (p_owner_email p)
            (match pu_name payload with Some (Some v) => v | _ => p_name p end)
            (match pu_description payload with
             | Some (Some v) => Some v
             | _ => p_description p
             end)
            (match pu_status payload with Some (Some v) => v | _ => p_status p end)
            (p_created_at p) now.

(** The number of white-space-delimited tokens of a text, counted
    directly: a token starts at every character that is not white space
    and is either the first one or preceded by white space.  [in_word]
    tells whether the previous character belongs to a token. *)
Fixpoint count_tokens_from (in_word : bool) (s : list N) : nat :=
  match s with
  | [] => 0
  | c :: s' =>
      if isspace c then count_tokens_from false s'
      else ((if in_word then 0 else 1) + count_tokens_from true s')%nat
  end.

Definition count_tokens (s : list N) : nat := count_tokens_from false s.

Definition nonempty {A} (l : list A) : bool :=
  match l with [] => false | _ => true end.

(** A word: at least one character, none of them white space. *)
Definition is_word (t : list N) : Prop :=
  t <> [] /\ forallb (fun c => negb (isspace c)) t = true.

(** [s] is [t] without its leading and trailing white space: [t] is
    [s] between two runs of white space, and [s] neither starts nor ends
    with white space. *)
Definition trimmed_of (t s : list N) : Prop :=
  exists l r,
    t = l ++ s ++ r /\ forallb isspace l = true /\ forallb isspace r = true /\
    (forall c s', s = c :: s' -> isspace c = false) /\
    (forall c s', s = s' ++ [c] -> isspace c = false).

(** The response item of a project whose owner address the validator
    normalises to [email]. *)
Definition out_of (email : string) (p : ProjectDoc) : ProjectOut :=
  mkOut (p_id p) (p_name p) (p_description p) (p_status p) email
        (p_created_at p) (p_updated_at p).

(** The usage counter of a user, an absent counter read as zero. *)
Definition usage (u : UserDoc) : Z :=
  match u_usage_count u with Some n => n | None => 0 end.

(** The requests whose handlers write the user collection. *)
Definition writes_users (c : Call) : bool :=
  match c with
  | CSignup _ _ _ _ _ _ | CAnalyze _ _ _ => true
  | _ => false
  end.

(** The invariant of the store: emails are unique among users (signup
    checks it), identifiers are unique among projects (the index on [_id]
    enforces it). *)
Definition store_ok (o : option Database) : Prop :=
  NoDup (map u_email (users_of o)) /\ NoDup (map p_id (projects_of o)).

(** The world at start-up: a configured store with no document yet. *)
Definition fresh_world (e : Env) : World := mkWorld (Some (mkDb [] [])) [] e.

(** The invariant is carried from one store to the next. *)
Definition preserves_ok (a b : option Database) : Prop := store_ok a -> store_ok b.

(** The worlds the API reaches from the empty store, whatever the
    installation. *)
Definition reachable (w : World) : Prop := exists cs e, w = serve_all cs (fresh_world e).

(** The order of the listing: [a] may come before [b] when it was
    created no earlier. *)
Definition newer_first (a b : ProjectDoc) : Prop := p_created_at b <= p_created_at a.

Definition out_newer_first (a b : ProjectOut) : Prop := o_created_at b <= o_created_at a.

(** ** The requests seen from outside *)

(** The user a request is authenticated as: the one [require_user]
    returns for its key, none when [require_user] raises. *)
Definition resolve (key : option string) (w : World) : option UserDoc :=
  match require_user key w with
  | Return u _ => Some u
  | Raise _ _ => None
  end.

(** The key a request carries in its [X-API-Key] header; signup and login
    carry none. *)
Definition key_of (c : Call) : option string :=
  match c with
  | CSignup _ _ _ _ _ _ | CLogin _ _ => None
  | CMe key | CList key | CCreate _ key _ _ _ | CUpdate _ _ key _ | CDelete _ key
  | CAnalyze _ key _ => key
  end.

Definition error_of {A} (r : Result A) : option Exn :=
  match r with
  | Return _ _ => None
  | Raise e _ => Some e
  end.

(** The exception a request is answered with, [None] for a success. *)
Definition response_error (c : Call) (w : World) : option Exn :=
  match c with
  | CSignup payload salt api_key oid t1 t2 =>
      error_of (signup payload salt api_key oid t1 t2 w)
  | CLogin payload rnd => error_of (login payload rnd w)
  | CMe key => error_of (me key w)
  | CList key => error_of (list_projects key w)
  | CCreate payload key oid t1 t2 => error_of (create_project payload key oid t1 t2 w)
  | CUpdate pid body key now => error_of (patch_project pid body key now w)
  | CDelete pid key => error_of (delete_project pid key w)
  | CAnalyze payload key now => error_of (analyze_text payload key now w)
  end.

(** The document [create_project] inserts for the user [u]. *)
Definition create_doc (u : UserDoc) (payload : ProjectCreate) (oid : ObjectId)
    (t1 t2 : datetime) : ProjectDoc :=
  mkProject oid (u_email u) (pc_name payload) (pc_description payload) "active" t1 t2.

(** The five ways in which a request changes the store, [actor] being
    the user its key resolves to. *)
Inductive Change (actor : option UserDoc) (d : Database) : Database -> Prop :=
| ChSignup payload salt api_key oid t1 t2 :
    find (fun u => u_email u =? sr_email payload)%string (user d) = None ->
    Change actor d (mkDb (user d ++ [signup_doc payload salt api_key oid t1 t2]) (project d))
| ChCreate u payload oid t1 t2 :
    actor = Some u -> In u (user d) ->
    existsb (fun p => p_id p =? oid)%string (project d) = false ->
    Change actor d (mkDb (user d) (project d ++ [create_doc u payload oid t1 t2]))
| ChUpdate u oid payload now p :
    actor = Some u -> In u (user d) ->
    ProjectUpdate_valid payload = true ->
    find (owned_by oid (u_email u)) (project d) = Some p ->
    Change actor d
      (mkDb (user d)
            (update_first (fun q => p_id q =? oid)%string (patched payload now) (project d)))
| ChDelete u oid p :
    actor = Some u -> In u (user d) ->
    find (owned_by oid (u_email u)) (project d) = Some p ->
    Change actor d (mkDb (user d) (remove_first (owned_by oid (u_email u)) (project d)))
| ChAnalyze u now :
    actor = Some u -> In u (user d) ->
    Change actor d
      (mkDb (update_first (fun x => u_email x =? u_email u)%string (record_usage now) (user d))
            (project d)).

(** The exception of [require_user] when it does not authenticate a
    request: the header is missing or empty, the look-up finds no user
    (there is none without a store), or the handle has no truth test. *)
Definition refusal (key : option string) (w : World) : Exn :=
  if truthy key then
    match db w with
    | Some _ =>
        if db_has_bool (env w) then HTTPException 401 "Invalid API key"
        else NotImplementedError
    | None => HTTPException 401 "Invalid API key"
    end
  else HTTPException 401 "Missing API key".

(** The routes that call [require_user], and [me], which repeats it. *)
Definition protected (c : Call) : bool :=
  match c with
  | CSignup _ _ _ _ _ _ | CLogin _ _ => false
  | _ => true
  end.

(** The routes whose handlers only read the store. *)
Definition read_only (c : Call) : bool :=
  match c with
  | CLogin _ _ | CMe _ | CList _ => true
  | _ => false
  end.

(** Every project is owned by the email of a user of the store. *)
Definition owners_exist (o : option Database) : Prop :=
  forall p, In p (projects_of o) ->
            exists u, In u (users_of o) /\ u_email u = p_owner_email p.

(** The constraints of [schemas.py] on what the API stores: the plan of a
    [User] is "free" or "pro", the status of a [Project] is "active" or
    "archived". *)
Definition plan_literal (s : string) : Prop := s = "free" \/ s = "pro".

Definition status_literal (s : string) : Prop := s = "active" \/ s = "archived".

Definition schema_ok (o : option Database) : Prop :=
  (forall u, In u (users_of o) -> plan_literal (u_plan u)) /\
  (forall p, In p (projects_of o) -> status_literal (p_status p)).

(** The user an email resolves to is still there, the same identity, with
    a usage counter that has not decreased. *)
Definition persists (a b : option Database) : Prop :=
  forall e u, find (fun x => u_email x =? e)%string (users_of a) = Some u ->
    exists u', find (fun x => u_email x =? e)%string (users_of b) = Some u' /\
               same_identity u u' /\ usage u <= usage u'.

(** [env_kept m]: whatever [m] returns or raises, it leaves the
    installation as it found it. *)
Definition env_kept {A} (m : M A) : Prop := forall w, env (world_of (m w)) = env w.

(** The three exceptions of [require_user]. *)
Definition auth_error (e : Exn) : Prop :=
  e = HTTPException 401 "Missing API key" \/ e = HTTPException 401 "Invalid API key" \/
  e = NotImplementedError.

(** ** Validation of the signup body *)

Section SignupRoute.

(** [EmailStr], the check of the [email_validator] package: [None] when
    the address is refused, the normalised address otherwise. *)
Variable validate_email : string -> option string.

(** The [SignupRequest] model built from the body: [email: EmailStr] and
    [password: str = Field(min_length=6)]; [None] stands for the
    validation error. *)
Definition SignupRequest_validate (name email password : string) : option SignupRequest :=
  match validate_email email with
  | Some e =>
      if (6 <=? char_len password)%nat then Some (mkSignup name e password) else None
  | None => None
  end.

(** The POST /auth/signup route as FastAPI serves it: the body is
    validated before the handler is called. *)
Definition post_signup (name email password : string) (salt api_key : string)
    (oid : ObjectId) (t1 t2 : datetime) : M SignupOut :=
  match SignupRequest_validate name email password with
  | Some payload => signup payload salt api_key oid t1 t2
  | None => raise RequestValidationError
  end.

End SignupRoute.

(** ** Sample data for the worked instances *)

Definition sample_user : UserDoc :=
  mkUser "650000000000000000000001" "Ann" "ann@example.com" "free"
         (hashlib.sha256_hexdigest "00112233445566778899aabbccddeeffsecret1")
         "00112233445566778899aabbccddeeff"
         "aaaaaaaaaaaaaaaaaaaaaaaaaaaaaaaaaaaaaaaaaaaaaaaa" 100 100 None.

Definition sample_other : UserDoc :=
  mkUser "650000000000000000000002" "Bob" "bob@example.com" "free"
         (hashlib.sha256_hexdigest "ffeeddccbbaa99887766554433221100hunter22")
         "ffeeddccbbaa99887766554433221100"
         "bbbbbbbbbbbbbbbbbbbbbbbbbbbbbbbbbbbbbbbbbbbbbbbb" 110 110 None.

Definition sample_project : ProjectDoc :=
  mkProject "65000000000000000000000a" "ann@example.com" "Alpha" (Some "first")
            "active" 200 200.

Definition sample_project2 : ProjectDoc :=
  mkProject "65000000000000000000000b" "ann@example.com" "Beta" None
            "active" 300 300.

Definition sample_project_bob : ProjectDoc :=
  mkProject "65000000000000000000000c" "bob@example.com" "Gamma" None
            "active" 250 250.

(** A validator for the samples: it takes an address with an [@] as it
    is and refuses the others. *)
Definition sample_EmailStr (s : string) : option string :=
  if existsb (Ascii.eqb "@") (list_ascii_of_string s) then Some s else None.

Definition sample_env : Env := mkEnv true sample_EmailStr.

(** The same installation with a handle that has no truth test. *)
Definition sample_env_no_bool : Env := mkEnv false sample_EmailStr.

Definition empty_world : World := fresh_world sample_env.

Definition sample_db : Database :=
  mkDb [sample_user; sample_other] [sample_project; sample_project_bob; sample_project2].

Definition sample_world : World := mkWorld (Some sample_db) [] sample_env.

Definition sample_world_no_bool : World := mkWorld (Some sample_db) [] sample_env_no_bool.

Definition sample_calls : list Call :=
  [ CSignup (mkSignup "Ann" "ann@example.com" "secret1")
            "00112233445566778899aabbccddeeff"
            "aaaaaaaaaaaaaaaaaaaaaaaaaaaaaaaaaaaaaaaaaaaaaaaa"
            "650000000000000000000001" 100 100;
    CCreate (mkCreate "Alpha" (Some "first"))
            (Some "aaaaaaaaaaaaaaaaaaaaaaaaaaaaaaaaaaaaaaaaaaaaaaaa")
            "65000000000000000000000a" 200 200;
    CUpdate "65000000000000000000000a" (mkUpdate None None (Some (Some "archived")))
            (Some "aaaaaaaaaaaaaaaaaaaaaaaaaaaaaaaaaaaaaaaaaaaaaaaa") 300;
    CAnalyze (mkAnalyze (codepoints "one two"))
             (Some "aaaaaaaaaaaaaaaaaaaaaaaaaaaaaaaaaaaaaaaaaaaaaaaa") 400 ].

(** * Properties *)

(** ** Test vectors and sample runs *)

Example sha256_empty :
  hashlib.sha256_hexdigest "" =
  "e3b0c44298fc1c149afbf4c8996fb92427ae41e4649b934ca495991b7852b855".
Proof. vm_compute. reflexivity. Qed.

Example sha256_abc :
  hashlib.sha256_hexdigest "abc" =
  "ba7816bf8f01cfea414140de5dae2223b00361a396177a9cb410ff61f20015ad".
Proof. vm_compute. reflexivity. Qed.

Example sha256_two_blocks :
  hashlib.sha256_hexdigest "abcdbcdecdefdefgefghfghighijhijkijkljklmklmnlmnomnopnopq" =
  "248d6a61d20638b8e5c026930c3e6039a33ce45964ff2167f6ecedd419db06c1".
Proof. vm_compute. reflexivity. Qed.

Example sha256_full_block :
  hashlib.sha256_hexdigest
    "aaaaaaaaaaaaaaaaaaaaaaaaaaaaaaaaaaaaaaaaaaaaaaaaaaaaaaaaaaaaaaaa" =
  "ffe054fe7ae0cb6dc65c3af9b61d5209f439851db43d0ba5997337df154668eb".
Proof. vm_compute. reflexivity. Qed.

Example encode_utf8_samples :
  encode_utf8 (codepoints "s3cret!") = Some "s3cret!" /\
  encode_utf8 [0xE9%N] = Some (String (ascii_of_N 0xC3) (String (ascii_of_N 0xA9) "")) /\
  encode_utf8 [0x20AC%N]
    = Some (String (ascii_of_N 0xE2) (String (ascii_of_N 0x82) (String (ascii_of_N 0xAC) "")))
  /\
  encode_utf8 [0x1F600%N]
    = Some (String (ascii_of_N 0xF0) (String (ascii_of_N 0x9F)
             (String (ascii_of_N 0x98) (String (ascii_of_N 0x80) "")))) /\
  encode_utf8 [0x61%N; 0xD800%N] = None /\
  encode_utf8 [0xDFFF%N] = None /\
  char_len (String (ascii_of_N 0xE2) (String (ascii_of_N 0x82) (String (ascii_of_N 0xAC) "a")))
    = 2%nat.
Proof. repeat split. Qed.

Example analyze_hello :
  analyze_text (mkAnalyze (codepoints "  hello world  ")) (Some "k") 7
    (mkWorld (Some (mkDb [mkUser "0" "Ann" "a@x.io" "free" "h" "s" "k" 1 1 None] [])) []
             sample_env)
  = Return (mkAnalyzeOut "a@x.io" "free" 2 11 (codepoints "hello world"))
      (mkWorld (Some (mkDb [mkUser "0" "Ann" "a@x.io" "free" "h" "s" "k" 1 7 (Some 1)] []))
               [Read User; Write User] sample_env).
Proof. reflexivity. Qed.

(** ** The authorization primitive *)

Ltac unfold_monad :=
  unfold bind, ret, raise, db_truthy, user_find_one, user_insert_one, user_update_one,
    project_find_one, project_find_sorted, project_insert_one, project_update_one,
    project_delete_one, logged in *; cbn [db log env] in *.

Lemma truthy_false_cases (key : option string) :
  truthy key = false -> key = None \/ key = Some "".
Proof.
  destruct key as [[|c s]|]; cbn; intro H; auto; discriminate.
Qed.

(** The look-up by key: nothing without a store; on a handle, the first
    user that holds the key, or the error of the truth test. *)
Lemma get_user_by_api_key_run (k : string) (w : World) :
  get_user_by_api_key k w =
    match db w with
    | None => Return None w
    | Some d =>
        if db_has_bool (env w)
        then Return (find (fun u => u_api_key u =? k)%string (user d)) (logged (Read User) w)
        else Raise NotImplementedError w
    end.
Proof.
  unfold get_user_by_api_key. unfold_monad.
  destruct (db w) as [d|] eqn:E; [|reflexivity].
  destruct (db_has_bool (env w)); [|reflexivity]. now rewrite E.
Qed.

Lemma get_user_by_email_run (e : string) (w : World) :
  get_user_by_email e w =
    match db w with
    | None => Return None w
    | Some d =>
        if db_has_bool (env w)
        then Return (find (fun u => u_email u =? e)%string (user d)) (logged (Read User) w)
        else Raise NotImplementedError w
    end.
Proof.
  unfold get_user_by_email. unfold_monad.
  destruct (db w) as [d|] eqn:E; [|reflexivity].
  destruct (db_has_bool (env w)); [|reflexivity]. now rewrite E.
Qed.

(** [require_user] is the look-up by key behind the test of the header. *)
Lemma require_user_run (key : option string) (w : World) :
  require_user key w =
    match key with
    | Some k =>
        if truthy key then
          match get_user_by_api_key k w with
          | Return (Some u) w1 => Return u w1
          | Return None w1 => Raise (HTTPException 401 "Invalid API key") w1
          | Raise e w1 => Raise e w1
          end
        else Raise (HTTPException 401 "Missing API key") w
    | None => Raise (HTTPException 401 "Missing API key") w
    end.
Proof.
  unfold require_user, bind. destruct key as [k|]; [|reflexivity].
  destruct (truthy (Some k)); [|reflexivity].
  destruct (get_user_by_api_key k w) as [[u|] w1|e w1]; reflexivity.
Qed.

(** A request without a key is refused before the store is touched. *)
Lemma require_user_missing (key : option string) (w : World) :
  truthy key = false ->
  require_user key w = Raise (HTTPException 401 "Missing API key") w.
Proof.
  intro H. destruct (truthy_false_cases key H) as [-> | ->]; reflexivity.
Qed.

(** On a handle that has no truth test, a request with a key fails in
    the truth test, before any look-up. *)
Lemma require_user_no_bool (key : option string) (w : World) (d : Database) :
  db w = Some d -> db_has_bool (env w) = false -> truthy key = true ->
  require_user key w = Raise NotImplementedError w.
Proof.
  intros Hd Hb Ht. rewrite require_user_run. destruct key as [k|]; [|discriminate].
  now rewrite Ht, get_user_by_api_key_run, Hd, Hb.
Qed.

(** A key that no user holds is refused after at most one look-up, when
    the truth test of the handle returns. *)
Lemma require_user_invalid (k : string) (w : World) :
  truthy (Some k) = true ->
  db w = None \/ db_has_bool (env w) = true ->
  find (fun u => u_api_key u =? k)%string (users w) = None ->
  exists w',
    require_user (Some k) w = Raise (HTTPException 401 "Invalid API key") w' /\
    db w' = db w /\ env w' = env w /\ (log w' = log w \/ log w' = log w ++ [Read User]).
Proof.
  intros Ht Hb Hf. rewrite require_user_run, Ht, get_user_by_api_key_run.
  unfold users in Hf. destruct (db w) as [d|] eqn:E.
  - destruct Hb as [Hb|Hb]; [discriminate|]. rewrite Hb, Hf.
    eexists. split; [reflexivity|]. cbn. rewrite E. auto.
  - exists w. rewrite E. auto.
Qed.

(** A key that a user holds resolves to the first such user. *)
Lemma require_user_ok (k : string) (u : UserDoc) (w : World) :
  truthy (Some k) = true ->
  db_has_bool (env w) = true ->
  find (fun u => u_api_key u =? k)%string (users w) = Some u ->
  require_user (Some k) w = Return u (logged (Read User) w).
Proof.
  intros Ht Hb Hf. rewrite require_user_run, Ht, get_user_by_api_key_run.
  unfold users in Hf. destruct (db w) as [d|] eqn:E; [|discriminate].
  now rewrite Hb, Hf.
Qed.

(** What a successful authorization tells about the request and the store. *)
Lemma require_user_inv (key : option string) (u : UserDoc) (w w1 : World) :
  require_user key w = Return u w1 ->
  exists k d,
    key = Some k /\ truthy (Some k) = true /\ db w = Some d /\
    find (fun u => u_api_key u =? k)%string (user d) = Some u /\
    w1 = logged (Read User) w.
Proof.
  rewrite require_user_run. destruct key as [k|]; [|discriminate].
  destruct (truthy (Some k)) eqn:Ht; [|discriminate].
  rewrite get_user_by_api_key_run. destruct (db w) as [d|] eqn:E; [|discriminate].
  destruct (db_has_bool (env w)); [|discriminate].
  destruct (find _ (user d)) eqn:Hf; [|discriminate].
  intro H; injection H as <- <-. exists k, d. repeat split; auto.
Qed.

(** A successful authorization has passed the truth test of the handle. *)
Lemma require_user_has_bool (key : option string) (u : UserDoc) (w w1 : World) :
  require_user key w = Return u w1 -> db_has_bool (env w) = true.
Proof.
  rewrite require_user_run. destruct key as [k|]; [|discriminate].
  destruct (truthy (Some k)) eqn:Ht; [|discriminate].
  rewrite get_user_by_api_key_run. destruct (db w) as [d|] eqn:E; [|discriminate].
  destruct (db_has_bool (env w)); [reflexivity|discriminate].
Qed.

(** Authorization either succeeds or raises one of its three exceptions;
    it never writes. *)
Lemma require_user_cases (key : option string) (w : World) :
  (exists u, require_user key w = Return u (logged (Read User) w)) \/
  (exists e w', require_user key w = Raise e w' /\ auth_error e /\
     db w' = db w /\ env w' = env w /\
     (log w' = log w \/ log w' = log w ++ [Read User])).
Proof.
  unfold auth_error. destruct (truthy key) eqn:Ht.
  - destruct key as [k|]; [|discriminate].
    rewrite require_user_run, Ht, get_user_by_api_key_run.
    destruct (db w) as [d|] eqn:E.
    + destruct (db_has_bool (env w)).
      * destruct (find _ (user d)) as [u|]; [left; now exists u|].
        right. eexists. eexists. split; [reflexivity|]. cbn. rewrite E. auto 10.
      * right. eexists. eexists. split; [reflexivity|]. rewrite E. auto 10.
    + right. eexists. eexists. split; [reflexivity|]. rewrite E. auto 10.
  - right. eexists. exists w. rewrite require_user_missing by assumption. auto 10.
Qed.

(** Every protected handler starts with [require_user]; when that raises,
    the handler raises the same exception in the same world. *)
Lemma update_project_unauthorized pid payload key now w e w' :
  require_user key w = Raise e w' ->
  update_project pid payload key now w = Raise e w'.
Proof. intro H. unfold update_project, bind. now rewrite H. Qed.

Lemma delete_project_unauthorized pid key w e w' :
  require_user key w = Raise e w' ->
  delete_project pid key w = Raise e w'.
Proof. intro H. unfold delete_project, bind. now rewrite H. Qed.

(** C10. On a handle without truth test, update and delete under a key
    that is not empty fail in [bool(db)] with [NotImplementedError],
    answered 500: a key that matches no identity is not answered with the
    401 of the specification.  The look-ups test [if db] where [test_database]
    tests [db is not None]. *)
Theorem unknown_key_is_not_unauthorized
    (project_id : string) (payload : ProjectUpdate) (key : option string)
    (now : datetime) (w : World) (d : Database) :
  db w = Some d -> db_has_bool (env w) = false -> truthy key = true ->
  update_project project_id payload key now w = Raise NotImplementedError w /\
  delete_project project_id key w = Raise NotImplementedError w /\
  status_of NotImplementedError = 500.
Proof.
  intros Hd Hb Ht. pose proof (require_user_no_bool key w d Hd Hb Ht) as H.
  rewrite (update_project_unauthorized _ _ _ _ _ _ _ H).
  rewrite (delete_project_unauthorized _ _ _ _ _ H). auto.
Qed.

Lemma unknown_key_is_not_unauthorized_witness :
  update_project "not-an-id" (mkUpdate None None (Some (Some "archived")))
                 (Some "cccc") 400 sample_world_no_bool
    = Raise NotImplementedError sample_world_no_bool /\
  delete_project "not-an-id" (Some "cccc") sample_world_no_bool
    = Raise NotImplementedError sample_world_no_bool /\
  status_of NotImplementedError = 500.
Proof.
  apply (unknown_key_is_not_unauthorized "not-an-id" _ (Some "cccc") 400
           sample_world_no_bool sample_db).
  - reflexivity.
  - reflexivity.
  - reflexivity.
Defined.

(** ** List facts used by the store *)

Lemma find_none_iff {A} (f : A -> bool) (l : list A) :
  find f l = None <-> forall x, In x l -> f x = false.
Proof.
  split.
  - intros H x Hx. exact (find_none f l H x Hx).
  - induction l as [|a l IH]; cbn; intro H; [reflexivity|].
    rewrite (H a (or_introl eq_refl)). apply IH. intros x Hx. apply H. now right.
Qed.

Lemma existsb_false_iff {A} (f : A -> bool) (l : list A) :
  existsb f l = false <-> forall x, In x l -> f x = false.
Proof.
  induction l as [|a l IH]; cbn.
  - split; [intros _ x []|reflexivity].
  - rewrite orb_false_iff, IH. split.
    + intros [Ha Hl] x [<-|Hx]; auto.
    + intro H. split; [apply H; now left|]. intros x Hx. apply H. now right.
Qed.

Lemma remove_first_none {A} (f : A -> bool) (l : list A) :
  (forall x, In x l -> f x = false) -> remove_first f l = l.
Proof.
  induction l as [|a l IH]; cbn; intro H; [reflexivity|].
  rewrite (H a (or_introl eq_refl)). f_equal. apply IH. intros x Hx. apply H. now right.
Qed.

Lemma update_first_none {A} (f : A -> bool) (g : A -> A) (l : list A) :
  (forall x, In x l -> f x = false) -> update_first f g l = l.
Proof.
  induction l as [|a l IH]; cbn; intro H; [reflexivity|].
  rewrite (H a (or_introl eq_refl)). f_equal. apply IH. intros x Hx. apply H. now right.
Qed.

(** Under a key that is unique in the list, the elements with a given
    key are one and the same. *)
Lemma NoDup_map_inj {A B} (k : A -> B) (l : list A) (a b : A) :
  NoDup (map k l) -> In a l -> In b l -> k a = k b -> a = b.
Proof.
  induction l as [|x l IH]; cbn; [intros _ []|].
  intros Hnd Ha Hb E. inversion Hnd as [|? ? Hx Hl]; subst.
  destruct Ha as [<-|Ha], Hb as [<-|Hb]; auto.
  - exfalso. apply Hx. rewrite E. now apply in_map.
  - exfalso. apply Hx. rewrite <- E. now apply in_map.
Qed.

(** ** Ownership scoping of update and delete *)

Lemma owned_by_false oid email p :
  (p_id p = oid -> p_owner_email p <> email) -> owned_by oid email p = false.
Proof.
  intro H. unfold owned_by. destruct (String.eqb_spec (p_id p) oid) as [E|E]; [|reflexivity].
  cbn. apply String.eqb_neq. auto.
Qed.

(** When the caller owns no project with the given id, update and delete
    both answer 404 and leave both collections as they were. *)
Lemma update_project_not_found pid oid payload key now w u w1 :
  require_user key w = Return u w1 ->
  ObjectId_of_str pid = Some oid ->
  (forall p, In p (projects w) -> p_id p = oid -> p_owner_email p <> u_email u) ->
  update_project pid payload key now w
    = Raise (HTTPException 404 "Project not found") (logged (Read Project) w1).
Proof.
  intros Hu Hoid Hno. unfold update_project, bind at 1. rewrite Hu, Hoid.
  destruct (require_user_inv _ _ _ _ Hu) as (k & d & _ & _ & Hd & _ & ->).
  unfold projects in Hno. rewrite Hd in Hno.
  unfold_monad. rewrite Hd.
  replace (find _ (project d)) with (@None ProjectDoc); [reflexivity|].
  symmetry. apply find_none_iff. intros p Hp. apply (owned_by_false oid (u_email u) p).
  now apply Hno.
Qed.

Lemma delete_project_not_found pid oid key w u w1 :
  require_user key w = Return u w1 ->
  ObjectId_of_str pid = Some oid ->
  (forall p, In p (projects w) -> p_id p = oid -> p_owner_email p <> u_email u) ->
  delete_project pid key w
    = Raise (HTTPException 404 "Project not found")
            (mkWorld (db w) (log w1 ++ [Write Project]) (env w)).
Proof.
  intros Hu Hoid Hno. unfold delete_project, bind at 1. rewrite Hu, Hoid.
  destruct (require_user_inv _ _ _ _ Hu) as (k & d & _ & _ & Hd & _ & ->).
  unfold projects in Hno. rewrite Hd in Hno.
  assert (Hf : forall p, In p (project d) -> owned_by oid (u_email u) p = false).
  { intros p Hp. apply owned_by_false. now apply Hno. }
  unfold_monad. rewrite Hd.
  rewrite (proj2 (existsb_false_iff _ _) Hf), (remove_first_none _ _ Hf).
  cbn. destruct d; reflexivity.
Qed.

(** C1. For an authenticated caller and a well-formed project id, update
    and delete raise 404 "Project not found" both when no project has
    that id and when the project with that id belongs to another user;
    the exception (status and message) is the same in the two cases, and
    neither collection changes. *)
Theorem non_owner_sees_not_found
    (pid : string) (oid : ObjectId) (payload : ProjectUpdate) (key : option string)
    (now : datetime) (w : World) (u : UserDoc) (w1 : World) :
  require_user key w = Return u w1 ->
  ObjectId_of_str pid = Some oid ->
  (forall p, In p (projects w) -> p_id p <> oid) \/
  (NoDup (map p_id (projects w)) /\
   exists p, In p (projects w) /\ p_id p = oid /\ p_owner_email p <> u_email u) ->
  exists wu wd,
    update_project pid payload key now w = Raise (HTTPException 404 "Project not found") wu /\
    delete_project pid key w = Raise (HTTPException 404 "Project not found") wd /\
    db wu = db w /\ db wd = db w.
Proof.
  intros Hu Hoid Hcase.
  assert (Hno : forall p, In p (projects w) -> p_id p = oid -> p_owner_email p <> u_email u).
  { destruct Hcase as [Hnone | (Hnd & p & Hp & Hid & Hown)].
    - intros p Hp Hid. now destruct (Hnone p Hp).
    - intros q Hq Hqid.
      rewrite (NoDup_map_inj p_id (projects w) q p Hnd Hq Hp); [assumption|congruence]. }
  exists (logged (Read Project) w1), (mkWorld (db w) (log w1 ++ [Write Project]) (env w)).
  rewrite (update_project_not_found _ _ _ _ _ _ _ _ Hu Hoid Hno).
  rewrite (delete_project_not_found _ _ _ _ _ _ Hu Hoid Hno).
  destruct (require_user_inv _ _ _ _ Hu) as (k & d & _ & _ & Hd & _ & ->).
  repeat split; reflexivity.
Qed.

Lemma non_owner_sees_not_found_witness :
  exists wu wd,
    update_project "65000000000000000000000C" (mkUpdate (Some (Some "Mine")) None None)
                   (Some (u_api_key sample_user)) 400 sample_world
      = Raise (HTTPException 404 "Project not found") wu /\
    delete_project "65000000000000000000000C" (Some (u_api_key sample_user)) sample_world
      = Raise (HTTPException 404 "Project not found") wd /\
    db wu = db sample_world /\ db wd = db sample_world.
Proof.
  apply (non_owner_sees_not_found "65000000000000000000000C" "65000000000000000000000c"
           _ (Some (u_api_key sample_user)) 400 sample_world sample_user
           (logged (Read User) sample_world)).
  - reflexivity.
  - reflexivity.
  - right. split.
    + cbn. repeat constructor; cbn; intuition discriminate.
    + exists sample_project_bob. cbn. repeat split; auto. discriminate.
Defined.

(** ** Which handlers touch which collection *)

Section Frame.
Variable P : option Database -> option Database -> Prop.
Hypothesis P_refl : forall a, P a a.
Hypothesis P_trans : forall a b c, P a b -> P b c -> P a c.

Lemma keeps_ret {A} (a : A) : keeps P (ret a).
Proof. intro w. apply P_refl. Qed.

Lemma keeps_raise {A} (e : Exn) : keeps P (@raise A e).
Proof. intro w. apply P_refl. Qed.

Lemma keeps_bind {A B} (m : M A) (k : A -> M B) :
  keeps P m -> (forall a, keeps P (k a)) -> keeps P (bind m k).
Proof.
  intros Hm Hk w. unfold bind. specialize (Hm w).
  destruct (m w) as [a w'|e w']; cbn in *; [|assumption].
  eapply P_trans; [exact Hm|apply Hk].
Qed.

(** A computation that leaves the store alone keeps every reflexive
    relation. *)
Lemma keeps_read {A} (m : M A) :
  (forall w, db (world_of (m w)) = db w) -> keeps P m.
Proof. intros H w. rewrite H. apply P_refl. Qed.

Lemma keeps_db_truthy : keeps P db_truthy.
Proof.
  apply keeps_read. intro w. unfold db_truthy.
  destruct (db w) as [d|] eqn:E; [destruct (db_has_bool (env w))|]; cbn; exact E.
Qed.

Lemma keeps_ProjectOut_of d : keeps P (ProjectOut_of d).
Proof.
  apply keeps_read. intro w. unfold ProjectOut_of.
  destruct (EmailStr (env w) (p_owner_email d)); reflexivity.
Qed.

Lemma keeps_mapM {A B} (f : A -> M B) (l : list A) :
  (forall a, keeps P (f a)) -> keeps P (mapM f l).
Proof.
  intro H. induction l as [|a l IH]; cbn [mapM]; [apply keeps_ret|].
  apply keeps_bind; [apply H|]. intro y.
  apply keeps_bind; [apply IH|]. intro ys. apply keeps_ret.
Qed.

Lemma keeps_user_find_one f : keeps P (user_find_one f).
Proof. apply keeps_read. intro w. unfold user_find_one. destruct (db w) eqn:E; cbn; auto. Qed.

Lemma keeps_project_find_one f : keeps P (project_find_one f).
Proof. apply keeps_read. intro w. unfold project_find_one. destruct (db w) eqn:E; cbn; auto. Qed.

Lemma keeps_project_find_sorted f : keeps P (project_find_sorted f).
Proof. apply keeps_read. intro w. unfold project_find_sorted. destruct (db w) eqn:E; cbn; auto. Qed.

Lemma keeps_get_user_by_email e : keeps P (get_user_by_email e).
Proof.
  apply keeps_bind; [apply keeps_db_truthy|].
  intros []; [apply keeps_user_find_one|apply keeps_ret].
Qed.

Lemma keeps_get_user_by_api_key k : keeps P (get_user_by_api_key k).
Proof.
  apply keeps_bind; [apply keeps_db_truthy|].
  intros []; [apply keeps_user_find_one|apply keeps_ret].
Qed.

Lemma keeps_require_user key : keeps P (require_user key).
Proof.
  unfold require_user. destruct key as [k|]; [|apply keeps_raise].
  destruct (truthy (Some k)); [|apply keeps_raise].
  apply keeps_bind; [apply keeps_get_user_by_api_key|].
  intros [u|]; [apply keeps_ret|apply keeps_raise].
Qed.

Lemma keeps_login payload rnd : keeps P (login payload rnd).
Proof.
  unfold login. apply keeps_bind; [apply keeps_get_user_by_email|].
  intros [u|]; [|apply keeps_raise].
  destruct (encode_utf8 (lr_password payload)) as [password|]; [|apply keeps_raise].
  destruct (_hash_password _ _ _) as [h s].
  destruct (negb _); [apply keeps_raise|apply keeps_ret].
Qed.

Lemma keeps_me key : keeps P (me key).
Proof.
  unfold me. destruct key as [k|]; [|apply keeps_raise].
  destruct (truthy (Some k)); [|apply keeps_raise].
  apply keeps_bind; [apply keeps_get_user_by_api_key|].
  intros [u|]; [apply keeps_ret|apply keeps_raise].
Qed.

Lemma keeps_list_projects key : keeps P (list_projects key).
Proof.
  unfold list_projects. apply keeps_bind; [apply keeps_require_user|]. intro u.
  apply keeps_bind; [apply keeps_project_find_sorted|]. intro docs.
  apply keeps_mapM, keeps_ProjectOut_of.
Qed.

Lemma keeps_signup_of_insert payload salt api_key oid t1 t2 :
  (forall doc, keeps P (user_insert_one doc)) ->
  keeps P (signup payload salt api_key oid t1 t2).
Proof.
  intro H. unfold signup. apply keeps_bind; [apply keeps_get_user_by_email|].
  intros [u|]; [apply keeps_raise|].
  destruct (_hash_password _ _ _) as [h s].
  apply keeps_bind; [apply H|]. intro i. apply keeps_ret.
Qed.

(** The project handlers keep [P] as soon as the three writes of the
    project collection do. *)
Hypothesis P_insert : forall doc, keeps P (project_insert_one doc).
Hypothesis P_update : forall f upd, keeps P (project_update_one f (set_fields upd)).
Hypothesis P_delete : forall f, keeps P (project_delete_one f).

Lemma keeps_create_project payload key oid t1 t2 :
  keeps P (create_project payload key oid t1 t2).
Proof.
  unfold create_project. apply keeps_bind; [apply keeps_require_user|]. intro u.
  apply keeps_bind; [apply P_insert|]. intro i.
  apply keeps_bind; [apply keeps_project_find_one|].
  intros [d|]; [apply keeps_ProjectOut_of|apply keeps_raise].
Qed.

Lemma keeps_update_project pid payload key now :
  keeps P (update_project pid payload key now).
Proof.
  unfold update_project. apply keeps_bind; [apply keeps_require_user|]. intro u.
  destruct (ObjectId_of_str pid) as [oid|]; [|apply keeps_raise].
  apply keeps_bind; [apply keeps_project_find_one|].
  intros [p|]; [|apply keeps_raise].
  apply keeps_bind; [apply P_update|]. intros _.
  apply keeps_bind; [apply keeps_project_find_one|].
  intros [d|]; [apply keeps_ProjectOut_of|apply keeps_raise].
Qed.

Lemma keeps_patch_project pid body key now :
  keeps P (patch_project pid body key now).
Proof.
  unfold patch_project. destruct (ProjectUpdate_valid body);
    [apply keeps_update_project|apply keeps_raise].
Qed.

Lemma keeps_delete_project pid key : keeps P (delete_project pid key).
Proof.
  unfold delete_project. apply keeps_bind; [apply keeps_require_user|]. intro u.
  destruct (ObjectId_of_str pid) as [oid|]; [|apply keeps_raise].
  apply keeps_bind; [apply P_delete|]. intro n.
  destruct (n =? 0); [apply keeps_raise|apply keeps_ret].
Qed.

(** The analysis endpoint keeps [P] as soon as the metering write does;
    so does signup, when [P] does not depend on the email being new. *)
Hypothesis P_user_update : forall f now, keeps P (user_update_one f (record_usage now)).
Hypothesis P_signup : forall payload salt api_key oid t1 t2,
    keeps P (signup payload salt api_key oid t1 t2).

Lemma keeps_analyze_text payload key now : keeps P (analyze_text payload key now).
Proof.
  unfold analyze_text. apply keeps_bind; [apply keeps_require_user|]. intro u.
  destruct (strip _); [apply keeps_raise|].
  apply keeps_bind; [apply P_user_update|]. intros _. apply keeps_ret.
Qed.

(** A relation kept by the five writes is kept by every request. *)
Lemma keeps_serve (c : Call) (w : World) : P (db w) (db (serve c w)).
Proof.
  destruct c; cbn.
  - apply P_signup.
  - apply keeps_login.
  - apply keeps_me.
  - apply keeps_list_projects.
  - apply keeps_create_project.
  - apply keeps_patch_project.
  - apply keeps_delete_project.
  - apply keeps_analyze_text.
Qed.

Lemma keeps_serve_all (cs : list Call) (w : World) : P (db w) (db (serve_all cs w)).
Proof.
  revert w. induction cs as [|c cs IH]; intro w; cbn; [apply P_refl|].
  eapply P_trans; [apply (keeps_serve c w)|apply IH].
Qed.
End Frame.

(** ** Login *)

(** What a look-up by email that returns tells: the first user with the
    email, found without a write. *)
Lemma get_user_by_email_inv (e : string) (w : World) (found : option UserDoc) (w1 : World) :
  get_user_by_email e w = Return found w1 ->
  found = find (fun u => u_email u =? e)%string (users w) /\
  db w1 = db w /\ env w1 = env w /\ (log w1 = log w \/ log w1 = log w ++ [Read User]) /\
  (db w = None \/ db_has_bool (env w) = true).
Proof.
  rewrite get_user_by_email_run. unfold users. destruct (db w) as [d|] eqn:E.
  - destruct (db_has_bool (env w)); [|discriminate].
    intro H; injection H as <- <-. cbn. rewrite E. auto 10.
  - intro H; injection H as <- <-. rewrite E. auto 10.
Qed.

(** [login] in one equation. *)
Lemma login_run (payload : LoginRequest) (rnd : string) (w : World) :
  login payload rnd w =
    match get_user_by_email (lr_email payload) w with
    | Raise e w' => Raise e w'
    | Return None w' => Raise (HTTPException 401 "Invalid credentials") w'
    | Return (Some u) w' =>
        match encode_utf8 (lr_password payload) with
        | None => Raise UnicodeEncodeError w'
        | Some password =>
            if verify rnd password (u_password_salt u) (u_password_hash u)
            then Return (mkAuthOut (u_api_key u) (u_plan u) (u_name u) (u_email u)) w'
            else Raise (HTTPException 401 "Invalid credentials") w'
        end
    end.
Proof.
  unfold login, bind.
  destruct (get_user_by_email (lr_email payload) w) as [[u|] w'|e w']; try reflexivity.
  destruct (encode_utf8 (lr_password payload)) as [password|]; [|reflexivity].
  unfold verify.
  destruct (_hash_password rnd password (Some (u_password_salt u))) as [h s].
  cbn [fst]. destruct (h =? u_password_hash u)%string; reflexivity.
Qed.

(** C3. A password that has no UTF-8 encoding (a lone surrogate) tells
    whether the email is registered: when the look-up finds a user,
    [_hash_password] raises [UnicodeEncodeError], answered 500; when it
    finds none, login raises 401 "Invalid credentials".  The two failures
    of login are not answered alike for such a password. *)
Theorem unencodable_password_reveals_email
    (payload : LoginRequest) (rnd : string) (w : World) (found : option UserDoc)
    (w1 : World) :
  get_user_by_email (lr_email payload) w = Return found w1 ->
  encode_utf8 (lr_password payload) = None ->
  found = find (fun u => u_email u =? lr_email payload)%string (users w) /\
  login payload rnd w = match found with
                        | Some _ => Raise UnicodeEncodeError w1
                        | None => Raise (HTTPException 401 "Invalid credentials") w1
                        end /\
  status_of UnicodeEncodeError = 500 /\
  status_of (HTTPException 401 "Invalid credentials") = 401.
Proof.
  intros Hg He. split; [exact (proj1 (get_user_by_email_inv _ _ _ _ Hg))|].
  split; [|split; reflexivity].
  rewrite login_run, Hg, He. destruct found; reflexivity.
Qed.

Lemma unencodable_password_reveals_email_witness :
  login (mkLogin "ann@example.com" [0xD800%N]) "" sample_world
    = Raise UnicodeEncodeError (logged (Read User) sample_world) /\
  login (mkLogin "nobody@example.com" [0xD800%N]) "" sample_world
    = Raise (HTTPException 401 "Invalid credentials") (logged (Read User) sample_world).
Proof.
  split.
  - exact (proj1 (proj2 (unencodable_password_reveals_email
                           (mkLogin "ann@example.com" [0xD800%N]) "" sample_world
                           (Some sample_user) (logged (Read User) sample_world)
                           eq_refl eq_refl))).
  - exact (proj1 (proj2 (unencodable_password_reveals_email
                           (mkLogin "nobody@example.com" [0xD800%N]) "" sample_world
                           None (logged (Read User) sample_world)
                           eq_refl eq_refl))).
Defined.

(** ** Signup *)

Lemma find_app_fresh {A} (f : A -> bool) (l : list A) (x : A) :
  find f l = None -> find f (l ++ [x]) = if f x then Some x else None.
Proof.
  induction l as [|a l IH]; cbn; [reflexivity|].
  destruct (f a); [discriminate|exact IH].
Qed.

Lemma find_app_some {A} (f : A -> bool) (l l' : list A) (a : A) :
  find f l = Some a -> find f (l ++ l') = Some a.
Proof.
  induction l as [|b l IH]; cbn; [discriminate|].
  destruct (f b); [trivial|exact IH].
Qed.

Lemma is_token_hex_truthy (n : nat) (s : string) :
  is_token_hex (S n) s = true -> truthy (Some s) = true.
Proof.
  unfold is_token_hex. destruct s; [cbn; discriminate|reflexivity].
Qed.

(** [signup] in one equation: the look-up, then the insertion of the
    document. *)
Lemma signup_run payload salt api_key oid t1 t2 w :
  signup payload salt api_key oid t1 t2 w =
    match get_user_by_email (sr_email payload) w with
    | Raise e w' => Raise e w'
    | Return (Some _) w' => Raise (HTTPException 400 "Email already registered") w'
    | Return None w' =>
        match user_insert_one (signup_doc payload salt api_key oid t1 t2) w' with
        | Return i w'' =>
            Return (mkSignupOut i api_key "free" (sr_name payload) (sr_email payload)) w''
        | Raise e w'' => Raise e w''
        end
    end.
Proof.
  unfold signup, bind.
  destruct (get_user_by_email (sr_email payload) w) as [[u|] w'|e w']; reflexivity.
Qed.

(** [signup] on a store in which the email is taken. *)
Lemma signup_conflict payload salt api_key oid t1 t2 w u :
  db w = None \/ db_has_bool (env w) = true ->
  find (fun u => u_email u =? sr_email payload)%string (users w) = Some u ->
  exists w',
    signup payload salt api_key oid t1 t2 w
      = Raise (HTTPException 400 "Email already registered") w' /\
    db w' = db w.
Proof.
  intros Hb Hf. rewrite signup_run, get_user_by_email_run. unfold users in Hf.
  destruct (db w) as [d|] eqn:E; [|discriminate].
  destruct Hb as [Hb|Hb]; [discriminate|]. rewrite Hb, Hf.
  eexists. split; [reflexivity|]. cbn. now rewrite E.
Qed.

(** [signup] on a store in which the email is free, with a fresh
    identifier: the document is appended to the user collection. *)
Lemma signup_fresh payload salt api_key oid t1 t2 d lg e :
  db_has_bool e = true ->
  find (fun u => u_email u =? sr_email payload)%string (user d) = None ->
  (forall u, In u (user d) -> u_id u <> oid) ->
  signup payload salt api_key oid t1 t2 (mkWorld (Some d) lg e)
    = Return (mkSignupOut oid api_key "free" (sr_name payload) (sr_email payload))
        (mkWorld (Some (mkDb (user d ++ [signup_doc payload salt api_key oid t1 t2])
                             (project d)))
                 (lg ++ [Read User; Write User]) e).
Proof.
  intros Hb Hf Hid. rewrite signup_run, get_user_by_email_run. cbn [db env].
  rewrite Hb, Hf. unfold_monad. cbn [signup_doc u_id].
  replace (existsb _ (user d)) with false.
  - now rewrite <- app_assoc.
  - symmetry. apply existsb_false_iff. intros u Hu. apply String.eqb_neq. now apply Hid.
Qed.

(** C2. On a handle without truth test, signup fails in [bool(db)] with
    [NotImplementedError], answered 500, whether the email is registered
    or not: it neither reports the conflict nor creates the identity.
    [get_user_by_email] tests [if db] where [test_database] tests
    [db is not None]. *)
Theorem signup_fails_without_truth_test
    (payload : SignupRequest) (salt api_key : string) (oid : ObjectId)
    (t1 t2 : datetime) (w : World) (d : Database) :
  db w = Some d -> db_has_bool (env w) = false ->
  signup payload salt api_key oid t1 t2 w = Raise NotImplementedError w /\
  status_of NotImplementedError = 500.
Proof.
  intros Hd Hb. split; [|reflexivity].
  now rewrite signup_run, get_user_by_email_run, Hd, Hb.
Qed.

Lemma signup_fails_without_truth_test_witness :
  (signup (mkSignup "Ann again" "ann@example.com" "another")
          "0123456789abcdef0123456789abcdef"
          "cccccccccccccccccccccccccccccccccccccccccccccccc"
          "650000000000000000000003" 500 501 sample_world_no_bool
     = Raise NotImplementedError sample_world_no_bool /\
   status_of NotImplementedError = 500) /\
  (signup (mkSignup "Cy" "cy@example.com" "s3cret!")
          "0123456789abcdef0123456789abcdef"
          "cccccccccccccccccccccccccccccccccccccccccccccccc"
          "650000000000000000000003" 500 501 sample_world_no_bool
     = Raise NotImplementedError sample_world_no_bool /\
   status_of NotImplementedError = 500).
Proof.
  split.
  - apply (signup_fails_without_truth_test (mkSignup "Ann again" "ann@example.com" "another")
             _ _ _ 500 501 sample_world_no_bool sample_db); reflexivity.
  - apply (signup_fails_without_truth_test (mkSignup "Cy" "cy@example.com" "s3cret!")
             _ _ _ 500 501 sample_world_no_bool sample_db); reflexivity.
Defined.

(** ** Identities are stable *)

Lemma same_identity_refl u : same_identity u u.
Proof. unfold same_identity. repeat split. Qed.

Lemma same_identity_trans u v x :
  same_identity u v -> same_identity v x -> same_identity u x.
Proof. unfold same_identity. intuition congruence. Qed.

Lemma same_identity_record_usage now u : same_identity u (record_usage now u).
Proof. unfold same_identity. repeat split. Qed.

Lemma email_stable_refl a : email_stable a a.
Proof. intros e u H. exists u. split; [assumption|apply same_identity_refl]. Qed.

Lemma email_stable_trans a b c :
  email_stable a b -> email_stable b c -> email_stable a c.
Proof.
  intros Hab Hbc e u H. destruct (Hab e u H) as (v & Hv & Huv).
  destruct (Hbc e v Hv) as (x & Hx & Hvx). exists x. split; [assumption|].
  eapply same_identity_trans; eassumption.
Qed.

Lemma same_users_email_stable a b : same_users a b -> email_stable a b.
Proof. unfold same_users. intros E e u H. rewrite E. apply email_stable_refl, H. Qed.

Lemma same_users_refl a : same_users a a.
Proof. reflexivity. Qed.

Lemma same_users_trans a b c : same_users a b -> same_users b c -> same_users a c.
Proof. unfold same_users. congruence. Qed.

(** The three writes of the project collection leave the users alone. *)
Lemma project_insert_one_users doc : keeps same_users (project_insert_one doc).
Proof.
  intro w. unfold project_insert_one, same_users.
  destruct (db w) as [d|] eqn:E; cbn; [|now rewrite E].
  destruct (existsb _ _); cbn; now rewrite ?E.
Qed.

Lemma project_update_one_users f g : keeps same_users (project_update_one f g).
Proof.
  intro w. unfold project_update_one, same_users.
  destruct (db w) as [d|] eqn:E; cbn; now rewrite ?E.
Qed.

Lemma project_delete_one_users f : keeps same_users (project_delete_one f).
Proof.
  intro w. unfold project_delete_one, same_users.
  destruct (db w) as [d|] eqn:E; cbn; now rewrite ?E.
Qed.

Lemma keeps_weaken {A} (P Q : option Database -> option Database -> Prop) (m : M A) :
  (forall a b, P a b -> Q a b) -> keeps P m -> keeps Q m.
Proof. intros H Hm w. apply H, Hm. Qed.

Lemma find_update_first_email (e : string) f now (l : list UserDoc) (u : UserDoc) :
  find (fun x => u_email x =? e)%string l = Some u ->
  exists u', find (fun x => u_email x =? e)%string (update_first f (record_usage now) l)
             = Some u' /\ same_identity u u'.
Proof.
  induction l as [|a l IH]; cbn; [discriminate|].
  destruct (f a) eqn:Fa; cbn.
  - destruct (u_email a =? e)%string.
    + intro H; injection H as <-. eexists. split; [reflexivity|].
      apply same_identity_record_usage.
    + intro H. exists u. split; [assumption|apply same_identity_refl].
  - destruct (u_email a =? e)%string.
    + intro H; injection H as <-. exists a. split; [reflexivity|apply same_identity_refl].
    + exact IH.
Qed.

Lemma user_insert_one_email_stable doc : keeps email_stable (user_insert_one doc).
Proof.
  intro w. unfold user_insert_one.
  destruct (db w) as [d|] eqn:E; cbn; [|rewrite E; apply email_stable_refl].
  destruct (existsb _ _); cbn; [rewrite E; apply email_stable_refl|].
  intros e u H. exists u. split; [|apply same_identity_refl]. cbn in *.
  now apply find_app_some.
Qed.

Lemma user_update_one_email_stable f now :
  keeps email_stable (user_update_one f (record_usage now)).
Proof.
  intro w. unfold user_update_one.
  destruct (db w) as [d|] eqn:E; cbn; [|rewrite E; apply email_stable_refl].
  intros e u H. cbn in *. now apply find_update_first_email.
Qed.

(** Whatever requests are served, an email keeps resolving to the same
    identity: same id, name, email, plan, digest, salt and key. *)
Lemma serve_all_email_stable (cs : list Call) (w : World) :
  email_stable (db w) (db (serve_all cs w)).
Proof.
  apply keeps_serve_all.
  - apply email_stable_refl.
  - apply email_stable_trans.
  - intro doc. eapply keeps_weaken; [apply same_users_email_stable|].
    apply project_insert_one_users.
  - intros f g. eapply keeps_weaken; [apply same_users_email_stable|].
    apply project_update_one_users.
  - intro f. eapply keeps_weaken; [apply same_users_email_stable|].
    apply project_delete_one_users.
  - apply user_update_one_email_stable.
  - intros. apply keeps_signup_of_insert.
    + apply email_stable_refl.
    + apply email_stable_trans.
    + apply user_insert_one_email_stable.
Qed.

(** ** The installation is not changed *)

Lemma env_kept_ret {A} (a : A) : env_kept (ret a).
Proof. intro w. reflexivity. Qed.

Lemma env_kept_raise {A} (e : Exn) : env_kept (@raise A e).
Proof. intro w. reflexivity. Qed.

Lemma env_kept_bind {A B} (m : M A) (k : A -> M B) :
  env_kept m -> (forall a, env_kept (k a)) -> env_kept (bind m k).
Proof.
  intros Hm Hk w. unfold bind. specialize (Hm w).
  destruct (m w) as [a w'|e w']; cbn in *; [|assumption].
  now rewrite Hk.
Qed.

Ltac env_kept_prim :=
  intro; unfold_monad;
  repeat match goal with
         | |- context [if ?b then _ else _] => destruct b
         | |- context [match ?x with Some _ => _ | None => _ end] => destruct x
         end; reflexivity.

Lemma env_kept_db_truthy : env_kept db_truthy.
Proof. env_kept_prim. Qed.

Lemma env_kept_user_find_one f : env_kept (user_find_one f).
Proof. env_kept_prim. Qed.

Lemma env_kept_user_insert_one doc : env_kept (user_insert_one doc).
Proof. env_kept_prim. Qed.

Lemma env_kept_user_update_one f g : env_kept (user_update_one f g).
Proof. env_kept_prim. Qed.

Lemma env_kept_project_find_one f : env_kept (project_find_one f).
Proof. env_kept_prim. Qed.

Lemma env_kept_project_find_sorted f : env_kept (project_find_sorted f).
Proof. env_kept_prim. Qed.

Lemma env_kept_project_insert_one doc : env_kept (project_insert_one doc).
Proof. env_kept_prim. Qed.

Lemma env_kept_project_update_one f g : env_kept (project_update_one f g).
Proof. env_kept_prim. Qed.

Lemma env_kept_project_delete_one f : env_kept (project_delete_one f).
Proof. env_kept_prim. Qed.

Lemma env_kept_ProjectOut_of d : env_kept (ProjectOut_of d).
Proof. intro w. unfold ProjectOut_of. destruct (EmailStr _ _); reflexivity. Qed.

Lemma env_kept_mapM {A B} (f : A -> M B) (l : list A) :
  (forall a, env_kept (f a)) -> env_kept (mapM f l).
Proof.
  intro H. induction l as [|a l IH]; cbn [mapM]; [apply env_kept_ret|].
  apply env_kept_bind; [apply H|]. intro y.
  apply env_kept_bind; [apply IH|]. intro ys. apply env_kept_ret.
Qed.

Lemma env_kept_get_user_by_email e : env_kept (get_user_by_email e).
Proof.
  apply env_kept_bind; [apply env_kept_db_truthy|].
  intros []; [apply env_kept_user_find_one|apply env_kept_ret].
Qed.

Lemma env_kept_get_user_by_api_key k : env_kept (get_user_by_api_key k).
Proof.
  apply env_kept_bind; [apply env_kept_db_truthy|].
  intros []; [apply env_kept_user_find_one|apply env_kept_ret].
Qed.

Lemma env_kept_require_user key : env_kept (require_user key).
Proof.
  unfold require_user. destruct key as [k|]; [|apply env_kept_raise].
  destruct (truthy (Some k)); [|apply env_kept_raise].
  apply env_kept_bind; [apply env_kept_get_user_by_api_key|].
  intros [u|]; [apply env_kept_ret|apply env_kept_raise].
Qed.

(** No request changes the installation. *)
Lemma serve_env (c : Call) (w : World) : env (serve c w) = env w.
Proof.
  destruct c; cbn [serve].
  - apply env_kept_bind; [apply env_kept_get_user_by_email|].
    intros [u|]; [apply env_kept_raise|].
    destruct (_hash_password _ _ _) as [h s0].
    apply env_kept_bind; [apply env_kept_user_insert_one|]. intro i. apply env_kept_ret.
  - apply env_kept_bind; [apply env_kept_get_user_by_email|].
    intros [u|]; [|apply env_kept_raise].
    destruct (encode_utf8 _) as [password|]; [|apply env_kept_raise].
    destruct (_hash_password _ _ _) as [h s0].
    destruct (negb _); [apply env_kept_raise|apply env_kept_ret].
  - unfold me. destruct x_api_key as [k|]; [|apply env_kept_raise].
    destruct (truthy (Some k)); [|apply env_kept_raise].
    apply env_kept_bind; [apply env_kept_get_user_by_api_key|].
    intros [u|]; [apply env_kept_ret|apply env_kept_raise].
  - apply env_kept_bind; [apply env_kept_require_user|]. intro u.
    apply env_kept_bind; [apply env_kept_project_find_sorted|]. intro docs.
    apply env_kept_mapM, env_kept_ProjectOut_of.
  - apply env_kept_bind; [apply env_kept_require_user|]. intro u.
    apply env_kept_bind; [apply env_kept_project_insert_one|]. intro i.
    apply env_kept_bind; [apply env_kept_project_find_one|].
    intros [d|]; [apply env_kept_ProjectOut_of|apply env_kept_raise].
  - unfold patch_project. destruct (ProjectUpdate_valid body); [|apply env_kept_raise].
    apply env_kept_bind; [apply env_kept_require_user|]. intro u.
    destruct (ObjectId_of_str project_id) as [oid|]; [|apply env_kept_raise].
    apply env_kept_bind; [apply env_kept_project_find_one|].
    intros [p|]; [|apply env_kept_raise].
    apply env_kept_bind; [apply env_kept_project_update_one|]. intros _.
    apply env_kept_bind; [apply env_kept_project_find_one|].
    intros [d|]; [apply env_kept_ProjectOut_of|apply env_kept_raise].
  - apply env_kept_bind; [apply env_kept_require_user|]. intro u.
    destruct (ObjectId_of_str project_id) as [oid|]; [|apply env_kept_raise].
    apply env_kept_bind; [apply env_kept_project_delete_one|]. intro n.
    destruct (n =? 0); [apply env_kept_raise|apply env_kept_ret].
  - apply env_kept_bind; [apply env_kept_require_user|]. intro u.
    unfold analyze_text. destruct (strip _); [apply env_kept_raise|].
    apply env_kept_bind; [apply env_kept_user_update_one|]. intros _. apply env_kept_ret.
Qed.

Lemma serve_all_env (cs : list Call) (w : World) : env (serve_all cs w) = env w.
Proof.
  revert w. induction cs as [|c cs IH]; intro w; cbn; [reflexivity|].
  unfold serve_all in IH. now rewrite IH, serve_env.
Qed.

(** ** The credential codec *)

Lemma hash_password_salted (rnd password salt : string) :
  salt <> "" ->
  _hash_password rnd password (Some salt)
    = (hashlib.sha256_hexdigest (salt ++ password)%string, salt).
Proof.
  intro H. unfold _hash_password. destruct salt; [contradiction|reflexivity].
Qed.

(** What a successful [signup] tells about the store before and after. *)
Lemma signup_inv payload salt api_key oid t1 t2 w out w1 :
  signup payload salt api_key oid t1 t2 w = Return out w1 ->
  exists d,
    db w = Some d /\
    find (fun u => u_email u =? sr_email payload)%string (user d) = None /\
    db w1 = Some (mkDb (user d ++ [signup_doc payload salt api_key oid t1 t2]) (project d)) /\
    out = mkSignupOut oid api_key "free" (sr_name payload) (sr_email payload).
Proof.
  rewrite signup_run, get_user_by_email_run. destruct (db w) as [d|] eqn:E.
  - destruct (db_has_bool (env w)); [|discriminate].
    destruct (find _ (user d)) eqn:Hf; [discriminate|].
    unfold_monad. rewrite E. cbn [signup_doc u_id].
    destruct (existsb _ (user d)); [discriminate|].
    intro H; injection H as <- <-. exists d. cbn [db]. repeat split; auto.
  - unfold_monad. rewrite E. discriminate.
Qed.

(** A successful [signup] has passed the truth test of the handle. *)
Lemma signup_has_bool payload salt api_key oid t1 t2 w out w1 :
  signup payload salt api_key oid t1 t2 w = Return out w1 -> db_has_bool (env w) = true.
Proof.
  rewrite signup_run, get_user_by_email_run. destruct (db w) as [d|] eqn:E.
  - destruct (db_has_bool (env w)); [reflexivity|discriminate].
  - unfold_monad. rewrite E. discriminate.
Qed.

(** After a successful signup, whatever is served next, the truth test
    of the handle still returns. *)
Lemma signup_then_has_bool payload salt api_key oid t1 t2 w out w1 cs :
  signup payload salt api_key oid t1 t2 w = Return out w1 ->
  db_has_bool (env (serve_all cs w1)) = true.
Proof.
  intro Hs. rewrite serve_all_env.
  pose proof (serve_env (CSignup payload salt api_key oid t1 t2) w) as He.
  cbn [serve] in He. rewrite Hs in He. cbn [world_of] in He. rewrite He.
  exact (signup_has_bool _ _ _ _ _ _ _ _ _ Hs).
Qed.

(** X22. After a successful signup, and whatever requests are served
    next, login with the email and the password of the signup passes the
    digest test and succeeds: it returns the key, the plan, the name and
    the email of the signup. *)
Theorem login_after_signup payload salt api_key oid t1 t2 w out w1 cs rnd password :
  is_token_hex 16 salt = true ->
  signup payload salt api_key oid t1 t2 w = Return out w1 ->
  encode_utf8 password = Some (sr_password payload) ->
  exists w2,
    login (mkLogin (sr_email payload) password) rnd (serve_all cs w1)
      = Return (mkAuthOut api_key "free" (sr_name payload) (sr_email payload)) w2.
Proof.
  intros Htok Hs Hpw.
  destruct (signup_inv _ _ _ _ _ _ _ _ _ Hs) as (d & Hd & Hfree & Hd1 & _).
  assert (Hsalt : salt <> "").
  { intros ->. discriminate. }
  pose proof (signup_then_has_bool _ _ _ _ _ _ _ _ _ cs Hs) as Hb.
  pose proof (serve_all_email_stable cs w1 (sr_email payload)
                (signup_doc payload salt api_key oid t1 t2)) as Hst.
  rewrite Hd1 in Hst. cbn [users_of user] in Hst.
  destruct Hst as (u' & Hu' & Hid).
  { rewrite (find_app_fresh _ _ _ Hfree). cbn [signup_doc u_email].
    now rewrite String.eqb_refl. }
  rewrite login_run, get_user_by_email_run. cbn [lr_email lr_password].
  unfold users_of in Hu'. destruct (db (serve_all cs w1)) as [d2|]; [|discriminate].
  rewrite Hb, Hu', Hpw.
  destruct Hid as (_ & -> & -> & -> & Hh & Hsl & -> & _).
  rewrite Hh, Hsl. cbn [signup_doc u_password_hash u_password_salt u_name u_email
                        u_plan u_api_key].
  unfold verify. rewrite (hash_password_salted _ _ _ Hsalt). cbn [fst].
  rewrite String.eqb_refl. eexists. reflexivity.
Qed.

Lemma login_after_signup_witness :
  exists w2,
    login (mkLogin "cy@example.com" (codepoints "s3cret!")) ""
      (serve_all [CAnalyze (mkAnalyze (codepoints "one two"))
                    (Some "cccccccccccccccccccccccccccccccccccccccccccccccc") 600]
         (world_of (signup (mkSignup "Cy" "cy@example.com" "s3cret!")
                      "0123456789abcdef0123456789abcdef"
                      "cccccccccccccccccccccccccccccccccccccccccccccccc"
                      "650000000000000000000003" 500 501 sample_world)))
      = Return (mkAuthOut "cccccccccccccccccccccccccccccccccccccccccccccccc" "free"
                          "Cy" "cy@example.com") w2.
Proof.
  apply (login_after_signup (mkSignup "Cy" "cy@example.com" "s3cret!")
           "0123456789abcdef0123456789abcdef"
           "cccccccccccccccccccccccccccccccccccccccccccccccc" "650000000000000000000003"
           500 501 sample_world
           (mkSignupOut "650000000000000000000003"
              "cccccccccccccccccccccccccccccccccccccccccccccccc" "free" "Cy"
              "cy@example.com")).
  - reflexivity.
  - reflexivity.
  - reflexivity.
Defined.

(** With the empty string as salt [_hash_password] draws a salt of its
    own, so two computations on the same password and salt differ: here
    the two draws are 32 zeros and 32 ones. *)
Lemma empty_salt_not_deterministic :
  ~ (forall rnd rnd' password salt : string,
       verify rnd' password salt (fst (_hash_password rnd password (Some salt))) = true).
Proof.
  intro H.
  specialize (H "00000000000000000000000000000000" "11111111111111111111111111111111"
                "secret1" "").
  vm_compute in H. discriminate.
Qed.

(** ** Partial update *)

(** The [$set] document that [update_project] builds has the effect of
    [patched]. *)
Lemma set_fields_patched (payload : ProjectUpdate) (now : datetime) (p : ProjectDoc) :
  set_fields
    (match not_none_items (dict_exclude_unset payload) with
     | [] => []
     | _ :: _ => not_none_items (dict_exclude_unset payload)
     end ++ [("updated_at", VDate now)]) p
  = patched payload now p.
Proof.
  destruct payload as [[[n|]|] [[ds|]|] [[st|]|]]; destruct p; reflexivity.
Qed.

Lemma find_split {A} (f : A -> bool) (g : A -> A) (l : list A) (a : A) :
  find f l = Some a ->
  exists l1 l2, l = l1 ++ a :: l2 /\ update_first f g l = l1 ++ g a :: l2.
Proof.
  induction l as [|x l IH]; cbn; [discriminate|].
  destruct (f x) eqn:Fx.
  - intro H; injection H as <-. exists [], l. auto.
  - intro H. destruct (IH H) as (l1 & l2 & -> & ->). exists (x :: l1), l2. auto.
Qed.

Lemma find_update_first {A} (f : A -> bool) (g : A -> A) (l : list A) :
  (forall x, f (g x) = f x) ->
  find f (update_first f g l) = option_map g (find f l).
Proof.
  intro H. induction l as [|x l IH]; cbn; [reflexivity|].
  destruct (f x) eqn:Fx; cbn.
  - now rewrite H, Fx.
  - now rewrite Fx.
Qed.

(** Under unique identifiers, the project found with the owner filter is
    the one found by identifier alone. *)
Lemma find_owned_by_id (oid : ObjectId) (email : string) (l : list ProjectDoc)
    (p : ProjectDoc) :
  NoDup (map p_id l) ->
  find (owned_by oid email) l = Some p ->
  find (fun q => p_id q =? oid)%string l = Some p.
Proof.
  intros Hnd Hf. destruct (find_some _ _ Hf) as [Hin Ho].
  unfold owned_by in Ho. apply andb_prop in Ho. destruct Ho as [Hid _].
  destruct (find (fun q => p_id q =? oid)%string l) as [q|] eqn:Hq.
  - destruct (find_some _ _ Hq) as [Hqin Hqid].
    apply String.eqb_eq in Hid, Hqid.
    f_equal. apply (NoDup_map_inj p_id l q p Hnd Hqin Hin). congruence.
  - exfalso. pose proof (find_none _ _ Hq p Hin) as Hn. cbn in Hn. congruence.
Qed.

(** C5. For a project the caller owns, update stores the project with
    exactly the set, non-null fields of the patch applied: a field that is
    absent from the patch or set to null keeps its value, [_id],
    [owner_email] and [created_at] keep theirs, and [updated_at] becomes
    the time of the call, for every patch, the empty one included.  The
    response is the [ProjectOut(...)] built from the stored project, in
    the world that holds it: the stored project with the owner's address
    as the validator normalises it, or the [ValidationError] of the model
    when the validator refuses that address.  The other projects and the
    users are as they were. *)
Theorem update_applies_present_fields
    (pid : string) (oid : ObjectId) (payload : ProjectUpdate) (key : option string)
    (now : datetime) (w : World) (u : UserDoc) (w1 : World) (p : ProjectDoc) :
  require_user key w = Return u w1 ->
  ObjectId_of_str pid = Some oid ->
  NoDup (map p_id (projects w)) ->
  find (owned_by oid (u_email u)) (projects w) = Some p ->
  exists (p' : ProjectDoc) (l1 l2 : list ProjectDoc) (w' : World),
    update_project pid payload key now w = ProjectOut_of p' w' /\
    projects w = l1 ++ p :: l2 /\
    projects w' = l1 ++ p' :: l2 /\
    users w' = users w /\
    p_id p' = p_id p /\
    p_owner_email p' = p_owner_email p /\
    p_created_at p' = p_created_at p /\
    p_updated_at p' = now /\
    p_name p' = match pu_name payload with Some (Some v) => v | _ => p_name p end /\
    p_description p' = match pu_description payload with
                       | Some (Some v) => Some v
                       | _ => p_description p
                       end /\
    p_status p' = match pu_status payload with Some (Some v) => v | _ => p_status p end /\
    (forall email, EmailStr (env w) (p_owner_email p) = Some email ->
       update_project pid payload key now w
         = Return (mkOut (p_id p') (p_name p') (p_description p') (p_status p') email
                         (p_created_at p') (p_updated_at p')) w') /\
    (EmailStr (env w) (p_owner_email p) = None ->
       update_project pid payload key now w = Raise ValidationError w').
Proof.
  intros Hu Hoid Hnd Hf.
  destruct (require_user_inv _ _ _ _ Hu) as (k & d & _ & _ & Hd & _ & ->).
  unfold projects in *. rewrite Hd in *.
  pose proof (find_owned_by_id _ _ _ _ Hnd Hf) as Hid.
  destruct (find_split (fun q => p_id q =? oid)%string
              (set_fields
                 (match not_none_items (dict_exclude_unset payload) with
                  | [] => []
                  | _ :: _ => not_none_items (dict_exclude_unset payload)
                  end ++ [("updated_at", VDate now)])) _ _ Hid) as (l1 & l2 & Hl & Hup).
  exists (patched payload now p), l1, l2.
  eassert (Hrun : update_project pid payload key now w
                  = ProjectOut_of (patched payload now p) _).
  { unfold update_project, bind at 1. rewrite Hu, Hoid.
    unfold_monad. rewrite Hd, Hf. cbn [db user project].
    rewrite find_update_first, Hid; [|intro x; rewrite set_fields_patched; reflexivity].
    cbn [option_map]. rewrite set_fields_patched. reflexivity. }
  eexists. split; [exact Hrun|]. split; [exact Hl|].
  cbn [db project users user]. unfold users. rewrite Hd. cbn [db].
  rewrite Hup, set_fields_patched.
  repeat split; try reflexivity.
  - intros email He. rewrite Hrun. unfold ProjectOut_of.
    cbn [env patched p_owner_email]. rewrite He, Hup, set_fields_patched. reflexivity.
  - intros He. rewrite Hrun. unfold ProjectOut_of.
    cbn [env patched p_owner_email]. rewrite He, Hup, set_fields_patched. reflexivity.
Qed.

Lemma update_applies_present_fields_witness :
  exists (p' : ProjectDoc) (l1 l2 : list ProjectDoc) (w' : World),
    update_project "65000000000000000000000a" (mkUpdate None (Some None) (Some (Some "archived")))
                   (Some (u_api_key sample_user)) 400 sample_world
      = ProjectOut_of p' w' /\
    projects sample_world = l1 ++ sample_project :: l2 /\
    projects w' = l1 ++ p' :: l2 /\
    users w' = users sample_world /\
    p_id p' = p_id sample_project /\
    p_owner_email p' = p_owner_email sample_project /\
    p_created_at p' = p_created_at sample_project /\
    p_updated_at p' = 400 /\
    p_name p' = p_name sample_project /\
    p_description p' = p_description sample_project /\
    p_status p' = "archived" /\
    (forall email, EmailStr (env sample_world) (p_owner_email sample_project) = Some email ->
       update_project "65000000000000000000000a"
                      (mkUpdate None (Some None) (Some (Some "archived")))
                      (Some (u_api_key sample_user)) 400 sample_world
         = Return (mkOut (p_id p') (p_name p') (p_description p') (p_status p') email
                         (p_created_at p') (p_updated_at p')) w') /\
    (EmailStr (env sample_world) (p_owner_email sample_project) = None ->
       update_project "65000000000000000000000a"
                      (mkUpdate None (Some None) (Some (Some "archived")))
                      (Some (u_api_key sample_user)) 400 sample_world
         = Raise ValidationError w').
Proof.
  apply (update_applies_present_fields "65000000000000000000000a"
           "65000000000000000000000a" (mkUpdate None (Some None) (Some (Some "archived")))
           (Some (u_api_key sample_user)) 400 sample_world sample_user
           (logged (Read User) sample_world) sample_project).
  - reflexivity.
  - reflexivity.
  - cbn. repeat constructor; cbn; intuition discriminate.
  - reflexivity.
Defined.

Example update_status_only :
  update_project "65000000000000000000000a" (mkUpdate None None (Some (Some "archived")))
                 (Some (u_api_key sample_user)) 400 sample_world
  = Return (mkOut "65000000000000000000000a" "Alpha" (Some "first") "archived"
                  "ann@example.com" 200 400)
      (mkWorld (Some (mkDb [sample_user; sample_other]
                        [mkProject "65000000000000000000000a" "ann@example.com" "Alpha"
                                   (Some "first") "archived" 200 400;
                         sample_project_bob; sample_project2]))
               [Read User; Read Project; Write Project; Read Project] sample_env).
Proof. reflexivity. Qed.

Example update_empty_patch :
  update_project "65000000000000000000000a" (mkUpdate None None None)
                 (Some (u_api_key sample_user)) 400 sample_world
  = Return (mkOut "65000000000000000000000a" "Alpha" (Some "first") "active"
                  "ann@example.com" 200 400)
      (mkWorld (Some (mkDb [sample_user; sample_other]
                        [mkProject "65000000000000000000000a" "ann@example.com" "Alpha"
                                   (Some "first") "active" 200 400;
                         sample_project_bob; sample_project2]))
               [Read User; Read Project; Write Project; Read Project] sample_env).
Proof. reflexivity. Qed.

(** ** Text analysis *)

Lemma split_from_length (cur s : list N) :
  List.length (split_from cur s)
  = ((if nonempty cur then 1 else 0) + count_tokens_from (nonempty cur) s)%nat.
Proof.
  revert cur. induction s as [|c s IH]; intro cur; cbn.
  - destruct cur; reflexivity.
  - destruct (isspace c).
    + destruct cur; cbn; rewrite IH; reflexivity.
    + rewrite IH. cbn. destruct cur; cbn; lia.
Qed.

(** [split] returns as many words as the text has tokens. *)
Lemma split_length (s : list N) : List.length (split s) = count_tokens s.
Proof. unfold split, count_tokens. now rewrite split_from_length. Qed.

Lemma forallb_rev {A} (f : A -> bool) (l : list A) : forallb f (rev l) = forallb f l.
Proof.
  induction l as [|a l IH]; cbn; [reflexivity|].
  rewrite forallb_app, IH. cbn. rewrite andb_true_r. apply andb_comm.
Qed.

Lemma split_from_words (cur s : list N) :
  forallb (fun c => negb (isspace c)) cur = true ->
  Forall is_word (split_from cur s) /\
  List.concat (split_from cur s) = rev cur ++ filter (fun c => negb (isspace c)) s.
Proof.
  revert cur. induction s as [|c s IH]; intros cur Hc; cbn.
  - destruct cur as [|x cur]; cbn; [auto|]. split.
    + constructor; [|constructor]. split.
      * intro E. apply (f_equal (@List.length N)) in E.
        rewrite length_app in E. cbn in E. lia.
      * rewrite forallb_app, forallb_rev. cbn in *.
        apply andb_prop in Hc. destruct Hc as [-> ->]. reflexivity.
    + now rewrite !app_nil_r.
  - destruct (isspace c) eqn:Sc; cbn.
    + destruct (IH [] eq_refl) as [HF HC]. destruct cur as [|x cur]; [auto|].
      split.
      * constructor; [|assumption]. split.
        -- intro E. apply (f_equal (@List.length N)) in E.
           cbn in E. rewrite length_app in E. cbn in E. lia.
        -- cbn. rewrite forallb_app, forallb_rev. cbn in *.
           apply andb_prop in Hc. destruct Hc as [-> ->]. reflexivity.
      * cbn [List.concat]. rewrite HC. reflexivity.
    + destruct (IH (c :: cur)) as [HF HC].
      * cbn. now rewrite Sc.
      * split; [assumption|]. rewrite HC. cbn. now rewrite <- app_assoc.
Qed.

(** The words of [split] are non-empty, free of white space, and together
    they are the text with its white space removed. *)
Lemma split_words (s : list N) :
  Forall is_word (split s) /\
  List.concat (split s) = filter (fun c => negb (isspace c)) s.
Proof. exact (split_from_words [] s eq_refl). Qed.

Lemma lstrip_spec (s : list N) :
  exists l, s = l ++ lstrip s /\ forallb isspace l = true /\
            (forall c r, lstrip s = c :: r -> isspace c = false).
Proof.
  induction s as [|c s (l & Hs & Hl & Hh)]; cbn.
  - exists []. repeat split. discriminate.
  - destruct (isspace c) eqn:Sc.
    + exists (c :: l). cbn. rewrite Sc, Hl. repeat split; [congruence|assumption].
    + exists []. repeat split. intros c' r E. now injection E as <- _.
Qed.

Lemma lstrip_nil_iff (s : list N) : lstrip s = [] <-> forallb isspace s = true.
Proof.
  induction s as [|c s IH]; cbn; [tauto|].
  destruct (isspace c); cbn; [exact IH|]. split; discriminate.
Qed.

Lemma lstrip_all_space (s : list N) : forallb isspace s = true -> lstrip s = [].
Proof. apply lstrip_nil_iff. Qed.

(** The trimmed text is empty exactly when the text is white space only. *)
Lemma strip_nil_iff (s : list N) : strip s = [] <-> forallb isspace s = true.
Proof.
  unfold strip, rstrip. split.
  - intro H. apply (f_equal (@rev N)) in H. rewrite rev_involutive in H. cbn in H.
    apply lstrip_nil_iff in H. rewrite forallb_rev in H.
    destruct (lstrip_spec s) as (l & Hs & Hl & _). rewrite Hs, forallb_app, Hl, H.
    reflexivity.
  - intro H. rewrite (lstrip_all_space s H). reflexivity.
Qed.

(** [strip] removes a run of white space at each end and nothing else;
    what is left neither starts nor ends with white space. *)
Lemma strip_spec (s : list N) :
  exists l r,
    s = l ++ strip s ++ r /\ forallb isspace l = true /\ forallb isspace r = true /\
    (forall c t, strip s = c :: t -> isspace c = false) /\
    (forall c t, strip s = t ++ [c] -> isspace c = false).
Proof.
  destruct (lstrip_spec s) as (l & Hs & Hl & Hh).
  destruct (lstrip_spec (rev (lstrip s))) as (r & Hr & Hrl & Hrh).
  exists l, (rev r). unfold strip, rstrip.
  assert (E : lstrip s = rev (lstrip (rev (lstrip s))) ++ rev r).
  { rewrite <- rev_app_distr, <- Hr. now rewrite rev_involutive. }
  repeat split.
  - now rewrite <- E.
  - assumption.
  - now rewrite forallb_rev.
  - intros c t Ht. rewrite Ht in E. cbn in E. eapply Hh. exact E.
  - intros c t Ht. apply (f_equal (@rev N)) in Ht.
    rewrite rev_involutive, rev_app_distr in Ht. cbn in Ht. eapply Hrh. exact Ht.
Qed.

(** [analyze_text] for an authenticated caller, in one equation. *)
Lemma analyze_text_run payload key now w u w1 :
  require_user key w = Return u w1 ->
  analyze_text payload key now w =
    match strip (ar_text payload) with
    | [] => Raise (HTTPException 400 "Text required") w1
    | _ :: _ =>
        Return (mkAnalyzeOut (u_email u) (u_plan u)
                  (count_tokens (strip (ar_text payload)))
                  (List.length (strip (ar_text payload)))
                  (firstn 80 (strip (ar_text payload))))
          (mkWorld (Some (mkDb (update_first (fun x => u_email x =? u_email u)%string
                                  (record_usage now) (users w))
                               (projects w)))
                   (log w1 ++ [Write User]) (env w))
    end.
Proof.
  intro Hu. unfold analyze_text, bind at 1. rewrite Hu.
  destruct (require_user_inv _ _ _ _ Hu) as (k & d & _ & _ & Hd & _ & ->).
  destruct (strip (ar_text payload)) as [|c t] eqn:Hs; [reflexivity|].
  unfold users, projects. unfold_monad. rewrite Hd.
  now rewrite split_length.
Qed.

Lemma lstrip_app_space (l s : list N) : forallb isspace l = true -> lstrip (l ++ s) = lstrip s.
Proof.
  induction l as [|c l IH]; cbn; [reflexivity|].
  intro H. apply andb_prop in H. destruct H as [-> H]. now apply IH.
Qed.

Lemma lstrip_app (s r : list N) :
  lstrip (s ++ r) = match lstrip s with
                    | [] => lstrip r
                    | _ :: _ => lstrip s ++ r
                    end.
Proof.
  induction s as [|c s IH]; cbn; [now destruct (lstrip r)|].
  destruct (isspace c); [exact IH|reflexivity].
Qed.

Lemma rstrip_app_space (s r : list N) : forallb isspace r = true -> rstrip (s ++ r) = rstrip s.
Proof.
  intro H. unfold rstrip. rewrite rev_app_distr, lstrip_app_space; [reflexivity|].
  now rewrite forallb_rev.
Qed.

Lemma strip_padding (l s r : list N) :
  forallb isspace l = true -> forallb isspace r = true ->
  strip (l ++ s ++ r) = strip s.
Proof.
  intros Hl Hr. unfold strip. rewrite (lstrip_app_space l _ Hl), lstrip_app.
  destruct (lstrip s) as [|c t] eqn:Hs.
  - now rewrite (lstrip_all_space r Hr).
  - now apply rstrip_app_space.
Qed.

Lemma lstrip_head (s : list N) :
  (forall c t, s = c :: t -> isspace c = false) -> lstrip s = s.
Proof.
  destruct s as [|c t]; cbn; [reflexivity|]. intro H. now rewrite (H c t eq_refl).
Qed.

(** A text that neither starts nor ends with white space is its own
    trimming. *)
Lemma strip_trimmed (s : list N) :
  (forall c t, s = c :: t -> isspace c = false) ->
  (forall c t, s = t ++ [c] -> isspace c = false) ->
  strip s = s.
Proof.
  intros Hh Hl. unfold strip, rstrip. rewrite (lstrip_head s Hh).
  rewrite lstrip_head; [apply rev_involutive|].
  intros c t E. apply (Hl c (rev t)). apply (f_equal (@rev N)) in E.
  rewrite rev_involutive in E. exact E.
Qed.

(** [strip] computes the text without its leading and trailing white
    space, and that text is unique. *)
Lemma trimmed_of_strip (t : list N) : trimmed_of t (strip t).
Proof.
  destruct (strip_spec t) as (l & r & Hs & Hl & Hr & Hh & Ht).
  exists l, r. auto.
Qed.

Lemma trimmed_of_unique (t s : list N) : trimmed_of t s -> s = strip t.
Proof.
  intros (l & r & -> & Hl & Hr & Hh & Ht).
  rewrite strip_padding by assumption. symmetry. now apply strip_trimmed.
Qed.

(** C6. For an authenticated caller, analyze measures the text without
    its leading and trailing white space: every text has exactly one such
    trimming; analyze raises 400 "Text required" exactly when it is
    empty, and otherwise returns the number of its white-space-delimited
    tokens as [words], its length as [characters] and its first 80
    characters as [preview]. *)
Theorem analyze_measures_trimmed_text
    (payload : AnalyzeRequest) (key : option string) (now : datetime)
    (w : World) (u : UserDoc) (w1 : World) :
  require_user key w = Return u w1 ->
  (exists text, trimmed_of (ar_text payload) text) /\
  forall text, trimmed_of (ar_text payload) text ->
    (text = [] ->
     analyze_text payload key now w = Raise (HTTPException 400 "Text required") w1) /\
    (forall e w', analyze_text payload key now w = Raise e w' -> text = []) /\
    (text <> [] ->
     exists w',
       analyze_text payload key now w
         = Return (mkAnalyzeOut (u_email u) (u_plan u) (count_tokens text)
                     (List.length text) (firstn 80 text)) w').
Proof.
  intros Hu. split; [exists (strip (ar_text payload)); apply trimmed_of_strip|].
  intros text Ht. rewrite (trimmed_of_unique _ _ Ht).
  pose proof (analyze_text_run payload key now w u w1 Hu) as Hrun.
  repeat split.
  - intro E. rewrite Hrun, E. reflexivity.
  - intros e w' H. rewrite Hrun in H.
    destruct (strip (ar_text payload)); [reflexivity|discriminate].
  - intro Hne. rewrite Hrun.
    destruct (strip (ar_text payload)); [contradiction|]. eexists. reflexivity.
Qed.

Lemma analyze_measures_trimmed_text_witness :
  trimmed_of (codepoints "  hello world  ") (codepoints "hello world") /\
  exists w',
    analyze_text (mkAnalyze (codepoints "  hello world  ")) (Some (u_api_key sample_user))
                 600 sample_world
      = Return (mkAnalyzeOut "ann@example.com" "free" 2 11 (codepoints "hello world")) w'.
Proof.
  assert (Ht : trimmed_of (codepoints "  hello world  ") (codepoints "hello world")).
  { exists (codepoints "  "), (codepoints "  "). repeat split.
    - intros c s' E. injection E as <- _. reflexivity.
    - intros c s' E.
      assert (E' : rev (codepoints "hello world") = rev (s' ++ [c])) by now rewrite E.
      rewrite rev_app_distr in E'. injection E' as <- _. reflexivity. }
  split; [exact Ht|].
  apply (proj2 (analyze_measures_trimmed_text
                  (mkAnalyze (codepoints "  hello world  ")) (Some (u_api_key sample_user))
                  600 sample_world sample_user (logged (Read User) sample_world)
                  eq_refl) (codepoints "hello world") Ht).
  discriminate.
Defined.

Example analyze_hello_counts :
  count_tokens (strip (codepoints "  hello world  ")) = 2%nat /\
  List.length (strip (codepoints "  hello world  ")) = 11%nat /\
  firstn 80 (strip (codepoints "  hello world  ")) = codepoints "hello world".
Proof. repeat split. Qed.

(** ** Usage metering *)

Lemma find_unique_key {A} (k : A -> string) (l : list A) (a : A) :
  NoDup (map k l) -> In a l -> find (fun x => k x =? k a)%string l = Some a.
Proof.
  intros Hnd Hin.
  destruct (find (fun x => k x =? k a)%string l) as [b|] eqn:Hf.
  - destruct (find_some _ _ Hf) as [Hb Hk]. apply String.eqb_eq in Hk.
    f_equal. exact (NoDup_map_inj k l b a Hnd Hb Hin Hk).
  - pose proof (find_none _ _ Hf a Hin) as Hn. cbn in Hn.
    rewrite String.eqb_refl in Hn. discriminate.
Qed.

Lemma usage_record_usage now u : usage (record_usage now u) = usage u + 1.
Proof. unfold usage, record_usage. cbn. destruct (u_usage_count u); lia. Qed.

(** The handlers of [login], [me] and the project routes leave the user
    collection as it is. *)
Lemma serve_same_users (c : Call) (w : World) :
  writes_users c = false -> users (serve c w) = users w.
Proof.
  assert (R := same_users_refl). assert (T := same_users_trans).
  destruct c; cbn [writes_users]; intro H; try discriminate; cbn [serve].
  - apply (keeps_login same_users R T).
  - apply (keeps_me same_users R T).
  - apply (keeps_list_projects same_users R T).
  - apply (keeps_create_project same_users R T), project_insert_one_users.
  - apply (keeps_patch_project same_users R T). intros. apply project_update_one_users.
  - apply (keeps_delete_project same_users R T), project_delete_one_users.
Qed.

(** A signup that raises leaves the store as it was. *)
Lemma signup_raise_db payload salt api_key oid t1 t2 w e w1 :
  signup payload salt api_key oid t1 t2 w = Raise e w1 -> db w1 = db w.
Proof.
  rewrite signup_run, get_user_by_email_run. destruct (db w) as [d|] eqn:E.
  - destruct (db_has_bool (env w)).
    + destruct (find _ (user d)); [intro H; injection H as <- <-; cbn; congruence|].
      unfold_monad. rewrite E. cbn [signup_doc u_id].
      destruct (existsb _ (user d)); intro H; [|discriminate].
      injection H as <- <-. cbn. congruence.
    + intro H; injection H as <- <-. congruence.
  - unfold_monad. rewrite E. intro H; injection H as <- <-. congruence.
Qed.

(** Signup changes no existing user: it appends one, or nothing. *)
Lemma signup_appends payload salt api_key oid t1 t2 w :
  exists l, users (world_of (signup payload salt api_key oid t1 t2 w)) = users w ++ l.
Proof.
  destruct (signup payload salt api_key oid t1 t2 w) as [out w1|e w1] eqn:Hs.
  - destruct (signup_inv _ _ _ _ _ _ _ _ _ Hs) as (d & Hd & _ & Hd1 & _).
    cbn. unfold users. rewrite Hd, Hd1. eexists. reflexivity.
  - exists []. rewrite app_nil_r. cbn. unfold users.
    now rewrite (signup_raise_db _ _ _ _ _ _ _ _ _ Hs).
Qed.

(** C7. A successful analyze call adds exactly one to the usage counter
    of the caller (an absent counter counting as zero) and sets the
    caller's [updated_at] to the time of the call, leaving the rest of
    the user, the other users and the projects as they were, in a store
    whose emails are unique.  The handlers of login, me, list, create,
    update and delete leave every user document as it is; signup only
    appends the new user. *)
Theorem usage_only_by_analyze :
  (forall (payload : AnalyzeRequest) (key : option string) (now : datetime)
          (w : World) (u : UserDoc) (w1 : World),
     require_user key w = Return u w1 ->
     strip (ar_text payload) <> [] ->
     NoDup (map u_email (users w)) ->
     exists (u' : UserDoc) (l1 l2 : list UserDoc) (out : AnalyzeOut) (w' : World),
       analyze_text payload key now w = Return out w' /\
       users w = l1 ++ u :: l2 /\
       users w' = l1 ++ u' :: l2 /\
       usage u' = usage u + 1 /\
       u_updated_at u' = now /\
       same_identity u u' /\
       projects w' = projects w) /\
  (forall (c : Call) (w : World),
     writes_users c = false -> users (serve c w) = users w) /\
  (forall payload salt api_key oid t1 t2 (w : World),
     exists l, users (serve (CSignup payload salt api_key oid t1 t2) w) = users w ++ l).
Proof.
  split; [|split].
  - intros payload key now w u w1 Hu Hne Hnd.
    destruct (require_user_inv _ _ _ _ Hu) as (k & d & _ & _ & Hd & Hf & _).
    assert (Hin : In u (users w)).
    { unfold users. rewrite Hd. exact (proj1 (find_some _ _ Hf)). }
    pose proof (find_unique_key u_email (users w) u Hnd Hin) as Hfe.
    destruct (find_split _ (record_usage now) _ _ Hfe) as (l1 & l2 & Hl & Hup).
    exists (record_usage now u), l1, l2.
    rewrite (analyze_text_run payload key now w u w1 Hu).
    destruct (strip (ar_text payload)) as [|c t]; [contradiction|].
    eexists. eexists. split; [reflexivity|].
    split; [exact Hl|]. unfold users at 1, projects at 1. cbn [db user project].
    split; [exact Hup|]. split; [apply usage_record_usage|].
    split; [reflexivity|]. split; [apply same_identity_record_usage|reflexivity].
  - exact serve_same_users.
  - intros. cbn [serve]. apply signup_appends.
Qed.

Lemma usage_only_by_analyze_witness :
  (exists (u' : UserDoc) (l1 l2 : list UserDoc) (out : AnalyzeOut) (w' : World),
     analyze_text (mkAnalyze (codepoints "one two three")) (Some (u_api_key sample_other))
                  700 sample_world = Return out w' /\
     users sample_world = l1 ++ sample_other :: l2 /\
     users w' = l1 ++ u' :: l2 /\
     usage u' = usage sample_other + 1 /\
     u_updated_at u' = 700 /\
     same_identity sample_other u' /\
     projects w' = projects sample_world) /\
  users (serve (CDelete "65000000000000000000000a" (Some (u_api_key sample_user)))
               sample_world) = users sample_world.
Proof.
  destruct usage_only_by_analyze as (A & B & _).
  split.
  - apply (A (mkAnalyze (codepoints "one two three")) (Some (u_api_key sample_other)) 700
             sample_world sample_other (logged (Read User) sample_world)).
    + reflexivity.
    + cbn. discriminate.
    + cbn. repeat constructor; cbn; intuition discriminate.
  - apply (B (CDelete "65000000000000000000000a" (Some (u_api_key sample_user)))
             sample_world).
    reflexivity.
Defined.

(** ** Listing *)

Lemma insert_desc_perm (x : ProjectDoc) (l : list ProjectDoc) :
  Permutation (insert_desc x l) (x :: l).
Proof.
  induction l as [|y l IH]; cbn; [reflexivity|].
  destruct (p_created_at y <=? p_created_at x); [reflexivity|].
  rewrite IH. apply perm_swap.
Qed.

Lemma sort_created_desc_perm (l : list ProjectDoc) :
  Permutation (sort_created_desc l) l.
Proof.
  induction l as [|x l IH]; cbn; [reflexivity|].
  rewrite insert_desc_perm. now apply perm_skip.
Qed.

Lemma insert_desc_hd (x a : ProjectDoc) (l : list ProjectDoc) :
  newer_first a x -> HdRel newer_first a l -> HdRel newer_first a (insert_desc x l).
Proof.
  intros Hax Hl. destruct l as [|y l]; cbn; [now constructor|].
  destruct (p_created_at y <=? p_created_at x); constructor; [assumption|].
  now inversion Hl.
Qed.

Lemma insert_desc_sorted (x : ProjectDoc) (l : list ProjectDoc) :
  Sorted newer_first l -> Sorted newer_first (insert_desc x l).
Proof.
  induction l as [|y l IH]; cbn; intro Hs; [repeat constructor|].
  destruct (p_created_at y <=? p_created_at x) eqn:E.
  - constructor; [assumption|]. constructor. unfold newer_first. lia.
  - inversion Hs as [|? ? Hl Hh]; subst. constructor; [now apply IH|].
    apply insert_desc_hd; [|assumption]. unfold newer_first. lia.
Qed.

Lemma sort_created_desc_sorted (l : list ProjectDoc) :
  Sorted newer_first (sort_created_desc l).
Proof.
  induction l as [|x l IH]; cbn; [constructor|]. now apply insert_desc_sorted.
Qed.

Lemma newer_first_trans : Relations_1.Transitive newer_first.
Proof. intros a b c. unfold newer_first. lia. Qed.

Lemma strongly_sorted_out (email : string) (l : list ProjectDoc) :
  StronglySorted newer_first l -> StronglySorted out_newer_first (map (out_of email) l).
Proof.
  induction 1 as [|a l Hs IH Hall]; cbn; constructor; [assumption|].
  rewrite Forall_map. exact Hall.
Qed.

Lemma filter_none {A} (f : A -> bool) (l : list A) :
  (forall x, In x l -> f x = false) -> filter f l = [].
Proof.
  induction l as [|a l IH]; cbn; intro H; [reflexivity|].
  rewrite (H a (or_introl eq_refl)). apply IH. intros x Hx. apply H. now right.
Qed.

(** The response items of projects that have one owner: all are built
    when the validator takes the owner's address, none when it refuses
    it. *)
Lemma mapM_ProjectOut_of_some (owner email : string) (l : list ProjectDoc) (w : World) :
  EmailStr (env w) owner = Some email ->
  (forall p, In p l -> p_owner_email p = owner) ->
  mapM ProjectOut_of l w = Return (map (out_of email) l) w.
Proof.
  intros He. induction l as [|p l IH]; intro Hl; cbn [mapM map]; [reflexivity|].
  unfold bind. unfold ProjectOut_of at 1.
  rewrite (Hl p (or_introl eq_refl)), He.
  rewrite IH by (intros q Hq; apply Hl; now right). reflexivity.
Qed.

Lemma mapM_ProjectOut_of_none (owner : string) (p : ProjectDoc) (l : list ProjectDoc)
    (w : World) :
  EmailStr (env w) owner = None ->
  p_owner_email p = owner ->
  mapM ProjectOut_of (p :: l) w = Raise ValidationError w.
Proof.
  intros He Hp. cbn [mapM]. unfold bind. unfold ProjectOut_of at 1.
  now rewrite Hp, He.
Qed.

(** [list_projects] for an authenticated caller, in one equation. *)
Lemma list_projects_run key w u w1 :
  require_user key w = Return u w1 ->
  list_projects key w =
    mapM ProjectOut_of
      (sort_created_desc
         (filter (fun p => p_owner_email p =? u_email u)%string (projects w)))
      (logged (Read Project) w1).
Proof.
  intro Hu. unfold list_projects, bind at 1. rewrite Hu.
  destruct (require_user_inv _ _ _ _ Hu) as (k & d & _ & _ & Hd & _ & ->).
  unfold projects. unfold_monad. now rewrite Hd.
Qed.

(** C8. For an authenticated caller, list returns exactly the projects
    whose owner is the caller's email, each once and with the fields of
    the stored document (the owner as the validator of the response model
    normalises it), the most recently created first; it returns the empty
    list, not an error, when the caller owns none; the store is not
    modified.  When the caller owns a project and the validator refuses
    the caller's address, the response model raises. *)
Theorem list_owned_newest_first
    (key : option string) (w : World) (u : UserDoc) (w1 : World) :
  require_user key w = Return u w1 ->
  ((forall p, In p (projects w) -> p_owner_email p <> u_email u) ->
   exists w', list_projects key w = Return [] w' /\ db w' = db w) /\
  (forall email, EmailStr (env w) (u_email u) = Some email ->
   exists (outs : list ProjectOut) (w' : World),
     list_projects key w = Return outs w' /\
     db w' = db w /\
     Permutation outs
       (map (fun p => mkOut (p_id p) (p_name p) (p_description p) (p_status p) email
                            (p_created_at p) (p_updated_at p))
            (filter (fun p => p_owner_email p =? u_email u)%string (projects w))) /\
     (forall o, In o outs <->
                exists p, In p (projects w) /\ p_owner_email p = u_email u /\
                          o = mkOut (p_id p) (p_name p) (p_description p) (p_status p)
                                    email (p_created_at p) (p_updated_at p)) /\
     StronglySorted (fun a b => o_created_at b <= o_created_at a) outs) /\
  (EmailStr (env w) (u_email u) = None ->
   (exists p, In p (projects w) /\ p_owner_email p = u_email u) ->
   exists w', list_projects key w = Raise ValidationError w' /\ db w' = db w).
Proof.
  intro Hu. rewrite (list_projects_run key w u w1 Hu).
  destruct (require_user_inv _ _ _ _ Hu) as (k & d & _ & _ & Hd & _ & ->).
  set (owned := filter (fun p => p_owner_email p =? u_email u)%string (projects w)).
  assert (Hown : forall p, In p (sort_created_desc owned) -> p_owner_email p = u_email u).
  { intros p Hp. apply (Permutation_in _ (sort_created_desc_perm owned)) in Hp.
    apply filter_In in Hp. now apply String.eqb_eq. }
  split; [|split].
  - intro Hnone. replace owned with (@nil ProjectDoc).
    + eexists. split; reflexivity.
    + symmetry. apply filter_none. intros p Hp. apply String.eqb_neq. now apply Hnone.
  - intros email He.
    assert (Hperm : Permutation (map (out_of email) (sort_created_desc owned))
                                (map (out_of email) owned)).
    { apply Permutation_map, sort_created_desc_perm. }
    rewrite (mapM_ProjectOut_of_some (u_email u) email _
               (logged (Read Project) (logged (Read User) w)) He Hown).
    eexists. eexists. split; [reflexivity|]. split; [reflexivity|].
    split; [exact Hperm|]. split.
    + intro o. split.
      * intro Ho. apply (Permutation_in _ Hperm) in Ho. apply in_map_iff in Ho.
        destruct Ho as (p & <- & Hp). apply filter_In in Hp. destruct Hp as [Hp Hpe].
        apply String.eqb_eq in Hpe. exists p. auto.
      * intros (p & Hp & Hpe & ->). apply (Permutation_in _ (Permutation_sym Hperm)).
        apply (in_map (out_of email)), filter_In. split; [assumption|].
        now apply String.eqb_eq.
    + apply (strongly_sorted_out email), Sorted_StronglySorted;
        [exact newer_first_trans|apply sort_created_desc_sorted].
  - intros He (p & Hp & Hpe).
    assert (Hin : In p (sort_created_desc owned)).
    { apply (Permutation_in _ (Permutation_sym (sort_created_desc_perm owned))).
      apply filter_In. split; [assumption|]. now apply String.eqb_eq. }
    destruct (sort_created_desc owned) as [|q l]; [destruct Hin|].
    rewrite (mapM_ProjectOut_of_none (u_email u) q l
               (logged (Read Project) (logged (Read User) w)) He
               (Hown q (or_introl eq_refl))).
    eexists. split; reflexivity.
Qed.

Lemma list_owned_newest_first_witness :
  exists (outs : list ProjectOut) (w' : World),
    list_projects (Some (u_api_key sample_user)) sample_world = Return outs w' /\
    db w' = db sample_world /\
    Permutation outs
      [mkOut "65000000000000000000000a" "Alpha" (Some "first") "active" "ann@example.com"
             200 200;
       mkOut "65000000000000000000000b" "Beta" None "active" "ann@example.com" 300 300] /\
    (forall o, In o outs <->
               exists p, In p (projects sample_world) /\
                         p_owner_email p = u_email sample_user /\
                         o = mkOut (p_id p) (p_name p) (p_description p) (p_status p)
                                   "ann@example.com" (p_created_at p) (p_updated_at p)) /\
    StronglySorted (fun a b => o_created_at b <= o_created_at a) outs.
Proof.
  apply (proj1 (proj2 (list_owned_newest_first (Some (u_api_key sample_user)) sample_world
                         sample_user (logged (Read User) sample_world) eq_refl))
           "ann@example.com").
  reflexivity.
Defined.

Example list_two_newest_first :
  list_projects (Some (u_api_key sample_user)) sample_world
  = Return [out_of "ann@example.com" sample_project2; out_of "ann@example.com" sample_project]
      (mkWorld (db sample_world) [Read User; Read Project] sample_env).
Proof. reflexivity. Qed.

Example list_none_owned :
  list_projects (Some (u_api_key sample_user))
    (mkWorld (Some (mkDb [sample_user; sample_other] [sample_project_bob])) [] sample_env)
  = Return [] (mkWorld (Some (mkDb [sample_user; sample_other] [sample_project_bob]))
                       [Read User; Read Project] sample_env).
Proof. reflexivity. Qed.

(** ** Validation of the patch *)

Lemma status_ok_false (f : field) :
  status_ok f = false <->
  exists s, f = Some (Some s) /\ s <> "active" /\ s <> "archived".
Proof.
  unfold status_ok. split.
  - destruct f as [[s|]|]; try discriminate. intro H. apply orb_false_iff in H.
    destruct H as [H1 H2]. apply String.eqb_neq in H1, H2. exists s. auto.
  - intros (s & -> & H1 & H2). apply String.eqb_neq in H1, H2. now rewrite H1, H2.
Qed.

(** A status outside the two allowed values is answered 422 by request
    validation, whereas the errors the handlers raise for bad input (a
    malformed project id, an empty text) are 400. *)
Lemma invalid_status_is_not_400 :
  patch_project "65000000000000000000000a" (mkUpdate None None (Some (Some "deleted")))
                (Some (u_api_key sample_user)) 400 sample_world
    = Raise RequestValidationError sample_world /\
  status_of RequestValidationError <> 400 /\
  update_project "not-an-id" (mkUpdate None None None)
                 (Some (u_api_key sample_user)) 400 sample_world
    = Raise (HTTPException 400 "Invalid project id") (logged (Read User) sample_world).
Proof. repeat split. cbn. lia. Qed.

(** C9, amended. A PATCH request whose status is set to a string other
    than "active" and "archived" is refused by request validation, with
    status 422, before the handler runs: no collection is read or
    written and the world is exactly as it was. *)
Theorem invalid_status_rejected_before_store
    (pid : string) (body : ProjectUpdate) (key : option string) (now : datetime)
    (w : World) (s : string) :
  pu_status body = Some (Some s) -> s <> "active" -> s <> "archived" ->
  patch_project pid body key now w = Raise RequestValidationError w /\
  status_of RequestValidationError = 422.
Proof.
  intros Hs H1 H2. split; [|reflexivity].
  unfold patch_project, ProjectUpdate_valid.
  replace (status_ok (pu_status body)) with false; [reflexivity|].
  symmetry. apply status_ok_false. exists s. auto.
Qed.

Lemma invalid_status_rejected_before_store_witness :
  patch_project "65000000000000000000000a" (mkUpdate (Some (Some "Renamed")) None
                                                     (Some (Some "deleted")))
                None 400 sample_world
    = Raise RequestValidationError sample_world /\
  status_of RequestValidationError = 422.
Proof.
  apply (invalid_status_rejected_before_store "65000000000000000000000a"
           (mkUpdate (Some (Some "Renamed")) None (Some (Some "deleted"))) None 400
           sample_world "deleted").
  - reflexivity.
  - discriminate.
  - discriminate.
Defined.

(** A valid body reaches the handler. *)
Lemma patch_project_valid pid body key now w :
  ProjectUpdate_valid body = true ->
  patch_project pid body key now w = update_project pid body key now w.
Proof. intro H. unfold patch_project. now rewrite H. Qed.

(** ** The invariant of the store *)

Lemma map_update_first {A B} (k : A -> B) (f : A -> bool) (g : A -> A) (l : list A) :
  (forall x, k (g x) = k x) -> map k (update_first f g l) = map k l.
Proof.
  intro H. induction l as [|a l IH]; cbn; [reflexivity|].
  destruct (f a); cbn; [now rewrite H|now rewrite IH].
Qed.

Lemma remove_first_incl {A} (f : A -> bool) (l : list A) (x : A) :
  In x (remove_first f l) -> In x l.
Proof.
  induction l as [|a l IH]; cbn; [trivial|].
  destruct (f a); cbn; [auto|]. intros [->|H]; auto.
Qed.

Lemma NoDup_map_remove_first {A B} (k : A -> B) (f : A -> bool) (l : list A) :
  NoDup (map k l) -> NoDup (map k (remove_first f l)).
Proof.
  induction l as [|a l IH]; cbn; intro H; [assumption|].
  inversion H as [|? ? Ha Hl]; subst. destruct (f a); cbn; [assumption|].
  constructor; [|now apply IH]. intro Hin. apply Ha.
  apply in_map_iff in Hin. destruct Hin as (x & Hx & Hin).
  apply in_map_iff. exists x. split; [assumption|]. eapply remove_first_incl, Hin.
Qed.

Lemma NoDup_map_snoc {A} (k : A -> string) (l : list A) (x : A) :
  NoDup (map k l) -> (forall a, In a l -> k a <> k x) -> NoDup (map k (l ++ [x])).
Proof.
  intros Hnd Hx. rewrite map_app. cbn.
  apply NoDup_app; [assumption|repeat constructor; intros []|].
  intros y Hy [<-|[]]. apply in_map_iff in Hy. destruct Hy as (a & Ha & Hin).
  now apply (Hx a Hin).
Qed.

Lemma set_fields_id (upd : list (string * value)) (d : ProjectDoc) :
  p_id (set_fields upd d) = p_id d.
Proof.
  unfold set_fields. revert d. induction upd as [|[k v] upd IH]; intro d; cbn; [reflexivity|].
  rewrite IH. destruct v; cbn;
    repeat match goal with |- context [if ?b then _ else _] => destruct b end; reflexivity.
Qed.

Lemma signup_preserves_ok payload salt api_key oid t1 t2 :
  keeps preserves_ok (signup payload salt api_key oid t1 t2).
Proof.
  intros w [Hu Hp]. destruct (signup payload salt api_key oid t1 t2 w) as [out w1|e w1] eqn:Hs.
  - destruct (signup_inv _ _ _ _ _ _ _ _ _ Hs) as (d & Hd & Hfree & Hd1 & _).
    cbn [world_of]. rewrite Hd1. rewrite Hd in Hu, Hp. split; cbn in *; [|assumption].
    apply NoDup_map_snoc; [assumption|]. intros a Ha.
    apply String.eqb_neq. exact (find_none _ _ Hfree a Ha).
  - cbn [world_of]. rewrite (signup_raise_db _ _ _ _ _ _ _ _ _ Hs). now split.
Qed.

(** Every request preserves the invariant. *)
Lemma serve_store_ok (c : Call) (w : World) : store_ok (db w) -> store_ok (db (serve c w)).
Proof.
  apply (keeps_serve preserves_ok).
  - intros a H; exact H.
  - intros a b c' Hab Hbc H. auto.
  - intros doc w0 [Hu Hp]. unfold project_insert_one.
    destruct (db w0) as [d|] eqn:E; cbn; [|rewrite E; now split].
    destruct (existsb _ (project d)) eqn:Ex; cbn; [rewrite E; now split|].
    split; cbn in *; [assumption|].
    apply NoDup_map_snoc; [assumption|]. intros a Ha.
    apply String.eqb_neq. exact (proj1 (existsb_false_iff _ _) Ex a Ha).
  - intros f upd w0 [Hu Hp]. unfold project_update_one.
    destruct (db w0) as [d|] eqn:E; cbn; [|rewrite E; now split].
    split; cbn in *; [assumption|].
    rewrite map_update_first; [assumption|apply set_fields_id].
  - intros f w0 [Hu Hp]. unfold project_delete_one.
    destruct (db w0) as [d|] eqn:E; cbn; [|rewrite E; now split].
    split; cbn in *; [assumption|]. now apply NoDup_map_remove_first.
  - intros f now w0 [Hu Hp]. unfold user_update_one.
    destruct (db w0) as [d|] eqn:E; cbn; [|rewrite E; now split].
    split; cbn in *; [|assumption].
    rewrite map_update_first; [assumption|reflexivity].
  - apply signup_preserves_ok.
Qed.

(** The invariant holds in every world reached from the empty store. *)
Lemma reachable_store_ok (w : World) : reachable w -> store_ok (db w).
Proof.
  intros (cs & e & ->). unfold serve_all.
  assert (H : store_ok (db (fresh_world e))) by (split; constructor).
  revert H. generalize (fresh_world e).
  induction cs as [|c cs IH]; intros w H; cbn; [assumption|].
  apply IH. now apply serve_store_ok.
Qed.

(** * Further properties of the handlers *)

(** ** The handlers in one equation each *)

Lemma update_first_ext {A} (f : A -> bool) (g g' : A -> A) (l : list A) :
  (forall x, g x = g' x) -> update_first f g l = update_first f g' l.
Proof.
  intro H. induction l as [|a l IH]; cbn; [reflexivity|].
  destruct (f a); [now rewrite H|now rewrite IH].
Qed.

(** [require_user] answers with the user the request is authenticated
    as. *)
Lemma require_user_resolve_some key w u :
  resolve key w = Some u -> require_user key w = Return u (logged (Read User) w).
Proof.
  unfold resolve. destruct (require_user key w) as [u' w1|e w1] eqn:Hu; [|discriminate].
  intro H; injection H as ->.
  now destruct (require_user_inv _ _ _ _ Hu) as (k & d & _ & _ & _ & _ & ->).
Qed.

Lemma require_user_resolve_none key w :
  resolve key w = None ->
  exists e w',
    require_user key w = Raise e w' /\ auth_error e /\ db w' = db w /\ env w' = env w /\
    (log w' = log w \/ log w' = log w ++ [Read User]).
Proof.
  intro H. destruct (require_user_cases key w) as [(u & Hu)|Hr]; [|exact Hr].
  unfold resolve in H. rewrite Hu in H. discriminate.
Qed.

Lemma require_user_resolve key w u w1 :
  require_user key w = Return u w1 -> resolve key w = Some u.
Proof. intro Hu. unfold resolve. now rewrite Hu. Qed.

Lemma resolve_in key w u : resolve key w = Some u -> In u (users w).
Proof.
  intro H. apply require_user_resolve_some in H.
  destruct (require_user_inv _ _ _ _ H) as (k & d & _ & _ & Hd & Hf & _).
  unfold users. rewrite Hd. exact (proj1 (find_some _ _ Hf)).
Qed.

(** The response model either builds the item or raises, in the world
    it is given. *)
Lemma ProjectOut_of_cases (d : ProjectDoc) (w : World) :
  (exists email, EmailStr (env w) (p_owner_email d) = Some email /\
                 ProjectOut_of d w = Return (out_of email d) w) \/
  (EmailStr (env w) (p_owner_email d) = None /\ ProjectOut_of d w = Raise ValidationError w).
Proof.
  unfold ProjectOut_of. destruct (EmailStr (env w) (p_owner_email d)) as [email|].
  - left. exists email. auto.
  - right. auto.
Qed.

(** [create_project] for an authenticated caller. *)
Lemma create_project_run payload key oid t1 t2 w u d :
  resolve key w = Some u -> db w = Some d ->
  create_project payload key oid t1 t2 w =
    if existsb (fun p => p_id p =? oid)%string (project d)
    then Raise DuplicateKeyError
           (mkWorld (db w) (log w ++ [Read User; Write Project]) (env w))
    else ProjectOut_of (create_doc u payload oid t1 t2)
           (mkWorld (Some (mkDb (user d) (project d ++ [create_doc u payload oid t1 t2])))
                    (log w ++ [Read User; Write Project; Read Project]) (env w)).
Proof.
  intros Hr Hd. unfold create_project, bind at 1.
  rewrite (require_user_resolve_some _ _ _ Hr).
  unfold_monad. rewrite Hd. cbn [p_id].
  destruct (existsb _ (project d)) eqn:Ex.
  - now rewrite <- app_assoc.
  - cbn [db project]. rewrite find_app_fresh.
    + fold (create_doc u payload oid t1 t2). cbn [create_doc p_id].
      rewrite String.eqb_refl. cbn [log]. now rewrite <- !app_assoc.
    + apply find_none_iff. exact (proj1 (existsb_false_iff _ _) Ex).
Qed.

Lemma find_owned_some_id oid email (l : list ProjectDoc) p :
  find (owned_by oid email) l = Some p ->
  exists q, find (fun x => p_id x =? oid)%string l = Some q.
Proof.
  intro H. destruct (find_some _ _ H) as [Hin Ho].
  destruct (find (fun x => p_id x =? oid)%string l) as [q|] eqn:Hq; [now exists q|].
  pose proof (find_none _ _ Hq p Hin) as Hn. cbn in Hn.
  unfold owned_by in Ho. rewrite Hn in Ho. discriminate.
Qed.

(** [update_project] for an authenticated caller and a well-formed id. *)
Lemma update_project_run pid oid payload key now w u d :
  resolve key w = Some u -> db w = Some d -> ObjectId_of_str pid = Some oid ->
  update_project pid payload key now w =
    match find (owned_by oid (u_email u)) (project d),
          find (fun q => p_id q =? oid)%string (project d) with
    | Some _, Some q =>
        ProjectOut_of (patched payload now q)
          (mkWorld (Some (mkDb (user d)
                            (update_first (fun q => p_id q =? oid)%string
                               (patched payload now) (project d))))
                   (log w ++ [Read User; Read Project; Write Project; Read Project])
                   (env w))
    | _, _ =>
        Raise (HTTPException 404 "Project not found")
              (mkWorld (db w) (log w ++ [Read User; Read Project]) (env w))
    end.
Proof.
  intros Hr Hd Hoid. unfold update_project, bind at 1.
  rewrite (require_user_resolve_some _ _ _ Hr), Hoid.
  unfold_monad. rewrite Hd.
  destruct (find (owned_by oid (u_email u)) (project d)) as [p|] eqn:Hf.
  - destruct (find_owned_some_id _ _ _ _ Hf) as (q & Hq). rewrite Hq.
    cbn [db user project].
    rewrite find_update_first, Hq; [|intro x; rewrite set_fields_patched; reflexivity].
    cbn [option_map]. rewrite set_fields_patched.
    rewrite (update_first_ext _ _ (patched payload now)) by (intro; apply set_fields_patched).
    cbn [log]. now rewrite <- !app_assoc.
  - now rewrite <- app_assoc.
Qed.

(** [delete_project] for an authenticated caller and a well-formed id. *)
Lemma delete_project_run pid oid key w u d :
  resolve key w = Some u -> db w = Some d -> ObjectId_of_str pid = Some oid ->
  delete_project pid key w =
    match find (owned_by oid (u_email u)) (project d) with
    | Some _ =>
        Return true
          (mkWorld (Some (mkDb (user d) (remove_first (owned_by oid (u_email u)) (project d))))
                   (log w ++ [Read User; Write Project]) (env w))
    | None =>
        Raise (HTTPException 404 "Project not found")
              (mkWorld (db w) (log w ++ [Read User; Write Project]) (env w))
    end.
Proof.
  intros Hr Hd Hoid. unfold delete_project, bind at 1.
  rewrite (require_user_resolve_some _ _ _ Hr), Hoid.
  unfold_monad. rewrite Hd.
  destruct (find (owned_by oid (u_email u)) (project d)) as [p|] eqn:Hf.
  - destruct (find_some _ _ Hf) as [Hin Ho].
    replace (existsb (owned_by oid (u_email u)) (project d)) with true.
    + cbn. now rewrite <- app_assoc.
    + symmetry. apply existsb_exists. now exists p.
  - pose proof (proj1 (find_none_iff _ _) Hf) as Hn.
    rewrite (proj2 (existsb_false_iff _ _) Hn), (remove_first_none _ _ Hn).
    cbn. rewrite <- app_assoc. now destruct d.
Qed.

(** [me] is [require_user] followed by the summary of the user. *)
Lemma me_run key w :
  me key w = match require_user key w with
             | Return u w1 =>
                 Return (mkAuthOut (u_api_key u) (u_plan u) (u_name u) (u_email u)) w1
             | Raise e w1 => Raise e w1
             end.
Proof.
  unfold me, require_user, bind. destruct key as [k|]; [|reflexivity].
  destruct (truthy (Some k)); [|reflexivity].
  destruct (get_user_by_api_key k w) as [[u|] w1|e w1]; reflexivity.
Qed.

(** A request that is not authenticated is refused, by validation or
    with an exception of [require_user], and the store is as it was. *)
Lemma protected_unauthorized (c : Call) (w : World) :
  resolve (key_of c) w = None ->
  match c with
  | CSignup _ _ _ _ _ _ | CLogin _ _ => True
  | _ =>
      db (serve c w) = db w /\
      (response_error c w = Some RequestValidationError \/
       exists e, auth_error e /\ response_error c w = Some e)
  end.
Proof.
  intros Hr. destruct c; cbn [key_of] in Hr; trivial;
    destruct (require_user_resolve_none _ _ Hr) as (e & w' & Hu & Ha & Hd & _);
    cbn [serve response_error].
  - rewrite me_run, Hu. cbn. eauto.
  - unfold list_projects, bind. rewrite Hu. cbn. eauto.
  - unfold create_project, bind. rewrite Hu. cbn. eauto.
  - unfold patch_project. destruct (ProjectUpdate_valid body); [|cbn; eauto].
    rewrite (update_project_unauthorized _ _ _ _ _ _ _ Hu). cbn. eauto.
  - rewrite (delete_project_unauthorized _ _ _ _ _ Hu). cbn. eauto.
  - unfold analyze_text, bind. rewrite Hu. cbn. eauto.
Qed.

Lemma resolve_db key w u : resolve key w = Some u -> exists d, db w = Some d.
Proof.
  intro H. apply resolve_in in H. unfold users in H.
  destruct (db w) as [d|]; [now exists d|destruct H].
Qed.

Lemma update_project_bad_id pid payload key now w u :
  resolve key w = Some u -> ObjectId_of_str pid = None ->
  update_project pid payload key now w
    = Raise (HTTPException 400 "Invalid project id") (logged (Read User) w).
Proof.
  intros Hr Hoid. unfold update_project, bind.
  now rewrite (require_user_resolve_some _ _ _ Hr), Hoid.
Qed.

Lemma delete_project_bad_id pid key w u :
  resolve key w = Some u -> ObjectId_of_str pid = None ->
  delete_project pid key w
    = Raise (HTTPException 400 "Invalid project id") (logged (Read User) w).
Proof.
  intros Hr Hoid. unfold delete_project, bind.
  now rewrite (require_user_resolve_some _ _ _ Hr), Hoid.
Qed.

Lemma same_db_refl a : same_db a a.
Proof. reflexivity. Qed.

Lemma same_db_trans a b c : same_db a b -> same_db b c -> same_db a c.
Proof. unfold same_db. congruence. Qed.

(** ** The API as five kinds of change *)

(** A request either leaves the store exactly as it was, or it changes
    it in one of the five ways of [Change]; in that case it succeeds,
    unless the response model refuses the project it has written. *)
Lemma serve_cases (c : Call) (w : World) :
  db (serve c w) = db w \/
  ((response_error c w = None \/ response_error c w = Some ValidationError) /\
   exists d d', db w = Some d /\ db (serve c w) = Some d' /\
                Change (resolve (key_of c) w) d d').
Proof.
  destruct c; cbn [serve response_error key_of].
  - destruct (signup payload salt api_key oid t1 t2 w) as [out w1|e w1] eqn:Hs.
    + right. destruct (signup_inv _ _ _ _ _ _ _ _ _ Hs) as (d & Hd & Hfree & Hd1 & _).
      split; [now left|]. exists d. eexists. split; [assumption|].
      split; [exact Hd1|]. now constructor.
    + left. exact (signup_raise_db _ _ _ _ _ _ _ _ _ Hs).
  - left. apply (keeps_login same_db same_db_refl same_db_trans).
  - left. apply (keeps_me same_db same_db_refl same_db_trans).
  - left. apply (keeps_list_projects same_db same_db_refl same_db_trans).
  - destruct (resolve x_api_key w) as [u|] eqn:Hr.
    + destruct (resolve_db _ _ _ Hr) as (d & Hd).
      rewrite (create_project_run payload _ oid t1 t2 w u d Hr Hd).
      destruct (existsb _ (project d)) eqn:Ex; [now left|right].
      match goal with |- context [ProjectOut_of ?doc ?w0] =>
        destruct (ProjectOut_of_cases doc w0) as [(email & _ & ->)|[_ ->]] end;
        (split; [cbn; auto|]); exists d; eexists; (split; [assumption|]);
        (split; [reflexivity|]); apply (ChCreate _ _ u); auto;
        apply resolve_in in Hr; unfold users in Hr; now rewrite Hd in Hr.
    + left. exact (proj1 (protected_unauthorized (CCreate payload x_api_key oid t1 t2) w Hr)).
  - destruct (resolve x_api_key w) as [u|] eqn:Hr.
    + unfold patch_project. destruct (ProjectUpdate_valid body) eqn:Hv; [|now left].
      destruct (resolve_db _ _ _ Hr) as (d & Hd).
      destruct (ObjectId_of_str project_id) as [oid|] eqn:Hoid.
      * rewrite (update_project_run _ oid body _ now w u d Hr Hd Hoid).
        destruct (find (owned_by oid (u_email u)) (project d)) as [p|] eqn:Hf; [|now left].
        destruct (find_owned_some_id _ _ _ _ Hf) as (q & Hq). rewrite Hq. right.
        match goal with |- context [ProjectOut_of ?doc ?w0] =>
          destruct (ProjectOut_of_cases doc w0) as [(email & _ & ->)|[_ ->]] end;
          (split; [cbn; auto|]); exists d; eexists; (split; [assumption|]);
          (split; [reflexivity|]); apply (ChUpdate _ _ u oid body now p); auto;
          apply resolve_in in Hr; unfold users in Hr; now rewrite Hd in Hr.
      * left. now rewrite (update_project_bad_id _ _ _ _ _ u Hr Hoid).
    + left. exact (proj1 (protected_unauthorized (CUpdate project_id body x_api_key now) w Hr)).
  - destruct (resolve x_api_key w) as [u|] eqn:Hr.
    + destruct (resolve_db _ _ _ Hr) as (d & Hd).
      destruct (ObjectId_of_str project_id) as [oid|] eqn:Hoid.
      * rewrite (delete_project_run _ oid _ w u d Hr Hd Hoid).
        destruct (find (owned_by oid (u_email u)) (project d)) as [p|] eqn:Hf; [|now left].
        right. split; [now left|]. exists d. eexists. split; [assumption|].
        split; [reflexivity|]. apply (ChDelete _ _ u oid p); auto.
        apply resolve_in in Hr. unfold users in Hr. now rewrite Hd in Hr.
      * left. now rewrite (delete_project_bad_id _ _ _ u Hr Hoid).
    + left. exact (proj1 (protected_unauthorized (CDelete project_id x_api_key) w Hr)).
  - destruct (resolve x_api_key w) as [u|] eqn:Hr.
    + destruct (resolve_db _ _ _ Hr) as (d & Hd).
      rewrite (analyze_text_run payload _ now w u _ (require_user_resolve_some _ _ _ Hr)).
      destruct (strip (ar_text payload)); [now left|right].
      split; [now left|]. exists d. eexists. split; [assumption|].
      unfold users, projects. rewrite Hd. split; [reflexivity|].
      apply (ChAnalyze _ _ u); auto.
      apply resolve_in in Hr. unfold users in Hr. now rewrite Hd in Hr.
    + left. exact (proj1 (protected_unauthorized (CAnalyze payload x_api_key now) w Hr)).
Qed.

(** ** Errors *)

(** X1. A request that is answered with an error leaves both
    collections exactly as they were, unless the error is the
    [ValidationError] of the response model, which create and update
    build after their write: no handler writes before it raises an
    exception of its own. *)
Theorem failed_request_changes_nothing (c : Call) (w : World) (e : Exn) :
  response_error c w = Some e -> e <> ValidationError -> db (serve c w) = db w.
Proof.
  intros He Hne. destruct (serve_cases c w) as [H|([Hn|Hn] & _)]; [assumption| |];
    rewrite He in Hn; [discriminate|]. injection Hn as ->. contradiction.
Qed.

Lemma failed_request_changes_nothing_witness :
  db (serve (CDelete "65000000000000000000000c" (Some (u_api_key sample_user))) sample_world)
  = db sample_world.
Proof.
  apply (failed_request_changes_nothing
           (CDelete "65000000000000000000000c" (Some (u_api_key sample_user))) sample_world
           (HTTPException 404 "Project not found")).
  - reflexivity.
  - discriminate.
Defined.

Lemma auth_error_not_attribute e : auth_error e -> e <> AttributeError.
Proof. intros [-> | [-> | ->]]; discriminate. Qed.

(** The loop over the response items leaves the world as it is and
    raises nothing but the error of the response model. *)
Lemma mapM_ProjectOut_of_world (l : list ProjectDoc) (w : World) :
  world_of (mapM ProjectOut_of l w) = w /\
  (error_of (mapM ProjectOut_of l w) = None \/
   error_of (mapM ProjectOut_of l w) = Some ValidationError).
Proof.
  induction l as [|p l IH]; cbn [mapM]; [cbn; auto|].
  unfold bind.
  destruct (ProjectOut_of_cases p w) as [(email & _ & E)|[_ E]]; rewrite E; [|cbn; auto].
  destruct IH as [IHw IHe].
  destruct (mapM ProjectOut_of l w) as [ys w'|e w']; cbn in *; auto.
Qed.

(** X2. No request fails on a missing document: the project that
    [create_project] and [update_project] read back after their write is
    always found, so [doc_out.get] and [new_doc.get] are never applied to
    [None] and no response is an [AttributeError]. *)
Theorem read_back_is_found (c : Call) (w : World) :
  response_error c w <> Some AttributeError.
Proof.
  assert (Hun : forall c', protected c' = true -> resolve (key_of c') w = None ->
                           response_error c' w <> Some AttributeError).
  { intros c' Hp Hr. pose proof (protected_unauthorized c' w Hr) as H.
    destruct c'; try discriminate; destruct H as [_ [-> | (e & Ha & ->)]];
      try discriminate; intro E; injection E as ->;
      exact (auth_error_not_attribute _ Ha eq_refl). }
  destruct c.
  - cbn [response_error]. rewrite signup_run, get_user_by_email_run.
    destruct (db w) as [d|] eqn:E.
    + destruct (db_has_bool (env w)); [|discriminate].
      destruct (find _ (user d)); [discriminate|].
      unfold_monad. rewrite E. destruct (existsb _ _); discriminate.
    + unfold_monad. rewrite E. discriminate.
  - cbn [response_error]. rewrite login_run, get_user_by_email_run.
    destruct (db w) as [d|]; [destruct (db_has_bool (env w))|]; try discriminate.
    destruct (find _ (user d)); [|discriminate].
    destruct (encode_utf8 _); [|discriminate]. destruct (verify _ _ _ _); discriminate.
  - destruct (resolve x_api_key w) as [u|] eqn:Hr; [|now apply Hun].
    cbn [response_error]. rewrite me_run, (require_user_resolve_some _ _ _ Hr). discriminate.
  - destruct (resolve x_api_key w) as [u|] eqn:Hr; [|now apply Hun].
    cbn [response_error].
    rewrite (list_projects_run _ _ _ _ (require_user_resolve_some _ _ _ Hr)).
    match goal with |- context [mapM ProjectOut_of ?l ?w0] =>
      destruct (proj2 (mapM_ProjectOut_of_world l w0)) as [-> | ->] end; discriminate.
  - destruct (resolve x_api_key w) as [u|] eqn:Hr; [|now apply Hun].
    cbn [response_error]. destruct (resolve_db _ _ _ Hr) as (d & Hd).
    rewrite (create_project_run payload _ oid t1 t2 w u d Hr Hd).
    destruct (existsb _ (project d)); [discriminate|].
    match goal with |- context [ProjectOut_of ?doc ?w0] =>
      destruct (ProjectOut_of_cases doc w0) as [(email & _ & ->)|[_ ->]] end; discriminate.
  - destruct (resolve x_api_key w) as [u|] eqn:Hr; [|now apply Hun].
    cbn [response_error]. unfold patch_project.
    destruct (ProjectUpdate_valid body); [|discriminate].
    destruct (resolve_db _ _ _ Hr) as (d & Hd).
    destruct (ObjectId_of_str project_id) as [oid|] eqn:Hoid.
    + rewrite (update_project_run _ oid body _ now w u d Hr Hd Hoid).
      destruct (find (owned_by oid (u_email u)) (project d)) as [p|] eqn:Hf; [|discriminate].
      destruct (find_owned_some_id _ _ _ _ Hf) as (q & ->).
      match goal with |- context [ProjectOut_of ?doc ?w0] =>
        destruct (ProjectOut_of_cases doc w0) as [(email & _ & ->)|[_ ->]] end; discriminate.
    + rewrite (update_project_bad_id _ _ _ _ _ u Hr Hoid). discriminate.
  - destruct (resolve x_api_key w) as [u|] eqn:Hr; [|now apply Hun].
    cbn [response_error]. destruct (resolve_db _ _ _ Hr) as (d & Hd).
    destruct (ObjectId_of_str project_id) as [oid|] eqn:Hoid.
    + rewrite (delete_project_run _ oid _ w u d Hr Hd Hoid).
      destruct (find _ (project d)); discriminate.
    + rewrite (delete_project_bad_id _ _ _ u Hr Hoid). discriminate.
  - destruct (resolve x_api_key w) as [u|] eqn:Hr; [|now apply Hun].
    cbn [response_error].
    rewrite (analyze_text_run payload _ now w u _ (require_user_resolve_some _ _ _ Hr)).
    destruct (strip (ar_text payload)); discriminate.
Qed.

Lemma read_back_is_found_witness :
  response_error (CUpdate "65000000000000000000000a" (mkUpdate None None None)
                          (Some (u_api_key sample_user)) 400) sample_world = None /\
  response_error (CUpdate "65000000000000000000000a" (mkUpdate None None None)
                          (Some (u_api_key sample_user)) 400) sample_world
    <> Some AttributeError.
Proof.
  split; [reflexivity|].
  apply (read_back_is_found
           (CUpdate "65000000000000000000000a" (mkUpdate None None None)
                    (Some (u_api_key sample_user)) 400) sample_world).
Defined.

(** ** Keys *)

Lemma require_user_refuses key w :
  resolve key w = None ->
  exists w',
    require_user key w = Raise (refusal key w) w' /\
    db w' = db w /\ (log w' = log w \/ log w' = log w ++ [Read User]).
Proof.
  unfold resolve, refusal. rewrite require_user_run. destruct key as [k|].
  - destruct (truthy (Some k)); [|intros _; exists w; auto].
    rewrite get_user_by_api_key_run. destruct (db w) as [d|] eqn:E.
    + destruct (db_has_bool (env w)).
      * destruct (find _ (user d)); [discriminate|]. intros _.
        eexists. split; [reflexivity|]. cbn. rewrite E. auto.
      * intros _. exists w. rewrite E. auto.
    + intros _. exists w. rewrite E. auto.
  - intros _. exists w. auto.
Qed.

(** X3. Every route that takes an API key (me, list, create, update,
    delete, analyze) refuses a request that [require_user] does not
    authenticate, with the exception of [require_user]: 401 "Missing API
    key" for a missing or empty key; otherwise 401 "Invalid API key" when
    the look-up finds no user, and the [NotImplementedError] of the truth
    test when the handle has none (an update whose body is invalid is
    refused with 422 before that).  Nothing is written and the project
    collection is not even read: at most the key is looked up. *)
Theorem protected_routes_require_key (c : Call) (w : World) :
  protected c = true -> resolve (key_of c) w = None ->
  db (serve c w) = db w /\
  (log (serve c w) = log w \/ log (serve c w) = log w ++ [Read User]) /\
  (response_error c w = Some (refusal (key_of c) w) \/
   exists pid body key now,
     c = CUpdate pid body key now /\ ProjectUpdate_valid body = false /\
     response_error c w = Some RequestValidationError).
Proof.
  intros Hp Hr. destruct (require_user_refuses _ _ Hr) as (w' & Hu & Hd & Hl).
  destruct c; try discriminate; cbn [key_of serve response_error] in *.
  - rewrite me_run, Hu. cbn. auto.
  - unfold list_projects, bind. rewrite Hu. cbn. auto.
  - unfold create_project, bind. rewrite Hu. cbn. auto.
  - unfold patch_project. destruct (ProjectUpdate_valid body) eqn:Hv.
    + rewrite (update_project_unauthorized _ _ _ _ _ _ _ Hu). cbn. auto.
    + cbn. split; [reflexivity|]. split; [auto|]. right.
      exists project_id, body, x_api_key, now. auto.
  - rewrite (delete_project_unauthorized _ _ _ _ _ Hu). cbn. auto.
  - unfold analyze_text, bind. rewrite Hu. cbn. auto.
Qed.

Lemma protected_routes_require_key_witness :
  (db (serve (CCreate (mkCreate "Mine" None) (Some "no-such-key")
                      "650000000000000000000010" 500 500) sample_world)
     = db sample_world /\
   response_error (CCreate (mkCreate "Mine" None) (Some "no-such-key")
                           "650000000000000000000010" 500 500) sample_world
     = Some (HTTPException 401 "Invalid API key")) /\
  (db (serve (CDelete "65000000000000000000000a" (Some (u_api_key sample_user)))
             sample_world_no_bool)
     = db sample_world_no_bool /\
   response_error (CDelete "65000000000000000000000a" (Some (u_api_key sample_user)))
                  sample_world_no_bool
     = Some NotImplementedError).
Proof.
  split.
  - destruct (protected_routes_require_key
                (CCreate (mkCreate "Mine" None) (Some "no-such-key")
                         "650000000000000000000010" 500 500) sample_world
                eq_refl eq_refl) as (Hd & _ & [He|(pid & body & key & now & Hc & _)]).
    + split; [exact Hd|exact He].
    + discriminate Hc.
  - destruct (protected_routes_require_key
                (CDelete "65000000000000000000000a" (Some (u_api_key sample_user)))
                sample_world_no_bool eq_refl eq_refl)
      as (Hd & _ & [He|(pid & body & key & now & Hc & _)]).
    + split; [exact Hd|exact He].
    + discriminate Hc.
Defined.

(** A request changes the store only if the handle is configured and has
    a truth test. *)
Lemma serve_needs_handle (c : Call) (w : World) :
  db w = None \/ db_has_bool (env w) = false -> db (serve c w) = db w.
Proof.
  intro H.
  assert (Hres : forall key, resolve key w = None).
  { intro key. destruct (resolve key w) as [u|] eqn:Hr; [|reflexivity]. exfalso.
    destruct (resolve_db _ _ _ Hr) as (d & Hd).
    pose proof (require_user_has_bool _ _ _ _ (require_user_resolve_some _ _ _ Hr)) as Hb.
    destruct H as [H|H]; congruence. }
  destruct c.
  - cbn [serve].
    destruct (signup payload salt api_key oid t1 t2 w) as [out w1|e w1] eqn:Hs.
    + exfalso. destruct (signup_inv _ _ _ _ _ _ _ _ _ Hs) as (d & Hd & _).
      pose proof (signup_has_bool _ _ _ _ _ _ _ _ _ Hs) as Hb.
      destruct H as [H|H]; congruence.
    + exact (signup_raise_db _ _ _ _ _ _ _ _ _ Hs).
  - apply (keeps_login same_db same_db_refl same_db_trans).
  - apply (keeps_me same_db same_db_refl same_db_trans).
  - apply (keeps_list_projects same_db same_db_refl same_db_trans).
  - exact (proj1 (protected_unauthorized (CCreate payload x_api_key oid t1 t2) w
                    (Hres x_api_key))).
  - exact (proj1 (protected_unauthorized (CUpdate project_id body x_api_key now) w
                    (Hres x_api_key))).
  - exact (proj1 (protected_unauthorized (CDelete project_id x_api_key) w (Hres x_api_key))).
  - exact (proj1 (protected_unauthorized (CAnalyze payload x_api_key now) w
                    (Hres x_api_key))).
Qed.

(** X23. Without a store, or on a handle that has no truth test, no
    sequence of requests stores anything: every look-up of a user fails
    or finds nothing before a handler reaches its write, so no signup
    succeeds and no request is authenticated. *)
Theorem nothing_stored_without_handle (cs : list Call) (w : World) :
  db w = None \/ db_has_bool (env w) = false ->
  db (serve_all cs w) = db w /\
  (forall payload salt api_key oid t1 t2,
     response_error (CSignup payload salt api_key oid t1 t2) (serve_all cs w) <> None) /\
  (forall key, resolve key (serve_all cs w) = None).
Proof.
  intro H.
  assert (Hdb : db (serve_all cs w) = db w).
  { revert w H. induction cs as [|c cs IH]; intros w H; cbn; [reflexivity|].
    unfold serve_all in IH. rewrite IH.
    - now apply serve_needs_handle.
    - rewrite serve_env, (serve_needs_handle c w H). exact H. }
  assert (H' : db (serve_all cs w) = None \/ db_has_bool (env (serve_all cs w)) = false).
  { rewrite serve_all_env, Hdb. exact H. }
  split; [exact Hdb|]. split.
  - intros payload salt api_key oid t1 t2. cbn [response_error].
    destruct (signup payload salt api_key oid t1 t2 (serve_all cs w)) as [out w1|e w1] eqn:Hs;
      [|discriminate].
    exfalso. destruct (signup_inv _ _ _ _ _ _ _ _ _ Hs) as (d & Hd & _).
    pose proof (signup_has_bool _ _ _ _ _ _ _ _ _ Hs) as Hb.
    destruct H' as [H'|H']; congruence.
  - intro key. destruct (resolve key (serve_all cs w)) as [u|] eqn:Hr; [|reflexivity].
    exfalso. destruct (resolve_db _ _ _ Hr) as (d & Hd).
    pose proof (require_user_has_bool _ _ _ _ (require_user_resolve_some _ _ _ Hr)) as Hb.
    destruct H' as [H'|H']; congruence.
Qed.

Lemma nothing_stored_without_handle_witness :
  db (serve_all sample_calls (fresh_world sample_env_no_bool))
    = db (fresh_world sample_env_no_bool) /\
  users (serve_all sample_calls (fresh_world sample_env_no_bool)) = [].
Proof.
  split; [|reflexivity].
  apply (nothing_stored_without_handle sample_calls (fresh_world sample_env_no_bool)).
  right. reflexivity.
Defined.

Lemma login_world (payload : LoginRequest) (rnd : string) (w : World) :
  world_of (login payload rnd w) = w \/
  world_of (login payload rnd w) = logged (Read User) w.
Proof.
  rewrite login_run, get_user_by_email_run.
  destruct (db w) as [d|]; [destruct (db_has_bool (env w))|]; cbn; auto.
  destruct (find _ (user d)); [|cbn; auto].
  destruct (encode_utf8 _); [|cbn; auto].
  match goal with |- context [if ?b then _ else _] => destruct b end; cbn; auto.
Qed.

(** X4. Login, me and list only read: whatever the request and its
    outcome, both collections are as before and every access made is a
    read. *)
Theorem read_only_routes_only_read (c : Call) (w : World) :
  read_only c = true ->
  db (serve c w) = db w /\
  exists l, log (serve c w) = log w ++ l /\
            Forall (fun a => exists coll, a = Read coll) l.
Proof.
  intro Hc. destruct c; try discriminate; cbn [serve].
  - destruct (login_world payload rnd w) as [-> | ->].
    + split; [reflexivity|]. exists []. rewrite app_nil_r. auto.
    + split; [reflexivity|]. exists [Read User]. split; [reflexivity|].
      repeat constructor. now exists User.
  - rewrite me_run.
    destruct (require_user_cases x_api_key w)
      as [(u & ->)|(e & w' & -> & _ & Hd & _ & Hl)]; cbn.
    + split; [reflexivity|]. exists [Read User]. split; [reflexivity|].
      repeat constructor. now exists User.
    + split; [assumption|]. destruct Hl as [-> | ->].
      * exists []. rewrite app_nil_r. auto.
      * exists [Read User]. split; [reflexivity|]. repeat constructor. now exists User.
  - destruct (require_user_cases x_api_key w)
      as [(u & Hu)|(e & w' & Hu & _ & Hd & _ & Hl)].
    + rewrite (list_projects_run _ _ _ _ Hu).
      match goal with |- context [mapM ProjectOut_of ?l ?w0] =>
        rewrite (proj1 (mapM_ProjectOut_of_world l w0)) end.
      cbn. split; [reflexivity|].
      exists [Read User; Read Project]. rewrite <- app_assoc. split; [reflexivity|].
      repeat constructor; [now exists User|now exists Project].
    + unfold list_projects, bind. rewrite Hu. cbn. split; [assumption|].
      destruct Hl as [-> | ->].
      * exists []. rewrite app_nil_r. auto.
      * exists [Read User]. split; [reflexivity|]. repeat constructor. now exists User.
Qed.

Lemma read_only_routes_only_read_witness :
  db (serve (CLogin (mkLogin "ann@example.com" (codepoints "secret1")) "") sample_world)
    = db sample_world /\
  exists l, log (serve (CLogin (mkLogin "ann@example.com" (codepoints "secret1")) "")
                       sample_world)
              = log sample_world ++ l /\
            Forall (fun a => exists coll, a = Read coll) l.
Proof.
  apply (read_only_routes_only_read
           (CLogin (mkLogin "ann@example.com" (codepoints "secret1")) "") sample_world).
  reflexivity.
Defined.

(** ** Project identifiers *)

Lemma ObjectId_of_str_length (s : string) (oid : ObjectId) :
  ObjectId_of_str s = Some oid -> char_len s = 24%nat.
Proof.
  unfold ObjectId_of_str. destruct (char_len s =? 24)%nat eqn:E; [|discriminate].
  intros _. now apply Nat.eqb_eq.
Qed.

(** The identifiers that the store mints parse to themselves; a string
    of 24 characters with blanks in it parses too, to an identifier of
    fewer bytes, which no minted identifier equals. *)
Example ObjectId_of_str_samples :
  ObjectId_of_str "65000000000000000000000A" = Some "65000000000000000000000a" /\
  ObjectId_of_str "650000000000000000000a  " = Some "650000000000000000000a" /\
  ObjectId_of_str "65 00 00 00 00 00 00 0a " = Some "650000000000000a" /\
  ObjectId_of_str "6 5000000000000000000000" = None /\
  ObjectId_of_str "65000000000000000000000g" = None /\
  ObjectId_of_str "65000000000000000000000" = None.
Proof. repeat split. Qed.

Example update_blank_id_not_found :
  update_project "650000000000000000000a  " (mkUpdate None None None)
                 (Some (u_api_key sample_user)) 400 sample_world
  = Raise (HTTPException 404 "Project not found")
          (mkWorld (db sample_world) [Read User; Read Project] sample_env).
Proof. reflexivity. Qed.

(** X5. For an authenticated caller, update and delete answer 400
    "Invalid project id" to an id that [ObjectId] refuses, in particular
    to every id that is not 24 characters long; the project collection is
    neither read nor written. *)
Theorem malformed_id_is_bad_request
    (pid : string) (payload : ProjectUpdate) (key : option string) (now : datetime)
    (w : World) (u : UserDoc) (w1 : World) :
  require_user key w = Return u w1 ->
  ObjectId_of_str pid = None \/ char_len pid <> 24%nat ->
  update_project pid payload key now w = Raise (HTTPException 400 "Invalid project id") w1 /\
  delete_project pid key w = Raise (HTTPException 400 "Invalid project id") w1 /\
  db w1 = db w /\ log w1 = log w ++ [Read User].
Proof.
  intros Hu Hbad.
  assert (Hoid : ObjectId_of_str pid = None).
  { destruct Hbad as [H|H]; [assumption|].
    destruct (ObjectId_of_str pid) as [oid|] eqn:E; [|reflexivity].
    now apply ObjectId_of_str_length in E. }
  unfold update_project, delete_project, bind. rewrite Hu, Hoid.
  destruct (require_user_inv _ _ _ _ Hu) as (k & d & _ & _ & _ & _ & ->).
  repeat split.
Qed.

Lemma malformed_id_is_bad_request_witness :
  update_project "65000000000000000000000g" (mkUpdate None None None)
                 (Some (u_api_key sample_user)) 400 sample_world
    = Raise (HTTPException 400 "Invalid project id") (logged (Read User) sample_world) /\
  delete_project "65000000000000000000000g" (Some (u_api_key sample_user)) sample_world
    = Raise (HTTPException 400 "Invalid project id") (logged (Read User) sample_world) /\
  db (logged (Read User) sample_world) = db sample_world /\
  log (logged (Read User) sample_world) = log sample_world ++ [Read User].
Proof.
  apply (malformed_id_is_bad_request "65000000000000000000000g" (mkUpdate None None None)
           (Some (u_api_key sample_user)) 400 sample_world sample_user
           (logged (Read User) sample_world)).
  - reflexivity.
  - left. reflexivity.
Defined.

(** ** Creating and deleting projects *)

(** A caller authenticated in a world is authenticated as the same user
    in every world with the same users and the same installation. *)
Lemma resolve_after key w u d w' d' :
  resolve key w = Some u -> db w = Some d -> db w' = Some d' -> user d' = user d ->
  env w' = env w -> resolve key w' = Some u.
Proof.
  intros Hr Hd Hd' Hus He. apply require_user_resolve_some in Hr.
  pose proof (require_user_has_bool _ _ _ _ Hr) as Hb.
  destruct (require_user_inv _ _ _ _ Hr) as (k & d0 & -> & Ht & Hd0 & Hf & _).
  rewrite Hd in Hd0. injection Hd0 as <-.
  apply (require_user_resolve _ _ _ (logged (Read User) w')).
  apply require_user_ok; [assumption|now rewrite He|].
  unfold users. now rewrite Hd', Hus.
Qed.

Lemma remove_first_split {A} (f : A -> bool) (l : list A) (a : A) :
  find f l = Some a ->
  exists l1 l2, l = l1 ++ a :: l2 /\ remove_first f l = l1 ++ l2.
Proof.
  induction l as [|x l IH]; cbn; [discriminate|].
  destruct (f x) eqn:Fx.
  - intro H; injection H as <-. exists [], l. auto.
  - intro H. destruct (IH H) as (l1 & l2 & -> & ->). exists (x :: l1), l2. auto.
Qed.

Lemma remove_first_snoc {A} (f : A -> bool) (l : list A) (a : A) :
  (forall x, In x l -> f x = false) -> f a = true -> remove_first f (l ++ [a]) = l.
Proof.
  induction l as [|x l IH]; cbn; intros Hl Ha.
  - now rewrite Ha.
  - rewrite (Hl x (or_introl eq_refl)). f_equal. apply IH; [|assumption].
    intros y Hy. apply Hl. now right.
Qed.

(** Every item of a listing that returns is the response item of one of
    the documents listed. *)
Lemma mapM_ProjectOut_of_inv (l : list ProjectDoc) (w : World) (outs : list ProjectOut)
    (w' : World) :
  mapM ProjectOut_of l w = Return outs w' ->
  forall o, In o outs -> exists p email, In p l /\ o = out_of email p.
Proof.
  revert outs w'. induction l as [|p l IH]; intros outs w'; cbn [mapM].
  - intro H; injection H as <- _. intros o [].
  - unfold bind.
    destruct (ProjectOut_of_cases p w) as [(email & _ & E)|[_ E]]; rewrite E;
      [|discriminate].
    destruct (mapM ProjectOut_of l w) as [ys w0|e w0] eqn:Hm; [|discriminate].
    intro H; injection H as <- _. intros o [<-|Ho].
    + exists p, email. split; [now left|reflexivity].
    + destruct (IH ys w0 eq_refl o Ho) as (q & em & Hq & ->).
      exists q, em. split; [now right|reflexivity].
Qed.

(** X6. For an authenticated caller, with an identifier the collection
    does not hold yet, create stores a project owned by the caller's
    email, with status "active" and the two clock readings as timestamps,
    and leaves the users untouched; its response is the [ProjectOut(...)]
    built from that project.  When the validator takes the caller's
    address, create returns the project and the owner's next listing
    contains it.  No listing of a user with another email contains a
    project with its id. *)
Theorem created_project_is_owned_and_listed
    (payload : ProjectCreate) (key : option string) (oid : ObjectId) (t1 t2 : datetime)
    (w : World) (u : UserDoc) (w1 : World) :
  require_user key w = Return u w1 ->
  (forall p, In p (projects w) -> p_id p <> oid) ->
  exists w',
    create_project payload key oid t1 t2 w
      = ProjectOut_of (mkProject oid (u_email u) (pc_name payload) (pc_description payload)
                                 "active" t1 t2) w' /\
    projects w' = projects w ++ [mkProject oid (u_email u) (pc_name payload)
                                           (pc_description payload) "active" t1 t2] /\
    users w' = users w /\
    (forall email, EmailStr (env w) (u_email u) = Some email ->
       let out := mkOut oid (pc_name payload) (pc_description payload) "active" email
                        t1 t2 in
       create_project payload key oid t1 t2 w = Return out w' /\
       exists outs w'', list_projects key w' = Return outs w'' /\ In out outs) /\
    (forall key2 v w2 outs w'',
       require_user key2 w' = Return v w2 -> u_email v <> u_email u ->
       list_projects key2 w' = Return outs w'' ->
       forall o, In o outs -> o_id o <> oid).
Proof.
  intros Hu Hfresh. pose proof (require_user_resolve _ _ _ _ Hu) as Hr.
  destruct (require_user_inv _ _ _ _ Hu) as (k & d & _ & _ & Hd & _ & _).
  unfold projects, users in *. rewrite Hd in *.
  assert (Ex : existsb (fun p => p_id p =? oid)%string (project d) = false).
  { apply existsb_false_iff. intros p Hp. apply String.eqb_neq. now apply Hfresh. }
  rewrite (create_project_run payload key oid t1 t2 w u d Hr Hd), Ex.
  fold (create_doc u payload oid t1 t2).
  set (w' := mkWorld _ _ _).
  assert (Hr' : resolve key w' = Some u).
  { now apply (resolve_after key w u d w' _ Hr Hd eq_refl). }
  exists w'. split; [reflexivity|]. split; [reflexivity|]. split; [reflexivity|]. split.
  - intros email He.
    set (out := mkOut oid (pc_name payload) (pc_description payload) "active" email t1 t2).
    assert (Hc : ProjectOut_of (create_doc u payload oid t1 t2) w' = Return out w').
    { unfold ProjectOut_of. cbn [create_doc p_owner_email]. unfold w' at 1. cbn [env].
      now rewrite He. }
    split; [exact Hc|].
    rewrite (list_projects_run _ _ _ _ (require_user_resolve_some _ _ _ Hr')).
    rewrite (mapM_ProjectOut_of_some (u_email u) email _
               (logged (Read Project) (logged (Read User) w')) He).
    + eexists. eexists. split; [reflexivity|].
      change out with (out_of email (create_doc u payload oid t1 t2)).
      apply in_map. apply (Permutation_in _ (Permutation_sym (sort_created_desc_perm _))).
      apply filter_In. split.
      * unfold projects, w'. cbn. apply in_or_app. right. now left.
      * cbn. apply String.eqb_refl.
    + intros p Hp. apply (Permutation_in _ (sort_created_desc_perm _)) in Hp.
      apply filter_In in Hp. now apply String.eqb_eq.
  - intros key2 v w2 outs w'' Hv Hne Hl o Ho.
    rewrite (list_projects_run _ _ _ _ Hv) in Hl.
    destruct (mapM_ProjectOut_of_inv _ _ _ _ Hl o Ho) as (p & em & Hp & ->).
    apply (Permutation_in _ (sort_created_desc_perm _)) in Hp.
    apply filter_In in Hp. destruct Hp as [Hp He]. apply String.eqb_eq in He.
    unfold projects in Hp. cbn in Hp. apply in_app_or in Hp.
    destruct Hp as [Hp|[<-|[]]]; cbn.
    + now apply Hfresh.
    + cbn in He. congruence.
Qed.

Lemma created_project_is_owned_and_listed_witness :
  exists w',
    create_project (mkCreate "Delta" None) (Some (u_api_key sample_other))
                   "65000000000000000000000d" 500 501 sample_world
      = Return (mkOut "65000000000000000000000d" "Delta" None "active" "bob@example.com"
                      500 501) w' /\
    projects w' = projects sample_world
                  ++ [mkProject "65000000000000000000000d" "bob@example.com" "Delta" None
                                "active" 500 501] /\
    users w' = users sample_world /\
    exists outs w'',
      list_projects (Some (u_api_key sample_other)) w' = Return outs w'' /\
      In (mkOut "65000000000000000000000d" "Delta" None "active" "bob@example.com"
                500 501) outs.
Proof.
  destruct (created_project_is_owned_and_listed (mkCreate "Delta" None)
              (Some (u_api_key sample_other)) "65000000000000000000000d" 500 501
              sample_world sample_other (logged (Read User) sample_world) eq_refl)
    as (w' & _ & Hp & Hus & Hout & _).
  - cbn. intros p [<-|[<-|[<-|[]]]]; discriminate.
  - exists w'. destruct (Hout "bob@example.com" eq_refl) as [Hc Hl]. auto.
Defined.

(** X7. Deleting a project the caller owns removes that project and
    nothing else: the other projects keep their order and the users are
    untouched.  Under unique identifiers no project with the id is left,
    so a second delete and any update of the id answer 404. *)
Theorem delete_removes_exactly_the_project
    (pid : string) (oid : ObjectId) (key : option string) (w : World) (u : UserDoc)
    (w1 : World) (p : ProjectDoc) :
  require_user key w = Return u w1 ->
  ObjectId_of_str pid = Some oid ->
  NoDup (map p_id (projects w)) ->
  find (owned_by oid (u_email u)) (projects w) = Some p ->
  exists l1 l2 w',
    delete_project pid key w = Return true w' /\
    projects w = l1 ++ p :: l2 /\
    projects w' = l1 ++ l2 /\
    users w' = users w /\
    (forall q, In q (projects w') -> p_id q <> oid) /\
    (exists w'', delete_project pid key w'
                   = Raise (HTTPException 404 "Project not found") w'') /\
    (forall payload now, exists w'',
        update_project pid payload key now w'
          = Raise (HTTPException 404 "Project not found") w'').
Proof.
  intros Hu Hoid Hnd Hf. pose proof (require_user_resolve _ _ _ _ Hu) as Hr.
  destruct (require_user_inv _ _ _ _ Hu) as (k & d & _ & _ & Hd & _ & _).
  unfold projects, users in *. rewrite Hd in *.
  destruct (remove_first_split _ _ _ Hf) as (l1 & l2 & Hl & Hrem).
  rewrite (delete_project_run pid oid key w u d Hr Hd Hoid), Hf, Hrem.
  set (w' := mkWorld _ _ _).
  assert (Hid : p_id p = oid).
  { destruct (find_some _ _ Hf) as [_ Ho]. unfold owned_by in Ho.
    apply andb_prop in Ho. now apply String.eqb_eq. }
  assert (Hgone : forall q, In q (l1 ++ l2) -> p_id q <> oid).
  { intros q Hq E. rewrite Hl, map_app in Hnd. cbn in Hnd.
    apply NoDup_remove_2 in Hnd. apply Hnd. rewrite <- map_app, Hid, <- E.
    now apply in_map. }
  assert (Hr' : resolve key w' = Some u).
  { now apply (resolve_after key w u d w' _ Hr Hd eq_refl). }
  assert (Hnone : find (owned_by oid (u_email u)) (l1 ++ l2) = None).
  { apply find_none_iff. intros q Hq. apply owned_by_false. intro E.
    now destruct (Hgone q Hq). }
  exists l1, l2, w'. split; [reflexivity|]. split; [assumption|].
  split; [reflexivity|]. split; [reflexivity|]. split; [exact Hgone|]. split.
  - rewrite (delete_project_run pid oid key w' u _ Hr' eq_refl Hoid). cbn [project].
    rewrite Hnone. eexists. reflexivity.
  - intros payload now.
    rewrite (update_project_run pid oid payload key now w' u _ Hr' eq_refl Hoid).
    cbn [project]. rewrite Hnone. eexists. reflexivity.
Qed.

Lemma delete_removes_exactly_the_project_witness :
  exists l1 l2 w',
    delete_project "65000000000000000000000c" (Some (u_api_key sample_other)) sample_world
      = Return true w' /\
    projects sample_world = l1 ++ sample_project_bob :: l2 /\
    projects w' = l1 ++ l2 /\
    users w' = users sample_world /\
    (forall q, In q (projects w') -> p_id q <> "65000000000000000000000c") /\
    (exists w'', delete_project "65000000000000000000000c" (Some (u_api_key sample_other)) w'
                   = Raise (HTTPException 404 "Project not found") w'') /\
    (forall payload now, exists w'',
        update_project "65000000000000000000000c" payload (Some (u_api_key sample_other))
                       now w'
          = Raise (HTTPException 404 "Project not found") w'').
Proof.
  apply (delete_removes_exactly_the_project "65000000000000000000000c"
           "65000000000000000000000c" (Some (u_api_key sample_other)) sample_world
           sample_other (logged (Read User) sample_world) sample_project_bob).
  - reflexivity.
  - reflexivity.
  - cbn. repeat constructor; cbn; intuition discriminate.
  - reflexivity.
Defined.

(** X8. Create followed by delete of the returned id, under the same
    key, gives back the store as it was before the create. *)
Theorem create_then_delete_restores_store
    (payload : ProjectCreate) (key : option string) (oid : ObjectId) (t1 t2 : datetime)
    (w : World) (out : ProjectOut) (w1 : World) :
  ObjectId_of_str oid = Some oid ->
  create_project payload key oid t1 t2 w = Return out w1 ->
  exists w2, delete_project (o_id out) key w1 = Return true w2 /\ db w2 = db w.
Proof.
  intros Hoid Hc.
  destruct (resolve key w) as [u|] eqn:Hr.
  - destruct (resolve_db _ _ _ Hr) as (d & Hd).
    rewrite (create_project_run payload key oid t1 t2 w u d Hr Hd) in Hc.
    destruct (existsb _ (project d)) eqn:Ex; [discriminate|].
    revert Hc. set (w' := mkWorld _ _ _).
    destruct (ProjectOut_of_cases (create_doc u payload oid t1 t2) w')
      as [(email & _ & E)|[_ E]]; rewrite E; [|discriminate].
    intro Hc. injection Hc as <- <-. cbn [out_of o_id create_doc p_id].
    assert (Hr' : resolve key w' = Some u).
    { now apply (resolve_after key w u d w' _ Hr Hd eq_refl). }
    rewrite (delete_project_run oid oid key w' u _ Hr' eq_refl Hoid). cbn [project].
    assert (Hfresh : forall x, In x (project d) -> owned_by oid (u_email u) x = false).
    { intros x Hx. unfold owned_by.
      now rewrite (proj1 (existsb_false_iff _ _) Ex x Hx). }
    assert (Hown : owned_by oid (u_email u) (create_doc u payload oid t1 t2) = true).
    { unfold owned_by. cbn. now rewrite !String.eqb_refl. }
    rewrite find_app_fresh by (now apply find_none_iff). rewrite Hown.
    rewrite (remove_first_snoc _ _ _ Hfresh Hown).
    eexists. split; [reflexivity|]. cbn. rewrite Hd. now destruct d.
  - destruct (require_user_resolve_none _ _ Hr) as (e & w' & Hu & _).
    unfold create_project, bind in Hc. rewrite Hu in Hc. discriminate.
Qed.

Lemma create_then_delete_restores_store_witness :
  exists w2,
    delete_project
      (o_id (mkOut "65000000000000000000000d" "Delta" None "active"
                   (u_email sample_other) 500 501))
      (Some (u_api_key sample_other))
      (world_of (create_project (mkCreate "Delta" None) (Some (u_api_key sample_other))
                                "65000000000000000000000d" 500 501 sample_world))
      = Return true w2 /\
    db w2 = db sample_world.
Proof.
  apply (create_then_delete_restores_store (mkCreate "Delta" None)
           (Some (u_api_key sample_other)) "65000000000000000000000d" 500 501 sample_world).
  - reflexivity.
  - reflexivity.
Defined.

(** ** Invariants of the store, through the five changes *)

(** What the five changes preserve, every sequence of requests preserves. *)
Lemma serve_all_invariant (I : option Database -> Prop) :
  (forall actor d d', Change actor d d' -> I (Some d) -> I (Some d')) ->
  forall cs w, I (db w) -> I (db (serve_all cs w)).
Proof.
  intros HI cs. induction cs as [|c cs IH]; intros w Hw; cbn; [assumption|].
  apply IH. destruct (serve_cases c w) as [->|(_ & d & d' & Hd & -> & Hch)]; [assumption|].
  rewrite Hd in Hw. exact (HI _ _ _ Hch Hw).
Qed.

Lemma in_update_first_keep {A} (f : A -> bool) (g : A -> A) (l : list A) (a : A) :
  In a l -> f a = false -> In a (update_first f g l).
Proof.
  induction l as [|x l IH]; cbn; [intros []|].
  intros [->|Ha] Fa.
  - rewrite Fa. now left.
  - destruct (f x); [now right|]. right. now apply IH.
Qed.

Lemma in_update_first_inv {A} (f : A -> bool) (g : A -> A) (l : list A) (a : A) :
  In a (update_first f g l) -> In a l \/ exists x, In x l /\ a = g x.
Proof.
  induction l as [|x l IH]; cbn; [intros []|].
  destruct (f x); cbn.
  - intros [<-|Ha]; [right; exists x; auto|auto].
  - intros [<-|Ha]; [auto|]. destruct (IH Ha) as [H|(y & Hy & ->)]; [auto|].
    right. exists y. auto.
Qed.

Lemma in_update_first_image {A} (f : A -> bool) (g : A -> A) (l : list A) (a : A) :
  In a l -> In a (update_first f g l) \/ In (g a) (update_first f g l).
Proof.
  induction l as [|x l IH]; cbn; [intros []|].
  intros [->|Ha].
  - destruct (f a); [right|left]; now left.
  - destruct (f x); [left; now right|]. destruct (IH Ha); [left|right]; now right.
Qed.

Lemma in_remove_first_keep {A} (f : A -> bool) (l : list A) (a : A) :
  In a l -> f a = false -> In a (remove_first f l).
Proof.
  induction l as [|x l IH]; cbn; [intros []|].
  intros [->|Ha] Fa.
  - rewrite Fa. now left.
  - destruct (f x); [assumption|]. right. now apply IH.
Qed.

(** X9. A request never changes or removes a project of a user other
    than the one its key resolves to: under unique identifiers, a
    project whose owner is not the caller's email is in the store after
    the request exactly as it was before. *)
Theorem other_users_projects_untouched (c : Call) (w : World) (p : ProjectDoc) :
  NoDup (map p_id (projects w)) ->
  In p (projects w) ->
  (forall u, resolve (key_of c) w = Some u -> u_email u <> p_owner_email p) ->
  In p (projects (serve c w)).
Proof.
  intros Hnd Hp Hother. unfold projects in *.
  destruct (serve_cases c w) as [->|(_ & d & d' & Hd & -> & Hch)]; [assumption|].
  rewrite Hd in *. destruct Hch as [ | | u oid payload now p0 Ha Hu Hv Hf
                                    | u oid p0 Ha Hu Hf | ]; cbn [project]; try assumption.
  - apply in_or_app. now left.
  - apply in_update_first_keep; [assumption|].
    apply String.eqb_neq. intro Hid.
    destruct (find_some _ _ Hf) as [Hin0 Ho]. unfold owned_by in Ho.
    apply andb_prop in Ho. destruct Ho as [Hid0 Hown0].
    apply String.eqb_eq in Hid0, Hown0.
    assert (p = p0) by (apply (NoDup_map_inj p_id (project d)); congruence).
    subst p0. exact (Hother u Ha (eq_sym Hown0)).
  - apply in_remove_first_keep; [assumption|]. apply owned_by_false. intros _ E.
    exact (Hother u Ha (eq_sym E)).
Qed.

Lemma other_users_projects_untouched_witness :
  In sample_project_bob
     (projects (serve (CDelete "65000000000000000000000c" (Some (u_api_key sample_user)))
                      sample_world)).
Proof.
  apply (other_users_projects_untouched
           (CDelete "65000000000000000000000c" (Some (u_api_key sample_user)))
           sample_world sample_project_bob).
  - cbn. repeat constructor; cbn; intuition discriminate.
  - cbn. auto.
  - cbn. intros u H. injection H as <-. discriminate.
Defined.

Lemma change_owners_exist actor d d' :
  Change actor d d' -> owners_exist (Some d) -> owners_exist (Some d').
Proof.
  intros Hch Hok. unfold owners_exist in *. cbn [projects_of users_of] in *.
  destruct Hch as [ | u payload oid t1 t2 Ha Hu Hex
                    | u oid payload now p0 Ha Hu Hv Hf | u oid p0 Ha Hu Hf
                    | u now Ha Hu ]; cbn [project user].
  - intros p Hp. destruct (Hok p Hp) as (x & Hx & E). exists x. split; [|assumption].
    apply in_or_app. now left.
  - intros p Hp. apply in_app_or in Hp. destruct Hp as [Hp|[<-|[]]]; [now apply Hok|].
    exists u. auto.
  - intros p Hp. apply in_update_first_inv in Hp.
    destruct Hp as [Hp|(x & Hx & ->)]; [now apply Hok|]. exact (Hok x Hx).
  - intros p Hp. apply remove_first_incl in Hp. now apply Hok.
  - intros p Hp. destruct (Hok p Hp) as (x & Hx & E).
    destruct (in_update_first_image (fun y => u_email y =? u_email u)%string
                (record_usage now) _ _ Hx) as [H|H].
    + exists x. auto.
    + exists (record_usage now x). auto.
Qed.

(** X10. In every world reached from the empty store, the owner of
    every project is the email of a user of the store: projects are
    created under the caller's email, that field is never updated, and
    users are never removed nor their emails changed. *)
Theorem project_owners_exist (w : World) :
  reachable w ->
  forall p, In p (projects w) ->
            exists u, In u (users w) /\ u_email u = p_owner_email p.
Proof.
  intros (cs & e & ->).
  assert (H : owners_exist (db (serve_all cs (fresh_world e)))).
  { apply serve_all_invariant; [exact change_owners_exist|]. intros p []. }
  exact H.
Qed.

Lemma project_owners_exist_witness :
  reachable (serve_all sample_calls empty_world) /\
  forall p, In p (projects (serve_all sample_calls empty_world)) ->
            exists u, In u (users (serve_all sample_calls empty_world)) /\
                      u_email u = p_owner_email p.
Proof.
  assert (H : reachable (serve_all sample_calls empty_world))
    by (exists sample_calls, sample_env; reflexivity).
  split; [exact H|].
  exact (project_owners_exist (serve_all sample_calls empty_world) H).
Defined.

Lemma status_ok_literal (s : string) : status_ok (Some (Some s)) = true -> status_literal s.
Proof.
  unfold status_ok, status_literal. intro H. apply orb_prop in H.
  destruct H as [H|H]; apply String.eqb_eq in H; auto.
Qed.

Lemma change_schema_ok actor d d' :
  Change actor d d' -> schema_ok (Some d) -> schema_ok (Some d').
Proof.
  intros Hch [Hplan Hstatus]. unfold schema_ok in *. cbn [projects_of users_of] in *.
  destruct Hch as [ payload salt api_key oid t1 t2 Hfree | u payload oid t1 t2 Ha Hu Hex
                    | u oid payload now p0 Ha Hu Hv Hf | u oid p0 Ha Hu Hf
                    | u now Ha Hu ]; cbn [project user]; split; try assumption.
  - intros x Hx. apply in_app_or in Hx. destruct Hx as [Hx|[<-|[]]]; [now apply Hplan|].
    left. reflexivity.
  - intros p Hp. apply in_app_or in Hp. destruct Hp as [Hp|[<-|[]]]; [now apply Hstatus|].
    left. reflexivity.
  - intros p Hp. apply in_update_first_inv in Hp.
    destruct Hp as [Hp|(x & Hx & ->)]; [now apply Hstatus|].
    unfold patched. cbn [p_status]. unfold ProjectUpdate_valid in Hv.
    destruct (pu_status payload) as [[s|]|]; [now apply status_ok_literal| |];
      now apply Hstatus.
  - intros p Hp. apply remove_first_incl in Hp. now apply Hstatus.
  - intros x Hx. apply in_update_first_inv in Hx.
    destruct Hx as [Hx|(y & Hy & ->)]; [now apply Hplan|]. exact (Hplan y Hy).
Qed.

(** X11. In every world reached from the empty store the documents obey
    the literals of [schemas.py]: the plan of every user is "free" or
    "pro" (it is "free" at signup and never written again), and the
    status of every project is "active" or "archived" (it is "active" at
    creation and an update is validated before it is applied). *)
Theorem stored_documents_obey_schema (w : World) :
  reachable w ->
  (forall u, In u (users w) -> plan_literal (u_plan u)) /\
  (forall p, In p (projects w) -> status_literal (p_status p)).
Proof.
  intros (cs & e & ->).
  assert (H : schema_ok (db (serve_all cs (fresh_world e)))).
  { apply serve_all_invariant; [exact change_schema_ok|]. split; intros x []. }
  exact H.
Qed.

Lemma stored_documents_obey_schema_witness :
  (forall u, In u (users (serve_all sample_calls empty_world)) -> plan_literal (u_plan u)) /\
  (forall p, In p (projects (serve_all sample_calls empty_world)) ->
             status_literal (p_status p)).
Proof.
  apply (stored_documents_obey_schema (serve_all sample_calls empty_world)).
  exists sample_calls, sample_env. reflexivity.
Defined.

Example sample_calls_result :
  projects (serve_all sample_calls empty_world)
  = [mkProject "65000000000000000000000a" "ann@example.com" "Alpha" (Some "first")
               "archived" 200 300] /\
  map usage (users (serve_all sample_calls empty_world)) = [1].
Proof. split; reflexivity. Qed.

Lemma persists_refl a : persists a a.
Proof.
  intros e u H. exists u. split; [assumption|]. split; [apply same_identity_refl|lia].
Qed.

Lemma persists_trans a b c : persists a b -> persists b c -> persists a c.
Proof.
  intros Hab Hbc e u H. destruct (Hab e u H) as (v & Hv & Huv & Hle).
  destruct (Hbc e v Hv) as (x & Hx & Hvx & Hle'). exists x. split; [assumption|].
  split; [eapply same_identity_trans; eassumption|lia].
Qed.

Lemma find_update_first_usage (e : string) f now (l : list UserDoc) (u : UserDoc) :
  find (fun x => u_email x =? e)%string l = Some u ->
  exists u', find (fun x => u_email x =? e)%string (update_first f (record_usage now) l)
             = Some u' /\ same_identity u u' /\ usage u <= usage u'.
Proof.
  induction l as [|a l IH]; cbn; [discriminate|].
  destruct (f a) eqn:Fa; cbn.
  - destruct (u_email a =? e)%string.
    + intro H; injection H as <-. eexists. split; [reflexivity|].
      split; [apply same_identity_record_usage|]. rewrite usage_record_usage. lia.
    + intro H. exists u. split; [assumption|]. split; [apply same_identity_refl|lia].
  - destruct (u_email a =? e)%string.
    + intro H; injection H as <-. exists a. split; [reflexivity|].
      split; [apply same_identity_refl|lia].
    + exact IH.
Qed.

Lemma change_persists actor d d' : Change actor d d' -> persists (Some d) (Some d').
Proof.
  intros Hch e x Hx. cbn [users_of] in *.
  destruct Hch; cbn [user];
    try (exists x; split; [assumption|]; split; [apply same_identity_refl|lia]).
  - exists x. split; [now apply find_app_some|]. split; [apply same_identity_refl|lia].
  - now apply find_update_first_usage.
Qed.

(** X12. No sequence of requests removes a user, changes the identity an
    email resolves to (id, name, email, plan, digest, salt, key and
    creation time stay the same: no handler rotates a key or rewrites a
    password) or lowers its usage counter. *)
Theorem users_persist (cs : list Call) (w : World) (e : string) (u : UserDoc) :
  find (fun x => u_email x =? e)%string (users w) = Some u ->
  exists u',
    find (fun x => u_email x =? e)%string (users (serve_all cs w)) = Some u' /\
    same_identity u u' /\ usage u <= usage u'.
Proof.
  revert w u. induction cs as [|c cs IH]; intros w u H; cbn.
  - exists u. split; [assumption|]. split; [apply same_identity_refl|lia].
  - assert (Hstep : persists (db w) (db (serve c w))).
    { destruct (serve_cases c w) as [->|(_ & d & d' & Hd & -> & Hch)];
        [apply persists_refl|]. rewrite Hd. exact (change_persists _ _ _ Hch). }
    destruct (Hstep e u H) as (v & Hv & Huv & Hle).
    destruct (IH (serve c w) v Hv) as (x & Hx & Hvx & Hle').
    exists x. split; [assumption|]. split; [eapply same_identity_trans; eassumption|lia].
Qed.

Lemma users_persist_witness :
  exists u',
    find (fun x => u_email x =? "bob@example.com")%string
         (users (serve_all [CAnalyze (mkAnalyze (codepoints "hi"))
                              (Some (u_api_key sample_other)) 900;
                            CDelete "65000000000000000000000c"
                              (Some (u_api_key sample_other))]
                   sample_world)) = Some u' /\
    same_identity sample_other u' /\ usage sample_other <= usage u'.
Proof.
  apply (users_persist [CAnalyze (mkAnalyze (codepoints "hi"))
                          (Some (u_api_key sample_other)) 900;
                        CDelete "65000000000000000000000c"
                          (Some (u_api_key sample_other))]
           sample_world "bob@example.com" sample_other).
  reflexivity.
Defined.

(** X13. In every world reached from the empty store an email belongs
    to one user document and an identifier to one project document:
    signup refuses an email that is taken and the store refuses an
    identifier that is. *)
Theorem reachable_keys_are_unique (w : World) :
  reachable w ->
  (forall u v, In u (users w) -> In v (users w) -> u_email u = u_email v -> u = v) /\
  (forall p q, In p (projects w) -> In q (projects w) -> p_id p = p_id q -> p = q).
Proof.
  intro Hr. destruct (reachable_store_ok w Hr) as [Hu Hp]. split.
  - intros u v. apply NoDup_map_inj. exact Hu.
  - intros p q. apply NoDup_map_inj. exact Hp.
Qed.

Lemma reachable_keys_are_unique_witness :
  (forall u v, In u (users (serve_all sample_calls empty_world)) ->
               In v (users (serve_all sample_calls empty_world)) ->
               u_email u = u_email v -> u = v) /\
  (forall p q, In p (projects (serve_all sample_calls empty_world)) ->
               In q (projects (serve_all sample_calls empty_world)) ->
               p_id p = p_id q -> p = q).
Proof.
  apply (reachable_keys_are_unique (serve_all sample_calls empty_world)).
  exists sample_calls, sample_env. reflexivity.
Defined.

(** ** Accounts *)

(** X20. When the look-up by email returns, signup answers by what it
    found.  A user with the email: 400 "Email already registered", and
    nothing is inserted.  No user with it, on a configured store (and the
    identifier and the key drawn for the new user not already in the
    collection): the document is appended, signup returns the key it
    drew, and [me] under that key answers with the name, the email, the
    plan and the key of the user just created. *)
Theorem signup_conflict_or_usable_key
    (payload : SignupRequest) (salt api_key : string) (oid : ObjectId)
    (t1 t2 : datetime) (w : World) (found : option UserDoc) (w1 : World) :
  get_user_by_email (sr_email payload) w = Return found w1 ->
  found = find (fun u => u_email u =? sr_email payload)%string (users w) /\
  (forall u, found = Some u ->
     signup payload salt api_key oid t1 t2 w
       = Raise (HTTPException 400 "Email already registered") w1 /\
     db w1 = db w) /\
  (found = None -> db w <> None ->
   is_token_hex 24 api_key = true ->
   (forall u, In u (users w) -> u_id u <> oid) ->
   (forall u, In u (users w) -> u_api_key u <> api_key) ->
   exists out w' w'',
     signup payload salt api_key oid t1 t2 w = Return out w' /\
     so_api_key out = api_key /\
     users w' = users w ++ [signup_doc payload salt api_key oid t1 t2] /\
     projects w' = projects w /\
     me (Some (so_api_key out)) w'
       = Return (mkAuthOut api_key "free" (sr_name payload) (sr_email payload)) w'' /\
     db w'' = db w').
Proof.
  intro Hg. destruct (get_user_by_email_inv _ _ _ _ Hg) as (Hfound & Hd1 & _ & _ & Hb).
  split; [exact Hfound|]. split.
  - intros u ->. split; [|exact Hd1]. now rewrite signup_run, Hg.
  - intros -> Hdb Htok Hid Hkey. destruct w as [[d|] lg e]; [|contradiction].
    cbn [db env] in *. destruct Hb as [Hb|Hb]; [discriminate|].
    unfold users, projects in *. cbn [db] in *.
    eexists. eexists. eexists.
    split; [apply signup_fresh; auto|].
    cbn [so_api_key db user project]. split; [reflexivity|]. split; [reflexivity|].
    split; [reflexivity|].
    unfold me. rewrite (is_token_hex_truthy _ _ Htok).
    unfold bind. rewrite get_user_by_api_key_run. cbn [db env user]. rewrite Hb.
    rewrite find_app_fresh.
    + cbn [signup_doc u_api_key]. rewrite String.eqb_refl. cbn. split; reflexivity.
    + apply find_none_iff. intros u Hu. apply String.eqb_neq. now apply Hkey.
Qed.

Lemma signup_conflict_or_usable_key_witness :
  (signup (mkSignup "Ann again" "ann@example.com" "another")
          "0123456789abcdef0123456789abcdef"
          "cccccccccccccccccccccccccccccccccccccccccccccccc"
          "650000000000000000000003" 500 501 sample_world
     = Raise (HTTPException 400 "Email already registered")
             (logged (Read User) sample_world) /\
   db (logged (Read User) sample_world) = db sample_world) /\
  (exists out w' w'',
     signup (mkSignup "Cy" "cy@example.com" "s3cret!")
            "0123456789abcdef0123456789abcdef"
            "cccccccccccccccccccccccccccccccccccccccccccccccc"
            "650000000000000000000003" 500 501 sample_world = Return out w' /\
     so_api_key out = "cccccccccccccccccccccccccccccccccccccccccccccccc" /\
     users w' = users sample_world ++
                  [signup_doc (mkSignup "Cy" "cy@example.com" "s3cret!")
                     "0123456789abcdef0123456789abcdef"
                     "cccccccccccccccccccccccccccccccccccccccccccccccc"
                     "650000000000000000000003" 500 501] /\
     projects w' = projects sample_world /\
     me (Some (so_api_key out)) w'
       = Return (mkAuthOut "cccccccccccccccccccccccccccccccccccccccccccccccc" "free"
                           "Cy" "cy@example.com") w'' /\
     db w'' = db w').
Proof.
  split.
  - apply (proj1 (proj2 (signup_conflict_or_usable_key
                           (mkSignup "Ann again" "ann@example.com" "another")
                           "0123456789abcdef0123456789abcdef"
                           "cccccccccccccccccccccccccccccccccccccccccccccccc"
                           "650000000000000000000003" 500 501 sample_world
                           (Some sample_user) (logged (Read User) sample_world) eq_refl))
             sample_user eq_refl).
  - apply (proj2 (proj2 (signup_conflict_or_usable_key
                           (mkSignup "Cy" "cy@example.com" "s3cret!")
                           "0123456789abcdef0123456789abcdef"
                           "cccccccccccccccccccccccccccccccccccccccccccccccc"
                           "650000000000000000000003" 500 501 sample_world
                           None (logged (Read User) sample_world) eq_refl))).
    + reflexivity.
    + discriminate.
    + reflexivity.
    + cbn. intros u [<-|[<-|[]]]; discriminate.
    + cbn. intros u [<-|[<-|[]]]; discriminate.
Defined.

(** X21. When the look-up by email returns and the password has a UTF-8
    encoding, the two failures of login are answered alike: 401 "Invalid
    credentials", in the same world, when no user has the email and when
    a user has it but the digest recomputed from the stored salt and the
    supplied password is not the stored digest; the store is untouched. *)
Theorem login_failures_indistinguishable
    (payload : LoginRequest) (rnd : string) (w : World) (found : option UserDoc)
    (w1 : World) :
  get_user_by_email (lr_email payload) w = Return found w1 ->
  found = None \/
  (exists u password,
     found = Some u /\ encode_utf8 (lr_password payload) = Some password /\
     fst (_hash_password rnd password (Some (u_password_salt u))) <> u_password_hash u) ->
  found = find (fun u => u_email u =? lr_email payload)%string (users w) /\
  login payload rnd w = Raise (HTTPException 401 "Invalid credentials") w1 /\
  db w1 = db w.
Proof.
  intros Hg H. destruct (get_user_by_email_inv _ _ _ _ Hg) as (Hfound & Hd1 & _).
  split; [exact Hfound|]. split; [|exact Hd1]. rewrite login_run, Hg.
  destruct H as [-> | (u & password & -> & -> & Hne)]; [reflexivity|].
  unfold verify. apply String.eqb_neq in Hne. now rewrite Hne.
Qed.

Lemma login_failures_indistinguishable_witness :
  login (mkLogin "nobody@example.com" (codepoints "secret1")) "" sample_world
    = Raise (HTTPException 401 "Invalid credentials") (logged (Read User) sample_world) /\
  login (mkLogin "ann@example.com" (codepoints "secret2")) "" sample_world
    = Raise (HTTPException 401 "Invalid credentials") (logged (Read User) sample_world).
Proof.
  split.
  - apply (login_failures_indistinguishable
             (mkLogin "nobody@example.com" (codepoints "secret1")) "" sample_world
             None (logged (Read User) sample_world) eq_refl).
    left. reflexivity.
  - apply (login_failures_indistinguishable
             (mkLogin "ann@example.com" (codepoints "secret2")) "" sample_world
             (Some sample_user) (logged (Read User) sample_world) eq_refl).
    right. exists sample_user, "secret2". split; [reflexivity|]. split; [reflexivity|].
    vm_compute. discriminate.
Defined.

(** X14. The key that login returns authenticates the same account:
    [me] under it answers with the very summary login returned, provided
    the key is not empty and no other user holds it (the keys are drawn
    at random at signup and never checked for uniqueness). *)
Theorem login_key_authenticates
    (payload : LoginRequest) (rnd : string) (w : World) (out : AuthOut) (w1 : World) :
  login payload rnd w = Return out w1 ->
  NoDup (map u_api_key (users w)) ->
  ao_api_key out <> "" ->
  exists w2, me (Some (ao_api_key out)) w1 = Return out w2.
Proof.
  intros Hl Hnd Hne. rewrite login_run, get_user_by_email_run in Hl.
  unfold users in Hnd.
  destruct (db w) as [d|] eqn:Hd; [|discriminate].
  destruct (db_has_bool (env w)) eqn:Hb; [|discriminate].
  destruct (find _ (user d)) as [u|] eqn:Hf; [|discriminate].
  destruct (encode_utf8 _); [|discriminate].
  match type of Hl with context [if ?b then _ else _] => destruct b end; [|discriminate].
  injection Hl as <- <-. cbn [ao_api_key] in *.
  assert (Hin : In u (user d)) by exact (proj1 (find_some _ _ Hf)).
  assert (Hk : find (fun x => u_api_key x =? u_api_key u)%string
                    (users (logged (Read User) w)) = Some u).
  { unfold users. cbn. rewrite Hd. now apply find_unique_key. }
  assert (Ht : truthy (Some (u_api_key u)) = true).
  { destruct (u_api_key u); [contradiction|reflexivity]. }
  rewrite me_run, (require_user_ok _ _ (logged (Read User) w) Ht Hb Hk).
  eexists. reflexivity.
Qed.

Lemma login_key_authenticates_witness :
  exists w2,
    me (Some (ao_api_key (mkAuthOut (u_api_key sample_user) "free" "Ann" "ann@example.com")))
       (logged (Read User) sample_world)
      = Return (mkAuthOut (u_api_key sample_user) "free" "Ann" "ann@example.com") w2.
Proof.
  apply (login_key_authenticates (mkLogin "ann@example.com" (codepoints "secret1")) ""
           sample_world).
  - vm_compute. reflexivity.
  - cbn. repeat constructor; cbn; intuition discriminate.
  - discriminate.
Defined.

(** X15. Once a signup has succeeded its email stays taken: whatever
    requests are served in between, a later signup with the same email
    is refused with 400 "Email already registered" and stores nothing. *)
Theorem email_stays_taken
    (payload : SignupRequest) (salt api_key : string) (oid : ObjectId) (t1 t2 : datetime)
    (w : World) (out : SignupOut) (w1 : World) (cs : list Call)
    (payload2 : SignupRequest) (salt2 api_key2 : string) (oid2 : ObjectId)
    (t3 t4 : datetime) :
  signup payload salt api_key oid t1 t2 w = Return out w1 ->
  sr_email payload2 = sr_email payload ->
  exists w',
    signup payload2 salt2 api_key2 oid2 t3 t4 (serve_all cs w1)
      = Raise (HTTPException 400 "Email already registered") w' /\
    db w' = db (serve_all cs w1).
Proof.
  intros Hs He. destruct (signup_inv _ _ _ _ _ _ _ _ _ Hs) as (d & Hd & Hfree & Hd1 & _).
  assert (Hf : find (fun x => u_email x =? sr_email payload)%string (users w1)
               = Some (signup_doc payload salt api_key oid t1 t2)).
  { unfold users. rewrite Hd1. cbn [user]. rewrite (find_app_fresh _ _ _ Hfree).
    cbn [signup_doc u_email]. now rewrite String.eqb_refl. }
  destruct (serve_all_email_stable cs w1 _ _ Hf) as (u' & Hu' & _).
  rewrite <- He in Hu'. apply (signup_conflict _ _ _ _ _ _ _ u'); [|exact Hu'].
  right. exact (signup_then_has_bool _ _ _ _ _ _ _ _ _ cs Hs).
Qed.

Lemma email_stays_taken_witness :
  exists w',
    signup (mkSignup "Impostor" "cy@example.com" "whatever")
           "ffffffffffffffffffffffffffffffff"
           "dddddddddddddddddddddddddddddddddddddddddddddddd"
           "650000000000000000000004" 800 800
           (serve_all [CMe (Some "cccccccccccccccccccccccccccccccccccccccccccccccc")]
              (world_of (signup (mkSignup "Cy" "cy@example.com" "s3cret!")
                           "0123456789abcdef0123456789abcdef"
                           "cccccccccccccccccccccccccccccccccccccccccccccccc"
                           "650000000000000000000003" 500 501 sample_world)))
      = Raise (HTTPException 400 "Email already registered") w' /\
    db w' = db (serve_all [CMe (Some "cccccccccccccccccccccccccccccccccccccccccccccccc")]
                  (world_of (signup (mkSignup "Cy" "cy@example.com" "s3cret!")
                               "0123456789abcdef0123456789abcdef"
                               "cccccccccccccccccccccccccccccccccccccccccccccccc"
                               "650000000000000000000003" 500 501 sample_world))).
Proof.
  apply (email_stays_taken (mkSignup "Cy" "cy@example.com" "s3cret!")
           "0123456789abcdef0123456789abcdef"
           "cccccccccccccccccccccccccccccccccccccccccccccccc" "650000000000000000000003"
           500 501 sample_world
           (mkSignupOut "650000000000000000000003"
              "cccccccccccccccccccccccccccccccccccccccccccccccc" "free" "Cy"
              "cy@example.com")).
  - reflexivity.
  - reflexivity.
Defined.

(** X16. Whatever [_hash_password] is given as salt (nothing, the empty
    string or a salt), the pair it returns verifies: the salt returned
    is the one the digest was computed with.  It is the given salt when
    that is not empty, and the token drawn otherwise. *)
Theorem hash_pair_verifies (rnd rnd' password : string) (salt : option string) :
  rnd <> "" ->
  snd (_hash_password rnd password salt) <> "" /\
  verify rnd' password (snd (_hash_password rnd password salt))
         (fst (_hash_password rnd password salt)) = true /\
  (truthy salt = true -> Some (snd (_hash_password rnd password salt)) = salt) /\
  (truthy salt = false -> snd (_hash_password rnd password salt) = rnd).
Proof.
  intro Hrnd.
  assert (Hcases : (truthy salt = true /\ Some (snd (_hash_password rnd password salt)) = salt)
                   \/ (truthy salt = false /\ snd (_hash_password rnd password salt) = rnd)).
  { destruct salt as [[|c s]|]; cbn; auto. }
  assert (Hne : snd (_hash_password rnd password salt) <> "").
  { destruct Hcases as [[Ht E]|[_ ->]]; [|assumption].
    rewrite <- E in Ht. intro E0. rewrite E0 in Ht. discriminate. }
  split; [assumption|]. split.
  - unfold verify. rewrite (hash_password_salted _ _ _ Hne). cbn [fst].
    destruct salt as [[|c s]|]; cbn [_hash_password truthy fst snd]; apply String.eqb_refl.
  - split; intro Ht; destruct Hcases as [[Ht' E]|[Ht' E]]; congruence.
Qed.

Lemma hash_pair_verifies_witness :
  snd (_hash_password "0123456789abcdef0123456789abcdef" "s3cret!" (Some "")) <> "" /\
  verify "" "s3cret!"
         (snd (_hash_password "0123456789abcdef0123456789abcdef" "s3cret!" (Some "")))
         (fst (_hash_password "0123456789abcdef0123456789abcdef" "s3cret!" (Some ""))) = true /\
  (truthy (Some "") = true ->
   Some (snd (_hash_password "0123456789abcdef0123456789abcdef" "s3cret!" (Some "")))
     = Some "") /\
  (truthy (Some "") = false ->
   snd (_hash_password "0123456789abcdef0123456789abcdef" "s3cret!" (Some ""))
     = "0123456789abcdef0123456789abcdef").
Proof.
  apply (hash_pair_verifies "0123456789abcdef0123456789abcdef" "" "s3cret!" (Some "")).
  discriminate.
Defined.

(** ** More on the analysis *)

Lemma count_tokens_from_le (b : bool) (s : list N) :
  (count_tokens_from b s <= List.length s)%nat.
Proof.
  revert b. induction s as [|c s IH]; intro b; cbn; [lia|].
  destruct (isspace c).
  - specialize (IH false). lia.
  - specialize (IH true). destruct b; lia.
Qed.

Lemma count_tokens_pos (s : list N) c t :
  s = c :: t -> isspace c = false -> (1 <= count_tokens s)%nat.
Proof. intros -> Hc. unfold count_tokens. cbn. rewrite Hc. lia. Qed.

Lemma strip_length_le (s : list N) : (List.length (strip s) <= List.length s)%nat.
Proof.
  destruct (strip_spec s) as (l & r & Hs & _).
  rewrite Hs at 2. rewrite !length_app. lia.
Qed.

Lemma analyze_success_resolves payload key now w out w' :
  analyze_text payload key now w = Return out w' -> exists u, resolve key w = Some u.
Proof.
  intro H. destruct (resolve key w) as [u|] eqn:Hr; [now exists u|].
  destruct (require_user_resolve_none _ _ Hr) as (dt & w1 & Hu & _).
  unfold analyze_text, bind in H. rewrite Hu in H. discriminate.
Qed.

(** X17. A successful analysis reports at least one word, no more words
    than characters, no more characters than the text submitted, and a
    preview that is a prefix of the trimmed text of length
    [min 80 characters]. *)
Theorem analysis_result_bounds
    (payload : AnalyzeRequest) (key : option string) (now : datetime)
    (w : World) (out : AnalyzeOut) (w' : World) :
  analyze_text payload key now w = Return out w' ->
  (1 <= an_words out)%nat /\
  (an_words out <= an_characters out)%nat /\
  (an_characters out <= List.length (ar_text payload))%nat /\
  List.length (an_preview out) = Nat.min 80 (an_characters out) /\
  exists rest, strip (ar_text payload) = an_preview out ++ rest.
Proof.
  intro H. destruct (analyze_success_resolves _ _ _ _ _ _ H) as (u & Hr).
  rewrite (analyze_text_run payload key now w u _ (require_user_resolve_some _ _ _ Hr)) in H.
  destruct (strip (ar_text payload)) as [|c t] eqn:Hs; [discriminate|].
  rewrite <- Hs in H |- *.
  assert (E : out = mkAnalyzeOut (u_email u) (u_plan u)
                      (count_tokens (strip (ar_text payload)))
                      (List.length (strip (ar_text payload)))
                      (firstn 80 (strip (ar_text payload)))) by congruence.
  rewrite E. clear H E. cbn [an_words an_characters an_preview].
  destruct (strip_spec (ar_text payload)) as (l & r & _ & _ & _ & Hhead & _).
  split; [|split; [|split; [|split]]].
  - eapply count_tokens_pos; [exact Hs|]. eapply Hhead. exact Hs.
  - apply count_tokens_from_le.
  - apply strip_length_le.
  - apply length_firstn.
  - exists (skipn 80 (strip (ar_text payload))). symmetry. apply firstn_skipn.
Qed.

Lemma analysis_result_bounds_witness :
  (1 <= 2)%nat /\ (2 <= 11)%nat /\
  (11 <= List.length (codepoints "  hello world  "))%nat /\
  List.length (codepoints "hello world") = Nat.min 80 11 /\
  exists rest, strip (codepoints "  hello world  ") = codepoints "hello world" ++ rest.
Proof.
  apply (analysis_result_bounds (mkAnalyze (codepoints "  hello world  "))
           (Some (u_api_key sample_user)) 600 sample_world
           (mkAnalyzeOut "ann@example.com" "free" 2 11 (codepoints "hello world"))
           (world_of (analyze_text (mkAnalyze (codepoints "  hello world  "))
                                   (Some (u_api_key sample_user)) 600 sample_world))).
  reflexivity.
Defined.

(** X18. White space around the text does not matter: padding the text
    with white space on either side changes neither the response of the
    analysis (words, characters, preview, error) nor the world it
    leaves.  Trimming is idempotent. *)
Theorem analysis_ignores_padding
    (l s r : list N) (key : option string) (now : datetime) (w : World) :
  forallb isspace l = true -> forallb isspace r = true ->
  analyze_text (mkAnalyze (l ++ s ++ r)) key now w = analyze_text (mkAnalyze s) key now w /\
  strip (strip s) = strip s.
Proof.
  intros Hl Hr. split.
  - unfold analyze_text. cbn [ar_text]. now rewrite (strip_padding l s r Hl Hr).
  - destruct (strip_spec s) as (l' & r' & Hs & Hl' & Hr' & _).
    rewrite Hs at 2. symmetry. now apply strip_padding.
Qed.

Lemma analysis_ignores_padding_witness :
  analyze_text (mkAnalyze (codepoints "  " ++ codepoints "hello world" ++ codepoints "  "))
               (Some (u_api_key sample_user)) 600 sample_world
    = analyze_text (mkAnalyze (codepoints "hello world"))
                   (Some (u_api_key sample_user)) 600 sample_world /\
  strip (strip (codepoints "hello world")) = strip (codepoints "hello world").
Proof.
  apply (analysis_ignores_padding (codepoints "  ") (codepoints "hello world")
           (codepoints "  ") (Some (u_api_key sample_user)) 600 sample_world).
  - reflexivity.
  - reflexivity.
Defined.

(** ** Validation of the signup body *)

(** X19. A signup request whose password has fewer than six characters,
    or whose email the validator refuses, is answered 422 before the
    handler runs: no user is created and the store is not even read.  A
    body that passes reaches [signup] with the normalised email, so every
    user stored through the route has an email the validator returned. *)
Theorem short_password_is_refused
    (validate_email : string -> option string)
    (name email password salt api_key : string) (oid : ObjectId) (t1 t2 : datetime)
    (w : World) :
  ((char_len password < 6)%nat \/ validate_email email = None ->
   post_signup validate_email name email password salt api_key oid t1 t2 w
     = Raise RequestValidationError w) /\
  (forall out w',
     post_signup validate_email name email password salt api_key oid t1 t2 w
       = Return out w' ->
     (6 <= char_len password)%nat /\
     validate_email email = Some (so_email out) /\
     exists l u, users w' = l ++ [u] /\ u_email u = so_email out /\
                 u_password_hash u = hashlib.sha256_hexdigest (salt ++ password)%string).
Proof.
  unfold post_signup, SignupRequest_validate. split.
  - intros [Hlen | ->]; [|reflexivity].
    destruct (validate_email email); [|reflexivity].
    replace (6 <=? char_len password)%nat with false; [reflexivity|].
    symmetry. apply Nat.leb_gt. exact Hlen.
  - intros out w'. destruct (validate_email email) as [e|]; [|discriminate].
    destruct (6 <=? char_len password)%nat eqn:Hlen; [|discriminate].
    intro Hs. destruct (signup_inv _ _ _ _ _ _ _ _ _ Hs) as (d & Hd & _ & Hd1 & ->).
    split; [now apply Nat.leb_le|]. split; [reflexivity|].
    exists (user d), (signup_doc (mkSignup name e password) salt api_key oid t1 t2).
    unfold users. rewrite Hd1. repeat split.
Qed.

Lemma short_password_is_refused_witness :
  post_signup (fun s => Some s) "Dee" "dee@example.com" "12345"
              "0123456789abcdef0123456789abcdef"
              "eeeeeeeeeeeeeeeeeeeeeeeeeeeeeeeeeeeeeeeeeeeeeeee"
              "650000000000000000000005" 900 900 sample_world
    = Raise RequestValidationError sample_world.
Proof.
  apply (short_password_is_refused (fun s => Some s) "Dee" "dee@example.com" "12345"
           "0123456789abcdef0123456789abcdef"
           "eeeeeeeeeeeeeeeeeeeeeeeeeeeeeeeeeeeeeeeeeeeeeeee"
           "650000000000000000000005" 900 900 sample_world).
  left. cbn. lia.
Defined.
